(* ===== verification/_CoqProject ===== *)
-Q . S2P
Prelude.v
Float64.v
Json.v
Store.v
Frame.v
Hub.v
Payout.v
Worker.v
Agent.v
Protocol.v
WebsiteApi.v
Jwt.v
Config.v
Account.v
Auth.v
System.v
Race.v
Progress.v
Deploy.v
Conservation.v
