(* ===== verification/Prelude.v ===== *)
(** * Verification of gopher-uptime: the coordination and settlement core

    HEADER (kept up to date with the development; see the end of this
    comment for what is not modelled).

    The program (Go) is a decentralised uptime monitor.  A hub
    (src/cmd/hub/main.go) keeps websocket connections to remote
    validator agents (second half of src/cmd/api/main.go, lines 116-352),
    sends them probe tasks every minute, and records each reply as a
    WebsiteTick while crediting the replying validator with
    COST_PER_VALIDATION = 100 lamports.  An HTTP API
    (src/internal/handlers/user/handler.go, RequestPayout) moves a
    validator's pending credit into a RabbitMQ queue, and a payout worker
    (second half of src/internal/models/models.go, lines 83-348) drains
    the queue, sends a Solana transfer, polls for finality and records a
    PayoutTransaction.  All persistent state lives in Postgres through
    GORM (first half of models.go gives the tables).  The same API
    serves user accounts (Signup and Login issue JWT session tokens)
    and, behind a JWT middleware, the websites a user monitors, which
    are what the hub's monitoring loop probes.

    Files (in dependency order, see _CoqProject):
    - [Prelude]  this file: the state monad used by every component and
      its notation ([uptime_scope]), the shared lemmas on sums over lists,
      the hint databases [uptime] and [st_simpl] and the tactic [st_go].
    - [Float64]  Go's float64 on the amounts: [round_f64], the float64
      nearest an integer (what reading a decimal column into a float64
      field gives), and [round_f64_div], a rounded float64 quotient.
    - [Json]     JSON values and the part of Go's encoding/json the code
      relies on: decoding an object into a struct (case-insensitive keys,
      last key wins, null is a no-op, a type mismatch is an error) and
      encoding maps (sorted keys) and structs (field order).  Every
      message of the protocol is a JSON value of this type.
    - [Store]    the GORM models (User, Website, Validator, WebsiteTick,
      PayoutTransaction), the database as finite maps, the constraints
      Postgres enforces (foreign keys, unique public key, the range of
      the decimal(20,2) and decimal(10,2) columns), and the [World] the
      components share: database, payout queue, outbound websocket
      frames, uuid supply, clock, and a schedule of I/O faults.
      Fallible calls consume one bit of the fault schedule, so every
      theorem quantifies over all failure patterns.
    - [Frame]    frame conditions: [keeps R m] says that every run of
      [m] relates the world before and after by [R] (the queue left
      alone, a reliable world kept reliable, the uuid supply never
      moving back: [uuid_grows]); proved once for the primitives and
      then for whole handlers by the tactic [keeps_solve].
    - [Hub]      the hub: connection registry, callback table,
      handleWebSocket, handleSignup, handleValidate, removeValidator,
      startMonitoring (one ticker iteration) and createValidateCallback,
      whose closures are defunctionalised into the [Callback] type.
    - [Payout]   RequestPayout (zero-and-enqueue) and GetValidatorBalance.
    - [Worker]   the payout worker: processPayoutRequest,
      executeSolanaTransfer and waitForConfirmation against a Solana
      node given as a stream of RPC answers.
    - [Agent]    the validator agent (ValidatorClient): signup, the
      listener step with handleSignupResponse and handleValidateRequest,
      and the probe goroutine validateWebsite; a Go panic is the
      listener result [Panicked].  Signing is a section variable, the
      HTTP GET an input.
    - [Protocol] hub and agent together: each side's frames decoded by
      the other side, and one whole probe cycle.
    - [System]   the processes together: a step relation [step] whose
      steps are the hub's frame handling, ticks and disconnections,
      the API's requests (payouts, balances, the protected website
      routes, signup and login) and the worker's deliveries on the
      shared world, and the ledger of a validator.
    - [Race]     handleValidate split into its three critical sections
      (lookup, callback, delete) and run under a schedule of threads.
    - [Progress] the worker's consuming loop ([consume n], n turns of
      Start's [for d := range msgs]) and when it drains the queue.
    - [Deploy]   the three main functions: the API's startup (fatal
      checks, the worker started only with PLATFORM_PRIVATE_KEY, its
      goroutine declaring payout_queue) and its whole route table
      ([route], [serve_api]); database.Connect; the hub's main, NewHub
      and its ticker loop [startMonitoring]; the agent's main,
      NewValidatorClient and Connect.
    - [Conservation] the ledger computed over any run of labelled
      steps: what each step loses, and the freshness of payout ids as
      a system invariant.  The broker is the set of
      declared queues: a publish to an undeclared queue on the default
      exchange is discarded (mandatory=false).  The external services
      are the answers of a record [Infra].
    - [WebsiteApi] the website handlers of
      src/internal/handlers/website/handler.go (CreateWebsite,
      GetWebsites, GetWebsiteStatus, DeleteWebsite) as world actions on
      the shared database; responses are the status code and the
      payload as serialized (a website without its ticks).
    - [Jwt]      src/internal/utils/jwt.go: GenerateJWT and VerifyJWT
      over the class [JwtLib], which states what the code takes from
      golang-jwt/v5 (signing, the unverified split of a token, the
      signature check) with the laws of a symbolic MAC; jwt.Parse in
      v5's order; [sym_jwt] is a concrete instance that runs the
      examples.
    - [Config]   src/internal/config/config.go: Load and getEnv over
      the environment.
    - [Account]  Signup and Login of src/internal/handlers/user/handler.go
      over the users table, with bcrypt as the class [Bcrypt]
      (instance [sym_bcrypt] for the examples).
    - [Auth]     src/internal/middleware/auth.go (AuthMiddleware) and
      the protected route group of src/cmd/api/main.go: the middleware,
      then the website handler as the token's subject.

    What the theorems show (claim ids of the manifest in brackets):
    - System: with a reliable database and queue, in every execution
      (any frames from any sender, any interleaving of the processes,
      any behaviour of the Solana node) in which credits stay at most
      2^53 lamports, no validator's pending credit plus queued amounts
      plus submitted payouts ever exceeds its initial value plus 100
      per recorded tick [C1].
    - Protocol: a whole probe cycle (dispatch, agent probe and reply,
      hub handling) records one tick and one credit for the answering
      agent and leaves no callback behind [C2]; the agent's reply is
      read by the hub as the same fields, "Good" exactly for HTTP 200;
      the hub's task is read by the agent as the same url,
      callback id and website id; the signup handshake
      round-trips both ways and its reply is consumed once [C18]; a
      probe answered before the signup reply is dropped [C25].
    - Hub: under every fault schedule credit minus 100 per recorded
      tick is invariant [C3]; a valid reply records one tick and one
      credit [C4]; sequentially a callback runs at most once [C5], but
      two concurrent replies can both run it [C6], where the three
      sections run alone are handleValidate [C27].  Signup never checks
      the signature: a registered key binds its validator to any
      connection [C14]; an unknown key creates a validator with no
      credit.  One monitoring tick registers exactly
      |websites| * |validators| fresh callbacks [C15].  Disconnection
      leaves a stale entry when a connection signed up twice [C19] and
      otherwise drops exactly the closed connection's entry in every
      map iteration order.  Callbacks are never expired: a
      registered callback survives every step, disconnection of its
      validator included, until a reply with its id arrives [C28].
    - Payout: unless the update or commit fails after the publish,
      pending credit plus queued amounts is conserved for a credit
      that reads exactly as a float64 [C7]; the fault-free run queues
      the credit as read into a float64 and zeroes it [C8]; that read
      is off by at most credit / 2^53 and exact up to 2^53 lamports,
      and what is owed changes by exactly that error [C22]; a late
      failure leaves the credit and the queued request both in place
      [C11]; a non-positive credit is "cleared" with no effect; the
      queue message round-trips through JSON.
    - Worker: a transfer that cannot be sent is refunded [C9], also end
      to end from the request [C10]; a finalized transfer is recorded
      completed, even when the node reports an error for it [C12]; an
      unconfirmed or failed transfer is recorded failed and not
      refunded [C13]; the confirmation wait is bounded by 15 polls [C23].
      With a reliable world one delivery keeps every ledger exactly,
      except that an unsent transfer whose refund the decimal(20,2)
      column rejects loses its amount.
    - Conservation: in every run from a reliable world with unused
      undrawn payout ids, each ledger ends equal to its start minus
      exactly those lost refunds and the float64 rounding of the
      credits payout requests read: no step of any process creates or
      destroys money otherwise [C24].
    - Progress (liveness): with a reliable database the worker empties
      a queue of recordable requests in as many turns as it holds,
      whatever the Solana node does [C17]; a request whose record can
      never be created (no validator row, amount out of range) is
      requeued at the head forever and blocks every request behind it
      [C21].
    - Agent: a malformed signup reply kills the agent [C26].
    - Deploy: once the API's worker has declared payout_queue, every
      sequence of requests the route table serves keeps a reliable
      world reliable and raises no ledger [C20]; with
      PLATFORM_PRIVATE_KEY unset no process ever declares the queue,
      and a payout request answers "queued" and zeroes the credit
      while the broker discards the message [C16].
    - System: a payout message redelivered after a lost ack is paid
      a second time [C29].
    - WebsiteApi: DeleteWebsite changes only the caller's own website
      [C30], and a deleted website gets no new probe on the next tick
      [C31]; no response depends on the ticks table, since the
      preloaded ticks are not serialized [C32]; the list handler's
      preload loads at most 100 ticks over all websites together
      [C33]; a created website reads back for its owner and is 404 for
      every other user [C34].
    - Auth and Account: a token Login issues authenticates its user
      for 24 hours [C35]; every protected route runs only as the
      subject of a token signed under the configured secret, or
      answers 401 with no effect [C36]; Signup then Login succeeds
      exactly for the signed-up password [C37]; with JWT_SECRET unset
      the default secret in config.go lets anyone act as any user
      [C38]; Signup keeps ids and emails of the users table unique
      [C39]; a password over bcrypt's 72 bytes passes validation and
      fails with 500 [C40].

    Plan of the development (in order of importance), for the
    sittings to come: (1) done: store, hub reply path, payout
    request, worker; (2) done: the hub's signup, dispatch loop and
    disconnection; (3) done: the validator agent and the protocol
    between it and the hub; (4) done: the system step relation with
    the ledger bound, and the handleValidate race; (5) done: the
    callback leak on disconnect, redelivery of payout messages, the
    website CRUD handlers; (6) done: JWT utilities, the auth
    middleware with the protected routes, configuration loading, user
    signup and login, and the website and account handlers as steps
    of the system relation; (7) done: the worker loop's progress and
    its poison messages, the three main functions and the route
    table, and the exact ledger across whole runs (with the freshness
    of payout ids as a system invariant); (8) next: the exact ledger
    under faults (which late failures duplicate or lose money, and by
    how much).

    Fuel and bounds: waitForConfirmation polls every 2 s until a 30 s
    deadline, so the model polls at most 30/2 = 15 times (the fuel is
    that number, not an arbitrary bound).  Amounts and latencies are
    integers (lamports, milliseconds); the Postgres decimal columns
    bound them (10^18 for pending_payouts and amounts, 10^8 for the
    latency) and the model raises the database error Postgres raises
    beyond that bound.  Postgres does the arithmetic on the columns in
    decimal; the handlers read pending_payouts into a Go float64, which
    [round_f64] models exactly (integers up to 10^18 are far from the
    float64 overflow and subnormal ranges).

    Not modelled: the React front end (src/web); the inside of the
    libraries the code only calls (bcrypt, golang-jwt and the HMAC
    itself are the classes [Bcrypt] and [JwtLib] with their laws;
    godotenv, gorm's connection pool and the dials are the answers of
    [Infra]); the CORS middleware main.go installs (it is not defined
    under src/) and gin's logger, recovery and trailing-slash
    redirects, none of which changes the world; the listener
    goroutine Connect starts, which is Agent.v's [listen] run on its
    own, and the agent's wait for an interrupt, which changes no state; the error path of the worker's
    setup (a failing QueueDeclare, Qos or Consume ends the API process
    through log.Fatal); the byte-level JSON syntax (frames are JSON trees, a
    malformed frame is a distinguished value); ed25519 signatures (the
    hub never verifies them, and the worker's signing is the node's
    business); base58 beyond the decoded-length check of
    PublicKeyFromBase58; the text of validator and library error
    messages; and real time (the clock is a counter, read as Unix
    seconds by the JWT expiry checks). *)

From stdpp Require Export base gmap strings list pretty sorting.
From Stdlib Require Export ZArith Lia.

Declare Scope uptime_scope.
Delimit Scope uptime_scope with up.
Open Scope uptime_scope.

(** ** A state monad.

    Go threads its effects (database, queue, sockets) through the
    receiver's fields; the model threads one explicit state. *)
Definition ST (S A : Type) : Type := S -> A * S.

Definition st_ret {S A} (a : A) : ST S A := fun s => (a, s).
Definition st_bind {S A B} (m : ST S A) (k : A -> ST S B) : ST S B :=
  fun s => let '(a, s') := m s in k a s'.
Definition st_get {S} : ST S S := fun s => (s, s).
Definition st_put {S} (s : S) : ST S unit := fun _ => (tt, s).
Definition st_modify {S} (f : S -> S) : ST S unit := fun s => (tt, f s).
Definition st_map {S A B} (f : A -> B) (m : ST S A) : ST S B :=
  fun s => let '(a, s') := m s in (f a, s').

Notation "'let*' x ':=' m 'in' k" := (st_bind m (fun x => k))
  (at level 10, x name, m at level 100, k at level 200) : uptime_scope.
Notation "'let*' ' p ':=' m 'in' k" := (st_bind m (fun x => match x with p => k end))
  (at level 10, p pattern, m at level 100, k at level 200) : uptime_scope.
Notation "m ;;; k" := (st_bind m (fun _ => k))
  (at level 100, right associativity) : uptime_scope.

(** Running an action and keeping only the final state or result. *)
Definition exec {S A} (m : ST S A) (s : S) : S := snd (m s).
Definition eval {S A} (m : ST S A) (s : S) : A := fst (m s).

(** A loop over a list (Go's [for _, x := range xs]). *)
Fixpoint st_iter {S A} (f : A -> ST S unit) (xs : list A) : ST S unit :=
  match xs with
  | [] => st_ret tt
  | x :: xs' => f x ;;; st_iter f xs'
  end.

(** ** Sums over lists, for the accounting of credits. *)
Definition sumZ {A} (f : A -> Z) (l : list A) : Z :=
  fold_right (fun x acc => (f x + acc)%Z) 0%Z l.

Lemma st_bind_ret_l {S A B} (a : A) (k : A -> ST S B) (s : S) :
  st_bind (st_ret a) k s = k a s.
Proof. reflexivity. Qed.

Lemma st_bind_assoc {S A B C} (m : ST S A) (k : A -> ST S B) (h : B -> ST S C) (s : S) :
  st_bind (st_bind m k) h s = st_bind m (fun a => st_bind (k a) h) s.
Proof. unfold st_bind. by destruct (m s). Qed.

Lemma st_bind_apply {S A B} (m : ST S A) (k : A -> ST S B) (s : S) :
  st_bind m k s = k (fst (m s)) (snd (m s)).
Proof. unfold st_bind. by destruct (m s). Qed.

Lemma st_iter_app {S A} (f : A -> ST S unit) (xs ys : list A) (s : S) :
  st_iter f (xs ++ ys) s = st_bind (st_iter f xs) (fun _ => st_iter f ys) s.
Proof.
  revert s. induction xs as [|x xs IH]; intros s; simpl; [done|].
  rewrite !st_bind_apply. rewrite IH, st_bind_apply. done.
Qed.

Lemma exec_st_iter_cons {S A} (f : A -> ST S unit) x xs (s : S) :
  exec (st_iter f (x :: xs)) s = exec (st_iter f xs) (exec (f x) s).
Proof. unfold exec. simpl. by rewrite st_bind_apply. Qed.

Lemma exec_bind {S A B} (m : ST S A) (k : A -> ST S B) (s : S) :
  exec (st_bind m k) s = exec (k (eval m s)) (exec m s).
Proof. unfold exec, eval. by rewrite st_bind_apply. Qed.

Lemma exec_seq {S A B} (m : ST S A) (k : ST S B) (s : S) :
  exec (m ;;; k) s = exec k (exec m s).
Proof. unfold exec. by rewrite st_bind_apply. Qed.

(** Invariants of a loop body lift to the loop. *)
Lemma st_iter_preserves {S A} (P : S -> Prop) (f : A -> ST S unit) (xs : list A) :
  (forall x s, P s -> P (snd (f x s))) ->
  forall s, P s -> P (snd (st_iter f xs s)).
Proof.
  intros Hf. induction xs as [|x xs IH]; intros s Hs; simpl; [done|].
  rewrite st_bind_apply. apply IH, Hf, Hs.
Qed.

(** The same, for a body that preserves the invariant on the loop's
    elements only. *)
Lemma st_iter_preserves_in {S A} (P : S -> Prop) (f : A -> ST S unit) (xs : list A) :
  (forall x s, x ∈ xs -> P s -> P (snd (f x s))) ->
  forall s, P s -> P (snd (st_iter f xs s)).
Proof.
  intros Hf. induction xs as [|x xs IH]; intros s Hs; simpl; [done|].
  rewrite st_bind_apply. apply IH; [|apply Hf; [left|done]].
  intros y s' Hy. apply Hf. by right.
Qed.

Lemma sumZ_app {A} (f : A -> Z) l1 l2 : sumZ f (l1 ++ l2) = (sumZ f l1 + sumZ f l2)%Z.
Proof. induction l1; simpl; lia. Qed.

Lemma sumZ_cons {A} (f : A -> Z) x l : sumZ f (x :: l) = (f x + sumZ f l)%Z.
Proof. reflexivity. Qed.

Lemma sumZ_nil {A} (f : A -> Z) : sumZ f [] = 0%Z.
Proof. reflexivity. Qed.

Lemma sumZ_ext {A} (f g : A -> Z) l :
  (forall x, x ∈ l -> f x = g x) -> sumZ f l = sumZ g l.
Proof.
  induction l as [|x l IH]; intros H; simpl; [done|].
  rewrite H by set_solver. rewrite IH; [done|]. set_solver.
Qed.

(** Sums of naturals over lists (stdpp's [sum_list_with]). *)
Lemma sum_list_with_ext_in {A} (f g : A -> nat) l :
  (forall x, x ∈ l -> f x = g x) -> sum_list_with f l = sum_list_with g l.
Proof.
  induction l as [|x l IH]; intros H; simpl; [done|].
  rewrite H, IH; [done| |left]. intros y Hy. apply H. by right.
Qed.

Lemma sum_list_with_zero {A} (f : A -> nat) l :
  (forall x, x ∈ l -> f x = 0%nat) -> sum_list_with f l = 0%nat.
Proof. intros H. rewrite (sum_list_with_ext_in f (fun _ => 0%nat)) by done. clear H. induction l; simpl; lia. Qed.

Lemma sum_list_with_plus {A} (f g : A -> nat) l :
  sum_list_with (fun x => f x + g x)%nat l = (sum_list_with f l + sum_list_with g l)%nat.
Proof. induction l; simpl; lia. Qed.

(** Over a list without duplicates, a value is met at most once. *)
Lemma count_at_most_one `{EqDecision A} (x : A) ids :
  NoDup ids -> (sum_list_with (fun i => if bool_decide (x = i) then 1 else 0) ids <= 1)%nat.
Proof.
  induction 1 as [|i ids Hi Hnd IH]; simpl; [lia|]. case_bool_decide as Hx; [|exact IH].
  subst. rewrite sum_list_with_zero; [lia|]. intros j Hj. rewrite bool_decide_eq_false_2; [done|].
  by intros ->.
Qed.

(** Splitting a list by a key that takes distinct values never counts
    an element twice. *)
Lemma filters_partition `{EqDecision K} {A} (key : A -> K) (ids : list K) (l : list A) :
  NoDup ids -> (sum_list_with (fun i => length (filter (fun a => key a = i) l)) ids <= length l)%nat.
Proof.
  intros Hnd. induction l as [|a l IH]; simpl.
  - rewrite sum_list_with_zero; [lia|done].
  - rewrite (sum_list_with_ext_in _ (fun i => (if bool_decide (key a = i) then 1 else 0) +
        length (filter (fun a => key a = i) l))%nat).
    + rewrite sum_list_with_plus. pose proof (count_at_most_one (key a) ids Hnd). lia.
    + intros i _. rewrite filter_cons. case_bool_decide; case_decide; simpl; tauto.
Qed.

Lemma sumZ_Permutation {A} (f : A -> Z) l1 l2 : l1 ≡ₚ l2 -> sumZ f l1 = sumZ f l2.
Proof. induction 1; simpl; lia. Qed.

Lemma sumZ_nonneg {A} (f : A -> Z) l :
  (forall x, x ∈ l -> (0 <= f x)%Z) -> (0 <= sumZ f l)%Z.
Proof.
  induction l as [|x l IH]; intros H; simpl; [lia|].
  assert (0 <= f x)%Z by (apply H; set_solver).
  assert (0 <= sumZ f l)%Z by (apply IH; set_solver). lia.
Qed.

Create HintDb uptime discriminated.
Create Rewrite HintDb st_simpl.
#[export] Hint Rewrite @st_bind_ret_l @st_bind_assoc @sumZ_app @sumZ_cons @sumZ_nil : st_simpl.
#[export] Hint Resolve sumZ_nonneg : uptime.

(** Unfold the monad plumbing of a goal about a concrete handler. *)
Ltac st_go :=
  repeat (unfold st_bind, st_ret, st_get, st_put, st_modify, exec, eval in *; simpl in *).
