(* ===== verification/Float64.v ===== *)
(** * float64 values of the amounts

    The GORM models declare Validator.PendingPayouts and the payout
    amounts as Go [float64] over [decimal(20,2)] columns
    (src/internal/models/models.go lines 39 and 70).  The arithmetic on
    the column is done by Postgres in decimal ("pending_payouts + ?"),
    and every amount the program handles is a whole number of lamports,
    so the column holds integers up to 10^18.  Reading the column into a
    float64 (gorm's First into models.Validator) rounds it to the
    nearest IEEE 754 binary64 value, ties to even: exactly below 2^53,
    to a multiple of [2^(log2 x - 52)] above.  [round_f64] is that
    rounding on integers; [round_f64_div] is the rounded quotient of a
    float64 division, used by GetValidatorBalance for the amount in
    SOL.  The magnitudes stay far below the float64 overflow bound and
    above its subnormal range, so neither is modelled. *)

From S2P Require Import Prelude.
From Stdlib Require Import QArith.

#[local] Open Scope Z_scope.

(** Round half to even of [n / d], for [0 < d]. *)
Definition round_half_even (n d : Z) : Z :=
  let q := n / d in
  let r := n mod d in
  if (d <? 2 * r) || ((2 * r =? d) && Z.odd q) then q + 1 else q.

(** The float64 nearest to an integer. *)
Definition round_f64 (x : Z) : Z :=
  let a := Z.abs x in
  if a <=? 2 ^ 53 then x
  else let s := Z.log2 a - 52 in Z.sgn x * (round_half_even a (2 ^ s) * 2 ^ s).

(** [n / d] scaled by [2^-e], as a numerator and a denominator. *)
Definition scaled (n d e : Z) : Z * Z :=
  if 0 <=? e then (n, d * 2 ^ e) else (n * 2 ^ (- e), d).

(** The float64 nearest to [n / d] ([0 < d], [n <> 0]): the scale [e] puts
    the quotient in [[2^52, 2^53)] before rounding. *)
Definition round_f64_div (n d : Z) : Q :=
  let a := Z.abs n in
  let e0 := Z.log2 a - Z.log2 d - 53 in
  let e := if 2 ^ 53 <=? (scaled a d e0).1 / (scaled a d e0).2 then e0 + 1 else e0 in
  let v := Z.sgn n * round_half_even (scaled a d e).1 (scaled a d e).2 in
  if 0 <=? e then inject_Z (v * 2 ^ e) else Qmake v (Z.to_pos (2 ^ (- e))).

#[global] Arguments round_f64 : simpl never.

(** ** Lemmas. *)

Lemma round_half_even_bound n d :
  0 < d -> Z.abs (round_half_even n d * d - n) * 2 <= d.
Proof.
  intros Hd. unfold round_half_even.
  pose proof (Z.div_mod n d ltac:(lia)) as Hdm. pose proof (Z.mod_pos_bound n d Hd) as Hr.
  destruct (d <? 2 * (n mod d)) eqn:H1; simpl;
    [|destruct (2 * (n mod d) =? d) eqn:H2; simpl; [destruct (Z.odd (n / d))|]];
    rewrite ?Z.ltb_lt, ?Z.ltb_ge, ?Z.eqb_eq, ?Z.eqb_neq in *; lia.
Qed.

Lemma round_f64_exact x : Z.abs x <= 2 ^ 53 -> round_f64 x = x.
Proof. intros H. unfold round_f64. by rewrite (proj2 (Z.leb_le _ _) H). Qed.

(** Half an ulp: the error of the read is at most [|x| / 2^53]. *)
Lemma round_f64_error x : 2 ^ 53 * Z.abs (round_f64 x - x) <= Z.abs x.
Proof.
  unfold round_f64. destruct (Z.abs x <=? 2 ^ 53) eqn:Hs; [rewrite Z.sub_diag; simpl; lia|].
  apply Z.leb_gt in Hs. set (a := Z.abs x) in *.
  assert (Ha : 53 <= Z.log2 a) by (apply Z.log2_le_pow2; lia).
  set (s := Z.log2 a - 52).
  pose proof (round_half_even_bound a (2 ^ s) ltac:(apply Z.pow_pos_nonneg; lia)) as Hb.
  assert (Hp : 2 ^ s = 2 * 2 ^ (s - 1)) by (rewrite <- Z.pow_succ_r by lia; f_equal; lia).
  assert (Hlog : 2 ^ 53 * 2 ^ (s - 1) <= a).
  { rewrite <- Z.pow_add_r by lia. replace (53 + (s - 1)) with (Z.log2 a) by lia.
    apply Z.log2_spec. lia. }
  set (m := round_half_even a (2 ^ s) * 2 ^ s) in *.
  destruct (Z.sgn_spec x) as [[Hpos Hsg]|[[H0 Hsg]|[Hneg Hsg]]]; rewrite Hsg; [|lia|].
  - assert (a = x) by (unfold a; lia). rewrite Z.mul_1_l. subst a. lia.
  - assert (a = - x) by (unfold a; lia). lia.
Qed.

Lemma round_f64_pos x : 0 < round_f64 x <-> 0 < x.
Proof. pose proof (round_f64_error x). split; intros; nia. Qed.

Lemma round_f64_0 : round_f64 0 = 0.
Proof. by apply round_f64_exact. Qed.
