(* ===== verification/Json.v ===== *)
(** * JSON values and the encoding/json behaviour the program relies on

    Every message of the program is JSON: the hub/agent websocket frames
    ([IncomingMessage], [OutgoingMessage] in src/cmd/hub/main.go and in
    the agent, src/cmd/api/main.go lines 143-162) and the RabbitMQ payout
    message ([PayoutRequest], user/handler.go lines 33-37 and
    models.go lines 108-112).  Messages are JSON trees; numbers are
    integers (lamports and milliseconds are the only numbers sent).

    Decoding into a struct follows Go's [json.Unmarshal]: an object's
    keys are matched to the struct's json tags exactly or up to ASCII
    case folding, a later key overwrites an earlier one, [null] leaves
    the field unchanged, and a value of the wrong type leaves the field
    unchanged but makes the whole call return an error (decoding goes
    on, which matters where the caller ignores the error).  A top-level
    [null] decodes to the zero struct without error; any other non-object
    is an error.  Encoding a [map[string]...] sorts its keys bytewise;
    encoding a struct keeps the field order. *)

From S2P Require Import Prelude.

#[local] Set Warnings "-register-all".

Inductive json : Type :=
| JNull
| JBool (b : bool)
| JNum (n : Z)
| JStr (s : string)
| JArr (l : list json)
| JObj (kvs : list (string * json)).

(** ** Key matching: exact or ASCII case-insensitive. *)
Definition ascii_lower (c : Ascii.ascii) : Ascii.ascii :=
  let n := Ascii.nat_of_ascii c in
  if (65 <=? n)%nat && (n <=? 90)%nat then Ascii.ascii_of_nat (n + 32) else c.

Fixpoint fold_string (s : string) : string :=
  match s with
  | EmptyString => EmptyString
  | String c s' => String (ascii_lower c) (fold_string s')
  end.

Definition key_matches (field key : string) : bool :=
  bool_decide (key = field) || bool_decide (fold_string key = fold_string field).

(** ** Decoding one struct field.

    [conv v] is [None] when [v] has the wrong type for the field,
    [Some None] for [null] (no effect) and [Some (Some a)] for a value.
    The result is the field's final value and whether an error was
    recorded. *)
Fixpoint dec_field {A} (conv : json -> option (option A)) (name : string)
    (acc : A) (kvs : list (string * json)) : A * bool :=
  match kvs with
  | [] => (acc, false)
  | (k, v) :: rest =>
      if key_matches name k then
        match conv v with
        | None => let '(a, _) := dec_field conv name acc rest in (a, true)
        | Some None => dec_field conv name acc rest
        | Some (Some a) => dec_field conv name a rest
        end
      else dec_field conv name acc rest
  end.

Definition as_string (v : json) : option (option string) :=
  match v with JStr s => Some (Some s) | JNull => Some None | _ => None end.

Definition as_number (v : json) : option (option Z) :=
  match v with JNum n => Some (Some n) | JNull => Some None | _ => None end.

(** A [json.RawMessage] field takes any value, [null] included. *)
Definition as_raw (v : json) : option (option (option json)) := Some (Some (Some v)).

(** A raw message as received: [None] is the empty (absent) message,
    on which [json.Unmarshal] fails with "unexpected end of JSON input". *)
Definition raw := option json.

(** Decoding a raw message into a struct: [fields kvs] decodes the
    fields of an object. *)
Definition dec_struct {T} (zero : T) (fields : list (string * json) -> T * bool)
    (r : raw) : T * bool :=
  match r with
  | None => (zero, true)
  | Some JNull => (zero, false)
  | Some (JObj kvs) => fields kvs
  | Some _ => (zero, true)
  end.

(** [err == nil] after [json.Unmarshal]. *)
Definition unmarshal_ok {T} (r : T * bool) : option T :=
  if r.2 then None else Some r.1.

(** ** Generic access to a decoded [interface{}] object (the agent's
    [map[string]interface{}]): exact key, last occurrence wins. *)
Fixpoint obj_lookup (k : string) (kvs : list (string * json)) : option json :=
  match kvs with
  | [] => None
  | (k', v) :: rest =>
      match obj_lookup k rest with
      | Some v' => Some v'
      | None => if bool_decide (k' = k) then Some v else None
      end
  end.

(** ** Encoding.  Go sorts the keys of a map bytewise. *)
Definition key_le (a b : string * json) : Prop := String.le a.1 b.1.
#[export] Instance key_le_dec : RelDecision key_le.
Proof. intros a b. unfold key_le. apply _. Defined.

Definition marshal_map (kvs : list (string * json)) : json :=
  JObj (merge_sort key_le kvs).

Definition marshal_string_map (kvs : list (string * string)) : json :=
  marshal_map ((fun '(k, v) => (k, JStr v)) <$> kvs).

(** ** Decoding into [interface{}].  An object becomes a
    [map[string]interface{}]: a repeated key keeps its last value, and
    re-encoding the map (the agent's [json.Marshal(data)]) lists the
    keys sorted.  [iface v] is the JSON a decoded-then-re-encoded
    [interface{}] value has. *)
Fixpoint iface (v : json) : json :=
  match v with
  | JArr l => JArr (map iface l)
  | JObj kvs =>
      marshal_map (map_to_list
        (list_to_map (reverse (map (fun '(k, x) => (k, iface x)) kvs)) : gmap string json))
  | _ => v
  end.

(** An [interface{}] struct field takes any value; [null] sets it to nil. *)
Definition as_iface (v : json) : option (option json) := Some (Some (iface v)).

(** ** Lemmas on field decoding. *)

Lemma dec_field_app {A} conv name (acc : A) kvs1 kvs2 :
  dec_field conv name acc (kvs1 ++ kvs2) =
  let '(a, e1) := dec_field conv name acc kvs1 in
  let '(b, e2) := dec_field conv name a kvs2 in (b, e1 || e2).
Proof.
  revert acc. induction kvs1 as [|[k v] kvs1 IH]; intros acc; simpl.
  - by destruct (dec_field conv name acc kvs2).
  - destruct (key_matches name k); [|apply IH].
    destruct (conv v) as [[a|]|]; [apply IH|apply IH|].
    rewrite IH. destruct (dec_field conv name acc kvs1) as [a e1].
    destruct (dec_field conv name a kvs2) as [b e2]. done.
Qed.

(** Keys that do not match the field do not affect it. *)
Lemma dec_field_skip {A} conv name (acc : A) kvs :
  Forall (fun kv => key_matches name kv.1 = false) kvs ->
  dec_field conv name acc kvs = (acc, false).
Proof.
  revert acc. induction kvs as [|[k v] kvs IH]; intros acc Hall; simpl; [done|].
  inversion Hall as [|? ? Hk Hrest]; subst. simpl in Hk. rewrite Hk. by apply IH.
Qed.

(** A single well-typed occurrence of the field determines it. *)
Lemma dec_field_single {A} conv name (acc a : A) k v pre post :
  key_matches name k = true ->
  conv v = Some (Some a) ->
  Forall (fun kv => key_matches name kv.1 = false) (pre ++ post) ->
  dec_field conv name acc (pre ++ (k, v) :: post) = (a, false).
Proof.
  intros Hk Hv Hall. apply Forall_app in Hall as [Hpre Hpost].
  rewrite dec_field_app, (dec_field_skip _ _ _ _ Hpre). simpl.
  rewrite Hk, Hv, (dec_field_skip _ _ _ _ Hpost). done.
Qed.

Lemma key_matches_refl name : key_matches name name = true.
Proof. unfold key_matches. by rewrite bool_decide_eq_true_2. Qed.

#[export] Hint Resolve key_matches_refl : uptime.
