(* ===== verification/Store.v ===== *)
(** * The ledger store and the world the components share

    The GORM models of src/internal/models/models.go (lines 1-82) as
    records, the Postgres database as finite maps keyed by primary key
    (the append-only WebsiteTick table as a list in insertion order),
    and the constraints Postgres enforces on them: foreign keys of
    WebsiteTick and PayoutTransaction, the unique index on
    Validator.PublicKey, the ranges of decimal(20,2) and decimal(10,2)
    columns and the length of varchar(50).

    [World] is what the hub, the API and the worker share: the
    database, the RabbitMQ payout queue, the websocket frames written so
    far, the uuid supply, the clock and a fault schedule.  Every call
    that can fail for reasons outside the program (a dropped database
    connection, a failed socket write, a broker error) consumes one bit
    of [faults]: [true] makes that call fail.  An empty schedule means
    no further faults.  Components whose state contains a [World]
    implement the [HasWorld] interface and run the primitives here
    through [lift]. *)

From S2P Require Import Prelude Json.

(** ** Models (models.go). *)
Module User.
Record User := mkUser { ID : string; Email : string; Password : string }.
End User.

Module Website.
Record Website := mkWebsite {
  ID : string; URL : string; UserID : string; Disabled : bool; CreatedAt : Z }.
End Website.

Module Validator.
Record Validator := mkValidator {
  ID : string; PublicKey : string; Location : string; IP : string;
  PendingPayouts : Z; CreatedAt : Z }.
End Validator.

Module WebsiteTick.
Record WebsiteTick := mkWebsiteTick {
  ID : string; WebsiteID : string; ValidatorID : string; Status : string;
  Latency : Z; CreatedAt : Z }.
End WebsiteTick.

Module PayoutTransaction.
Record PayoutTransaction := mkPayoutTransaction {
  ID : string; ValidatorID : string; Amount : Z; Status : string;
  TxSignature : string; ErrorMessage : string; CreatedAt : Z; UpdatedAt : Z }.
End PayoutTransaction.

Abbreviation User := User.User.
Abbreviation Website := Website.Website.
Abbreviation Validator := Validator.Validator.
Abbreviation WebsiteTick := WebsiteTick.WebsiteTick.
Abbreviation PayoutTransaction := PayoutTransaction.PayoutTransaction.

(** ** The database. *)
Record DB := mkDB {
  users : gmap string User;
  websites : gmap string Website;
  validators : gmap string Validator;
  ticks : list WebsiteTick;
  payouts : gmap string PayoutTransaction }.

Definition db_empty : DB := mkDB ∅ ∅ ∅ [] ∅.

Inductive db_error := ErrRecordNotFound | ErrConstraint | ErrConnection.

Inductive result (A : Type) := Ok (a : A) | Err (e : db_error).
Arguments Ok {A} a.
Arguments Err {A} e.

(** decimal(20,2) holds |x| < 10^18; decimal(10,2) holds |x| < 10^8. *)
Definition decimal_20_2_ok (x : Z) : bool := (- 10 ^ 18 <? x)%Z && (x <? 10 ^ 18)%Z.
Definition decimal_10_2_ok (x : Z) : bool := (- 10 ^ 8 <? x)%Z && (x <? 10 ^ 8)%Z.
Definition varchar_ok (n : nat) (s : string) : bool := (String.length s <=? n)%nat.

(** ** The shared world. *)
Record World := mkWorld {
  db : DB;
  queue : list json;
  outbox : list (nat * json);
  next_uuid : nat;
  clock : Z;
  faults : list bool }.

Definition set_db (d : DB) (w : World) : World :=
  mkWorld d (queue w) (outbox w) (next_uuid w) (clock w) (faults w).
Definition set_queue (q : list json) (w : World) : World :=
  mkWorld (db w) q (outbox w) (next_uuid w) (clock w) (faults w).

(** uuid.New().String(): a fresh identifier per call. *)
Definition uuid_string (n : nat) : string := "uuid-" +:+ pretty n.

(** ** Primitive actions on the world. *)
Definition io_fault : ST World bool := fun w =>
  match faults w with
  | [] => (false, w)
  | b :: rest => (b, mkWorld (db w) (queue w) (outbox w) (next_uuid w) (clock w) rest)
  end.

Definition new_uuid : ST World string := fun w =>
  (uuid_string (next_uuid w),
   mkWorld (db w) (queue w) (outbox w) (S (next_uuid w)) (clock w) (faults w)).

Definition now : ST World Z := fun w => (clock w, w).

(** conn.WriteJSON(v): fails on a fault, else appends the frame. *)
Definition write_json (c : nat) (v : json) : ST World bool :=
  let* f := io_fault in
  if f then st_ret false
  else st_modify (fun w =>
         mkWorld (db w) (queue w) (outbox w ++ [(c, v)]) (next_uuid w) (clock w) (faults w)) ;;;
       st_ret true.

(** A database statement: a fault gives a connection error, otherwise
    [stmt] runs on the current database. *)
Definition db_exec {A} (stmt : DB -> result (A * DB)) : ST World (result A) :=
  let* f := io_fault in
  if f then st_ret (Err ErrConnection)
  else fun w =>
    match stmt (db w) with
    | Ok (a, d') => (Ok a, set_db d' w)
    | Err e => (Err e, w)
    end.

(** tx := db.Begin() snapshots the database; tx.Rollback() restores the
    snapshot; tx.Commit() may fail, and a failed commit aborts. *)
Definition tx_begin : ST World DB := fun w => (db w, w).
Definition tx_rollback (snap : DB) : ST World unit := st_modify (set_db snap).
Definition tx_commit (snap : DB) : ST World (result unit) :=
  let* f := io_fault in
  if f then tx_rollback snap ;;; st_ret (Err ErrConnection) else st_ret (Ok tt).

(** ** Statements (the SQL each GORM call issues). *)

(** Where("public_key = ?", pk).First(&validator) *)
Definition find_validator_by_pubkey (pk : string) (d : DB) : option Validator :=
  match map_to_list (filter (fun kv => kv.2.(Validator.PublicKey) = pk) (validators d)) with
  | (_, v) :: _ => Some v
  | [] => None
  end.

(** Where("id = ?", id).First(&validator) *)
Definition find_validator (id : string) (d : DB) : result (Validator * DB) :=
  match validators d !! id with
  | Some v => Ok (v, d)
  | None => Err ErrRecordNotFound
  end.

Definition set_validators (vs : gmap string Validator) (d : DB) : DB :=
  mkDB (users d) (websites d) vs (ticks d) (payouts d).
Definition set_ticks (ts : list WebsiteTick) (d : DB) : DB :=
  mkDB (users d) (websites d) (validators d) ts (payouts d).
Definition set_payouts (ps : gmap string PayoutTransaction) (d : DB) : DB :=
  mkDB (users d) (websites d) (validators d) (ticks d) ps.

(** Create(&validator): primary key and unique public key. *)
Definition create_validator (v : Validator) (d : DB) : result (unit * DB) :=
  match validators d !! v.(Validator.ID), find_validator_by_pubkey v.(Validator.PublicKey) d with
  | None, None => Ok (tt, set_validators (<[v.(Validator.ID) := v]> (validators d)) d)
  | _, _ => Err ErrConstraint
  end.

(** Create(&tick): foreign keys on WebsiteID and ValidatorID, varchar(50)
    status and decimal(10,2) latency. *)
Definition create_tick (t : WebsiteTick) (d : DB) : result (unit * DB) :=
  if bool_decide (is_Some (websites d !! t.(WebsiteTick.WebsiteID)))
     && bool_decide (is_Some (validators d !! t.(WebsiteTick.ValidatorID)))
     && varchar_ok 50 t.(WebsiteTick.Status)
     && decimal_10_2_ok t.(WebsiteTick.Latency)
  then Ok (tt, set_ticks (ticks d ++ [t]) d)
  else Err ErrConstraint.

Definition with_pending (p : Z) (v : Validator) : Validator :=
  Validator.mkValidator v.(Validator.ID) v.(Validator.PublicKey) v.(Validator.Location)
    v.(Validator.IP) p v.(Validator.CreatedAt).

(** UPDATE "Validator" SET pending_payouts = f(pending_payouts) WHERE id = ?:
    no matching row is not an error; an out-of-range result is. *)
Definition update_pending (id : string) (f : Z -> Z) (d : DB) : result (unit * DB) :=
  match validators d !! id with
  | None => Ok (tt, d)
  | Some v =>
      let p := f v.(Validator.PendingPayouts) in
      if decimal_20_2_ok p
      then Ok (tt, set_validators (<[id := with_pending p v]> (validators d)) d)
      else Err ErrConstraint
  end.

(** Create(txRecord): foreign key on ValidatorID, decimal(20,2) amount. *)
Definition create_payout (p : PayoutTransaction) (d : DB) : result (unit * DB) :=
  if bool_decide (is_Some (validators d !! p.(PayoutTransaction.ValidatorID)))
     && decimal_20_2_ok p.(PayoutTransaction.Amount)
     && bool_decide (payouts d !! p.(PayoutTransaction.ID) = None)
  then Ok (tt, set_payouts (<[p.(PayoutTransaction.ID) := p]> (payouts d)) d)
  else Err ErrConstraint.

(** db.Model(txRecord).Updates(...): rewrites the row of that id. *)
Definition update_payout (id : string) (f : PayoutTransaction -> PayoutTransaction)
    (d : DB) : result (unit * DB) :=
  match payouts d !! id with
  | None => Ok (tt, d)
  | Some p => Ok (tt, set_payouts (<[id := f p]> (payouts d)) d)
  end.

Definition drop_fault (w : World) : World :=
  mkWorld (db w) (queue w) (outbox w) (next_uuid w) (clock w) (tail (faults w)).

(** The pending credit of a validator, 0 when it has no row. *)
Definition pending_of (d : DB) (id : string) : Z :=
  match validators d !! id with Some v => Validator.PendingPayouts v | None => 0%Z end.

(** The ticks recorded for a validator. *)
Definition ticks_of (d : DB) (id : string) : nat :=
  length (filter (fun t => WebsiteTick.ValidatorID t = id) (ticks d)).

(** Every validator row is stored under its primary key. *)
Definition validators_keyed (d : DB) : Prop :=
  map_Forall (fun k v => Validator.ID v = k) (validators d).
#[export] Instance validators_keyed_dec d : Decision (validators_keyed d).
Proof. unfold validators_keyed. apply _. Defined.

(** ** The interface of a component state that contains the world. *)
Class HasWorld (S : Type) := {
  get_world : S -> World;
  put_world : World -> S -> S;
  get_put_world : forall w s, get_world (put_world w s) = w;
  put_get_world : forall s, put_world (get_world s) s = s;
  put_put_world : forall w1 w2 s, put_world w2 (put_world w1 s) = put_world w2 s }.

Definition lift {S A} `{HasWorld S} (m : ST World A) : ST S A := fun s =>
  let '(a, w') := m (get_world s) in (a, put_world w' s).

#[export] Instance World_HasWorld : HasWorld World := {|
  get_world w := w; put_world w _ := w;
  get_put_world _ _ := eq_refl; put_get_world _ := eq_refl; put_put_world _ _ _ := eq_refl |}.

(** ** Lemmas on the primitives. *)

Lemma io_fault_eq w : io_fault w = (hd false (faults w), drop_fault w).
Proof. by destruct w as [? ? ? ? ? [|]]. Qed.

Lemma db_exec_eq {A} (stmt : DB -> result (A * DB)) w :
  db_exec stmt w =
  if hd false (faults w) then (Err ErrConnection, drop_fault w)
  else match stmt (db w) with
       | Ok (a, d') => (Ok a, set_db d' (drop_fault w))
       | Err e => (Err e, drop_fault w)
       end.
Proof.
  unfold db_exec, st_bind. rewrite io_fault_eq. simpl.
  destruct (hd false (faults w)); [done|]. simpl. by destruct (stmt (db w)) as [[]|].
Qed.

Lemma tx_commit_eq snap w :
  tx_commit snap w =
  if hd false (faults w) then (Err ErrConnection, set_db snap (drop_fault w))
  else (Ok tt, drop_fault w).
Proof. unfold tx_commit, st_bind. rewrite io_fault_eq. by destruct (hd false (faults w)). Qed.

Lemma write_json_eq c v w :
  write_json c v w =
  if hd false (faults w) then (false, drop_fault w)
  else (true, mkWorld (db w) (queue w) (outbox w ++ [(c, v)]) (next_uuid w) (clock w)
                (tail (faults w))).
Proof. unfold write_json, st_bind. rewrite io_fault_eq. by destruct (hd false (faults w)). Qed.

Lemma create_tick_Ok t d r :
  create_tick t d = Ok r ->
  r = (tt, set_ticks (ticks d ++ [t]) d) /\
  is_Some (websites d !! WebsiteTick.WebsiteID t) /\
  is_Some (validators d !! WebsiteTick.ValidatorID t).
Proof.
  unfold create_tick. case_match eqn:E; [|done]. intros [= <-].
  apply andb_prop in E as [E _]. apply andb_prop in E as [E _].
  apply andb_prop in E as [E1 E2]. apply bool_decide_eq_true in E1, E2. done.
Qed.

Lemma update_pending_Ok id f d r :
  update_pending id f d = Ok r ->
  (validators d !! id = None /\ r = (tt, d)) \/
  (exists v, validators d !! id = Some v /\
     decimal_20_2_ok (f (Validator.PendingPayouts v)) = true /\
     r = (tt, set_validators (<[id := with_pending (f (Validator.PendingPayouts v)) v]>
                               (validators d)) d)).
Proof.
  unfold update_pending. destruct (validators d !! id) as [v|] eqn:E.
  - case_match eqn:Hok; [|done]. intros [= <-]. right. exists v. by split_and!.
  - intros [= <-]. by left.
Qed.

Lemma update_pending_Err id f d e :
  update_pending id f d = Err e ->
  exists v, validators d !! id = Some v /\
    decimal_20_2_ok (f (Validator.PendingPayouts v)) = false.
Proof.
  unfold update_pending. destruct (validators d !! id) as [v|]; [|done].
  case_match eqn:Hok; [done|]. eauto.
Qed.

Lemma ticks_of_snoc d t id :
  ticks_of (set_ticks (ticks d ++ [t]) d) id =
  (ticks_of d id + if bool_decide (WebsiteTick.ValidatorID t = id) then 1 else 0)%nat.
Proof.
  unfold ticks_of; simpl. rewrite filter_app, length_app, filter_cons, filter_nil.
  case_decide; case_bool_decide; simpl; try done; lia.
Qed.

Lemma pending_of_insert d id v p id' :
  pending_of (set_validators (<[id := with_pending p v]> (validators d)) d) id' =
  if bool_decide (id = id') then p else pending_of d id'.
Proof.
  unfold pending_of; simpl. case_bool_decide as Heq.
  - subst. by rewrite lookup_insert_eq.
  - by rewrite lookup_insert_ne.
Qed.

#[export] Hint Rewrite io_fault_eq tx_commit_eq write_json_eq : st_simpl.

Lemma create_tick_eq t d :
  is_Some (websites d !! WebsiteTick.WebsiteID t) ->
  is_Some (validators d !! WebsiteTick.ValidatorID t) ->
  varchar_ok 50 (WebsiteTick.Status t) = true ->
  decimal_10_2_ok (WebsiteTick.Latency t) = true ->
  create_tick t d = Ok (tt, set_ticks (ticks d ++ [t]) d).
Proof.
  intros Hw Hv Hs Hl. unfold create_tick. rewrite Hs, Hl, !bool_decide_eq_true_2 by done. done.
Qed.

Lemma update_pending_eq id f d v :
  validators d !! id = Some v ->
  decimal_20_2_ok (f (Validator.PendingPayouts v)) = true ->
  update_pending id f d =
  Ok (tt, set_validators (<[id := with_pending (f (Validator.PendingPayouts v)) v]> (validators d)) d).
Proof. intros Hv Hok. unfold update_pending. by rewrite Hv, Hok. Qed.

Lemma drop_fault_db w : db (drop_fault w) = db w.
Proof. done. Qed.

Lemma drop_fault_queue w : queue (drop_fault w) = queue w.
Proof. done. Qed.

#[export] Hint Rewrite drop_fault_db drop_fault_queue : st_simpl.

Lemma create_payout_eq p d :
  is_Some (validators d !! PayoutTransaction.ValidatorID p) ->
  decimal_20_2_ok (PayoutTransaction.Amount p) = true ->
  payouts d !! PayoutTransaction.ID p = None ->
  create_payout p d = Ok (tt, set_payouts (<[PayoutTransaction.ID p := p]> (payouts d)) d).
Proof.
  intros Hv Ha Hn. unfold create_payout. rewrite Ha, !bool_decide_eq_true_2 by done. done.
Qed.

Lemma update_payout_eq id f p d :
  payouts d !! id = Some p ->
  update_payout id f d = Ok (tt, set_payouts (<[id := f p]> (payouts d)) d).
Proof. unfold update_payout. by intros ->. Qed.
