(* ===== verification/Frame.v ===== *)
(** * Frame conditions of world actions

    Most of what a component does to the shared [World] is nothing: the
    hub never touches the payout queue, the worker never touches the
    ticks, and no operation makes a reliable world (an empty fault
    schedule) unreliable.  [keeps R m] says that every run of the
    action [m], in any component state that contains a world, relates
    the world before to the world after by [R].  For a preorder [R] the
    property is closed under the monad's operations, so it is proved
    for the primitives of Store.v once and then for a whole handler by
    the tactic [keeps_solve], which walks the handler's binds and
    branches. *)

From S2P Require Import Prelude Json Store.

Definition wrel := World -> World -> Prop.

Definition keeps {S} `{HasWorld S} (R : wrel) {A} (m : ST S A) : Prop :=
  forall s, R (get_world s) (get_world (exec m s)).

(** The queue related by [Rq], the database by [Rd], and an empty fault
    schedule stays empty. *)
Definition frame (Rq : relation (list json)) (Rd : relation DB) : wrel := fun w w' =>
  Rq (queue w) (queue w') /\ (faults w = [] -> faults w' = []) /\ Rd (db w) (db w').

(** The relation that relates every two databases. *)
Definition any_db : relation DB := fun _ _ => True.

#[export] Instance any_db_preorder : PreOrder any_db.
Proof. split; by repeat intro. Qed.

Section Frame.
Context (Rq : relation (list json)) (Rd : relation DB) `{!PreOrder Rq} `{!PreOrder Rd}.

Lemma frame_refl w : frame Rq Rd w w.
Proof. split_and!; [reflexivity|done|reflexivity]. Qed.

Lemma frame_trans w1 w2 w3 : frame Rq Rd w1 w2 -> frame Rq Rd w2 w3 -> frame Rq Rd w1 w3.
Proof. intros (? & ? & ?) (? & ? & ?). split_and!; [by etrans|auto|by etrans]. Qed.

#[export] Instance frame_preorder : PreOrder (frame Rq Rd).
Proof. split; [intros w; apply frame_refl|intros w1 w2 w3; apply frame_trans]. Qed.

End Frame.

(** [keeps R] for a preorder [R] is closed under the monad's
    operations. *)
Section Keeps.
Context (R : wrel) `{!PreOrder R} {S : Type} `{HasWorld S}.

Lemma keeps_ret {A} (a : A) : keeps (S:=S) R (st_ret a).
Proof. intros s. reflexivity. Qed.

Lemma keeps_get : keeps (S:=S) R st_get.
Proof. intros s. reflexivity. Qed.

Lemma keeps_bind {A B} (m : ST S A) (k : A -> ST S B) :
  keeps R m -> (forall a, keeps R (k a)) -> keeps R (st_bind m k).
Proof.
  intros Hm Hk s. unfold exec. rewrite st_bind_apply.
  etrans; [apply Hm|apply Hk].
Qed.

Lemma keeps_lift {A} (m : ST World A) :
  keeps (S:=World) R m -> keeps (S:=S) R (lift m).
Proof.
  intros Hm s. unfold lift, exec. specialize (Hm (get_world s)). unfold exec in Hm.
  destruct (m (get_world s)) as [a w']. simpl in *. by rewrite get_put_world.
Qed.

Lemma keeps_iter {A} (f : A -> ST S unit) xs :
  (forall x, keeps R (f x)) -> keeps R (st_iter f xs).
Proof.
  intros Hf. induction xs as [|x xs IH]; simpl; [apply keeps_ret|].
  apply keeps_bind; [apply Hf|intros _; apply IH].
Qed.

End Keeps.

Lemma exec_lift {S A} `{HasWorld S} (m : ST World A) s :
  get_world (exec (lift m) s) = exec m (get_world s).
Proof. unfold exec, lift. destruct (m (get_world s)). simpl. apply get_put_world. Qed.

(** ** The primitives of the world. *)
Section Primitives.
Context (Rq : relation (list json)) (Rd : relation DB) `{!PreOrder Rq} `{!PreOrder Rd}.

Lemma drop_fault_frame w : frame Rq Rd w (drop_fault w).
Proof. destruct w as [? ? ? ? ? [|]]; split_and!; simpl; try reflexivity; done. Qed.

Lemma keeps_io_fault : keeps (S:=World) (frame Rq Rd) io_fault.
Proof. intros w. unfold exec. rewrite io_fault_eq. apply drop_fault_frame. Qed.

Lemma keeps_new_uuid : keeps (S:=World) (frame Rq Rd) new_uuid.
Proof. intros w. split_and!; simpl; [reflexivity|done|reflexivity]. Qed.

Lemma keeps_now : keeps (S:=World) (frame Rq Rd) now.
Proof. intros w. apply frame_refl; apply _. Qed.

Lemma keeps_tx_begin : keeps (S:=World) (frame Rq Rd) tx_begin.
Proof. intros w. apply frame_refl; apply _. Qed.

Lemma keeps_write_json c v : keeps (S:=World) (frame Rq Rd) (write_json c v).
Proof.
  intros w. unfold exec. rewrite write_json_eq.
  destruct (hd false _); [apply drop_fault_frame|].
  split_and!; simpl; [reflexivity| |reflexivity]. by intros ->.
Qed.

Lemma keeps_db_exec {A} (stmt : DB -> result (A * DB)) :
  (forall d a d', stmt d = Ok (a, d') -> Rd d d') -> keeps (S:=World) (frame Rq Rd) (db_exec stmt).
Proof.
  intros Hs w. unfold exec. rewrite db_exec_eq.
  destruct (hd false _); [apply drop_fault_frame|].
  destruct (stmt (db w)) as [[a d']|e] eqn:Hst; simpl; [|apply drop_fault_frame].
  pose proof (drop_fault_frame w) as (Hq & Hf & _).
  split_and!; [exact Hq|exact Hf|]. simpl. by apply (Hs _ a).
Qed.

(** Rolling back and committing may restore any earlier database: they
    keep a frame only when the database is not constrained. *)
Lemma keeps_tx_rollback snap : keeps (S:=World) (frame Rq any_db) (tx_rollback snap).
Proof. intros w. split_and!; simpl; [reflexivity|done|done]. Qed.

Lemma keeps_tx_commit snap : keeps (S:=World) (frame Rq any_db) (tx_commit snap).
Proof.
  intros w. unfold exec. rewrite tx_commit_eq.
  destruct (hd false _); destruct w as [? ? ? ? ? [|]]; split_and!; simpl; try reflexivity; done.
Qed.

End Primitives.

(** ** The uuid supply only moves forward.

    Every identifier a component draws (validator, callback, tick,
    user, payout ids) comes from [new_uuid]; no operation resets the
    supply, so identifiers drawn later are fresh for everything
    recorded earlier. *)
Definition uuid_grows : wrel := fun w w' => (next_uuid w <= next_uuid w')%nat.

#[export] Instance uuid_grows_preorder : PreOrder uuid_grows.
Proof. split; [intros w|intros w1 w2 w3]; unfold uuid_grows; lia. Qed.

Ltac uuid_grows_prim :=
  intros ?w; unfold exec, uuid_grows, new_uuid, now, tx_begin, tx_rollback, st_modify;
  rewrite ?io_fault_eq, ?db_exec_eq, ?tx_commit_eq, ?write_json_eq;
  repeat case_match; simpl; lia.

Lemma keeps_uuid_io_fault : keeps (S:=World) uuid_grows io_fault.
Proof. uuid_grows_prim. Qed.

Lemma keeps_uuid_new_uuid : keeps (S:=World) uuid_grows new_uuid.
Proof. uuid_grows_prim. Qed.

Lemma keeps_uuid_now : keeps (S:=World) uuid_grows now.
Proof. uuid_grows_prim. Qed.

Lemma keeps_uuid_tx_begin : keeps (S:=World) uuid_grows tx_begin.
Proof. uuid_grows_prim. Qed.

Lemma keeps_uuid_write_json c v : keeps (S:=World) uuid_grows (write_json c v).
Proof. uuid_grows_prim. Qed.

Lemma keeps_uuid_db_exec {A} (stmt : DB -> result (A * DB)) : keeps (S:=World) uuid_grows (db_exec stmt).
Proof. uuid_grows_prim. Qed.

Lemma keeps_uuid_tx_rollback snap : keeps (S:=World) uuid_grows (tx_rollback snap).
Proof. uuid_grows_prim. Qed.

Lemma keeps_uuid_tx_commit snap : keeps (S:=World) uuid_grows (tx_commit snap).
Proof. uuid_grows_prim. Qed.

Lemma keeps_uuid_modify (g : World -> World) :
  (forall w, next_uuid (g w) = next_uuid w) -> keeps (S:=World) uuid_grows (st_modify g).
Proof. intros Hg w. unfold uuid_grows, exec, st_modify. simpl. by rewrite Hg. Qed.

Create HintDb keeps discriminated.
#[export] Hint Resolve keeps_ret keeps_get keeps_io_fault keeps_new_uuid keeps_now keeps_tx_begin
  keeps_write_json keeps_tx_rollback keeps_tx_commit : keeps.
#[export] Hint Resolve keeps_uuid_io_fault keeps_uuid_new_uuid keeps_uuid_now keeps_uuid_tx_begin
  keeps_uuid_write_json keeps_uuid_db_exec keeps_uuid_tx_rollback keeps_uuid_tx_commit : keeps.

(** Walk the binds and branches of an action; what is left are the
    world statements, closed from the hint database [keeps]. *)
Ltac keeps_solve :=
  repeat match goal with
  | |- keeps _ (st_bind _ _) => apply keeps_bind; [..|intros ?]
  | |- keeps _ (lift _) => apply keeps_lift
  | |- keeps _ (st_iter _ _) => apply keeps_iter; [..|intros ?]
  | |- keeps _ (match ?x with _ => _ end) => destruct x
  | |- keeps _ (if ?b then _ else _) => destruct b
  end; try typeclasses eauto; eauto with keeps typeclass_instances.
