(* ===== verification/Hub.v ===== *)
(** * The hub: connection registry, callback table, dispatch loop

    Models src/cmd/hub/main.go.  The [Hub] struct keeps two maps: the
    connection registry [validators] (validator id to connection) and
    the callback table [callbacks] (callback id to a one-shot handler).
    The only handlers the hub ever registers are the closures built by
    [createValidateCallback websiteID validatorPublicKey]; they are
    defunctionalised into the [Callback] type and run by [run_callback].
    A websocket connection is a natural number.  Every operation runs
    in the state monad over [HubProc]: the hub's own maps together with
    the shared [World] (database, frames written, uuids, faults). *)

From S2P Require Import Prelude Json Store.

(** ** Types (main.go lines 18-64). *)
Definition COST_PER_VALIDATION : Z := 100.

Module ValidatorConnection.
Record ValidatorConnection := mkValidatorConnection {
  ValidatorID : string; PublicKey : string; Conn : nat }.
End ValidatorConnection.
Abbreviation ValidatorConnection := ValidatorConnection.ValidatorConnection.

(** The closure returned by createValidateCallback. *)
Inductive Callback := ValidateCallback (websiteID validatorPublicKey : string).

Module Hub.
Record Hub := mkHub {
  validators : gmap string ValidatorConnection;
  callbacks : gmap string Callback }.
End Hub.
Abbreviation Hub := Hub.Hub.

Module IncomingMessage.
Record IncomingMessage := mkIncomingMessage { Type' : string; Data : raw }.
End IncomingMessage.
Abbreviation IncomingMessage := IncomingMessage.IncomingMessage.

Module SignupIncoming.
Record SignupIncoming := mkSignupIncoming {
  IP : string; PublicKey : string; SignedMessage : string; CallbackID : string }.
End SignupIncoming.
Abbreviation SignupIncoming := SignupIncoming.SignupIncoming.

Module ValidateIncoming.
Record ValidateIncoming := mkValidateIncoming {
  CallbackID : string; Status : string; Latency : Z; ValidatorID : string;
  WebsiteID : string; SignedMessage : string }.
End ValidateIncoming.
Abbreviation ValidateIncoming := ValidateIncoming.ValidateIncoming.

(** ** Decoding, with the json tags of the structs. *)
Definition decode_IncomingMessage (frame : raw) : IncomingMessage * bool :=
  dec_struct (IncomingMessage.mkIncomingMessage "" None)
    (fun kvs =>
       let '(t, e1) := dec_field as_string "type" "" kvs in
       let '(d, e2) := dec_field as_raw "data" None kvs in
       (IncomingMessage.mkIncomingMessage t d, e1 || e2)) frame.

Definition decode_SignupIncoming (r : raw) : SignupIncoming * bool :=
  dec_struct (SignupIncoming.mkSignupIncoming "" "" "" "")
    (fun kvs =>
       let '(ip, e1) := dec_field as_string "ip" "" kvs in
       let '(pk, e2) := dec_field as_string "publicKey" "" kvs in
       let '(sm, e3) := dec_field as_string "signedMessage" "" kvs in
       let '(cb, e4) := dec_field as_string "callbackId" "" kvs in
       (SignupIncoming.mkSignupIncoming ip pk sm cb, e1 || e2 || e3 || e4)) r.

Definition decode_ValidateIncoming (r : raw) : ValidateIncoming * bool :=
  dec_struct (ValidateIncoming.mkValidateIncoming "" "" 0 "" "" "")
    (fun kvs =>
       let '(cb, e1) := dec_field as_string "callbackId" "" kvs in
       let '(st, e2) := dec_field as_string "status" "" kvs in
       let '(lat, e3) := dec_field as_number "latency" 0%Z kvs in
       let '(vid, e4) := dec_field as_string "validatorId" "" kvs in
       let '(wid, e5) := dec_field as_string "websiteId" "" kvs in
       let '(sm, e6) := dec_field as_string "signedMessage" "" kvs in
       (ValidateIncoming.mkValidateIncoming cb st lat vid wid sm,
        e1 || e2 || e3 || e4 || e5 || e6)) r.

(** OutgoingMessage{Type, Data} as written by WriteJSON. *)
Definition outgoing (ty : string) (data : json) : json :=
  JObj [("type", JStr ty); ("data", data)].

Definition signup_response (validatorId callbackId : string) : json :=
  outgoing "signup" (marshal_string_map [("validatorId", validatorId); ("callbackId", callbackId)]).

Definition validate_task (url callbackId websiteId : string) : json :=
  outgoing "validate"
    (marshal_map [("url", JStr url); ("callbackId", JStr callbackId); ("websiteId", JStr websiteId)]).

(** ** The hub process state. *)
Record HubProc := mkHubProc { hub : Hub; world : World }.

#[export] Program Instance HubProc_HasWorld : HasWorld HubProc := {|
  get_world := world; put_world w s := mkHubProc (hub s) w |}.
Solve Obligations with by intros [].

Definition modify_hub (f : Hub -> Hub) : ST HubProc unit :=
  st_modify (fun s => mkHubProc (f (hub s)) (world s)).

Definition set_callbacks (f : gmap string Callback -> gmap string Callback) (h : Hub) : Hub :=
  Hub.mkHub (Hub.validators h) (f (Hub.callbacks h)).
Definition set_registry (f : gmap string ValidatorConnection -> gmap string ValidatorConnection)
    (h : Hub) : Hub :=
  Hub.mkHub (f (Hub.validators h)) (Hub.callbacks h).

(** ** createValidateCallback (lines 269-321): one transaction that
    inserts the tick and credits the validator named in the reply. *)
Definition run_callback (cb : Callback) (msg : IncomingMessage) : ST World unit :=
  let 'ValidateCallback websiteID _ := cb in
  match unmarshal_ok (decode_ValidateIncoming (IncomingMessage.Data msg)) with
  | None => st_ret tt
  | Some v =>
      let* snap := tx_begin in
      let* id := new_uuid in
      let* t := now in
      let tick := WebsiteTick.mkWebsiteTick id websiteID (ValidateIncoming.ValidatorID v)
                    (ValidateIncoming.Status v) (ValidateIncoming.Latency v) t in
      let* r1 := db_exec (create_tick tick) in
      match r1 with
      | Err _ => tx_rollback snap
      | Ok _ =>
          let* r2 := db_exec (update_pending (ValidateIncoming.ValidatorID v)
                                (fun p => p + COST_PER_VALIDATION)%Z) in
          match r2 with
          | Err _ => tx_rollback snap
          | Ok _ => let* _ := tx_commit snap in st_ret tt
          end
      end
  end.

(** ** handleValidate (lines 166-189): look the callback up, run it,
    then delete it. *)
Definition handleValidate (data : raw) : ST HubProc unit :=
  match unmarshal_ok (decode_ValidateIncoming data) with
  | None => st_ret tt
  | Some v =>
      let* s := st_get in
      match Hub.callbacks (hub s) !! ValidateIncoming.CallbackID v with
      | None => st_ret tt
      | Some cb =>
          lift (run_callback cb (IncomingMessage.mkIncomingMessage "validate" data)) ;;;
          modify_hub (set_callbacks (delete (ValidateIncoming.CallbackID v)))
      end
  end.

(** ** handleSignup (lines 107-164): find or create the validator by
    public key, register the connection under its id, reply. The
    signature is not checked (line 114). *)
Definition find_or_create (su : SignupIncoming) : ST World (option Validator) :=
  let* r := db_exec (fun d =>
              match find_validator_by_pubkey (SignupIncoming.PublicKey su) d with
              | Some v => Ok (v, d)
              | None => Err ErrRecordNotFound
              end) in
  match r with
  | Ok v => st_ret (Some v)
  | Err ErrRecordNotFound =>
      let* id := new_uuid in
      let* t := now in
      let v := Validator.mkValidator id (SignupIncoming.PublicKey su) "unknown"
                 (SignupIncoming.IP su) 0 t in
      let* rc := db_exec (create_validator v) in
      match rc with Ok _ => st_ret (Some v) | Err _ => st_ret None end
  | Err _ => st_ret None
  end.

Definition handleSignup (c : nat) (data : raw) : ST HubProc unit :=
  match unmarshal_ok (decode_SignupIncoming data) with
  | None => st_ret tt
  | Some su =>
      let* ov := lift (find_or_create su) in
      match ov with
      | None => st_ret tt
      | Some v =>
          modify_hub (set_registry (<[Validator.ID v :=
            ValidatorConnection.mkValidatorConnection (Validator.ID v) (Validator.PublicKey v) c]>)) ;;;
          let* _ := lift (write_json c (signup_response (Validator.ID v) (SignupIncoming.CallbackID su))) in
          st_ret tt
      end
  end.

(** ** removeValidator (lines 191-202): delete the first entry, in map
    iteration order, whose connection is [c].  Go randomises the order,
    so the order is a parameter; [removeValidator] uses stdpp's. *)
Fixpoint remove_first_conn (c : nat) (order : list (string * ValidatorConnection))
    (m : gmap string ValidatorConnection) : gmap string ValidatorConnection :=
  match order with
  | [] => m
  | (id, vc) :: rest =>
      if bool_decide (ValidatorConnection.Conn vc = c) then delete id m
      else remove_first_conn c rest m
  end.

Definition removeValidator_in (order : gmap string ValidatorConnection -> list (string * ValidatorConnection))
    (c : nat) : ST HubProc unit :=
  modify_hub (set_registry (fun m => remove_first_conn c (order m) m)).

Definition removeValidator (c : nat) : ST HubProc unit := removeValidator_in map_to_list c.

(** ** handleWebSocket (lines 74-105): the read loop of one connection
    over the frames it receives, ended by the read error. *)
Definition handle_frame (c : nat) (frame : raw) : ST HubProc unit :=
  match unmarshal_ok (decode_IncomingMessage frame) with
  | None => st_ret tt
  | Some msg =>
      if bool_decide (IncomingMessage.Type' msg = "signup") then handleSignup c (IncomingMessage.Data msg)
      else if bool_decide (IncomingMessage.Type' msg = "validate") then handleValidate (IncomingMessage.Data msg)
      else st_ret tt
  end.

Definition handleWebSocket (c : nat) (frames : list raw) : ST HubProc unit :=
  st_iter (handle_frame c) frames ;;; removeValidator c.

(** ** startMonitoring (lines 204-267): one iteration of the ticker loop. *)
Definition active_websites (d : DB) : list Website :=
  (map_to_list (filter (fun kv => Website.Disabled kv.2 = false) (websites d))).*2.

Definition dispatch_one (w : Website) (v : ValidatorConnection) : ST HubProc unit :=
  let* cid := lift new_uuid in
  modify_hub (set_callbacks (<[cid := ValidateCallback (Website.ID w) (ValidatorConnection.PublicKey v)]>)) ;;;
  let* _ := lift (write_json (ValidatorConnection.Conn v)
                    (validate_task (Website.URL w) cid (Website.ID w))) in
  st_ret tt.

Definition monitor_tick : ST HubProc unit :=
  let* r := lift (db_exec (fun d => Ok (active_websites d, d))) in
  match r with
  | Err _ => st_ret tt
  | Ok ws =>
      if bool_decide (ws = []) then st_ret tt else
      let* s := st_get in
      let vs := (map_to_list (Hub.validators (hub s))).*2 in
      if bool_decide (vs = []) then st_ret tt else
      st_iter (fun w => st_iter (dispatch_one w) vs) ws
  end.

(** [d'] is [d] with one tick for [vid] appended and [vid] credited. *)
Definition credited (d d' : DB) (vid : string) : Prop :=
  exists t v,
    ticks d' = ticks d ++ [t] /\ WebsiteTick.ValidatorID t = vid /\
    validators d !! vid = Some v /\
    validators d' = <[vid := with_pending (Validator.PendingPayouts v + COST_PER_VALIDATION) v]>
                      (validators d) /\
    websites d' = websites d /\ users d' = users d /\ payouts d' = payouts d.

(** Credit minus the reward for the recorded ticks. *)
Definition ledger_gap (d : DB) (id : string) : Z :=
  (pending_of d id - COST_PER_VALIDATION * Z.of_nat (ticks_of d id))%Z.

(** At most one registry entry holds connection [c]. *)
Definition conn_unique (m : gmap string ValidatorConnection) (c : nat) : Prop :=
  forall i j vi vj, m !! i = Some vi -> m !! j = Some vj ->
    ValidatorConnection.Conn vi = c -> ValidatorConnection.Conn vj = c -> i = j.

(** The registry with every entry of connection [c] dropped. *)
Definition drop_conn (c : nat) (m : gmap string ValidatorConnection) : gmap string ValidatorConnection :=
  filter (fun kv => ValidatorConnection.Conn kv.2 <> c) m.

(** No callback id from the uuid counter [n] onwards is taken. *)
Definition fresh_from (cbs : gmap string Callback) (n : nat) : Prop :=
  forall m, (n <= m)%nat -> cbs !! uuid_string m = None.

(** ** An example configuration: the scenario of the spec (one active
    website T1, one connected validator V1 with no credit, one probe
    outstanding under callback id "cb1"). *)
Definition ex_website : Website := Website.mkWebsite "T1" "https://example.org" "u1" false 0.
Definition ex_validator : Validator := Validator.mkValidator "V1" "pk1" "unknown" "127.0.0.1" 0 0.
Definition ex_db : DB := mkDB ∅ {[ "T1" := ex_website ]} {[ "V1" := ex_validator ]} [] ∅.
Definition ex_hubproc : HubProc :=
  mkHubProc
    (Hub.mkHub {[ "V1" := ValidatorConnection.mkValidatorConnection "V1" "pk1" 7 ]}
               {[ "cb1" := ValidateCallback "T1" "pk1" ]})
    (mkWorld ex_db [] [] 1 5 []).
Definition ex_reply_fields (status : string) : ValidateIncoming :=
  ValidateIncoming.mkValidateIncoming "cb1" status 120 "V1" "T1" "sig".
Definition ex_reply (status : string) : raw :=
  Some (JObj [("callbackId", JStr "cb1"); ("latency", JNum 120); ("signedMessage", JStr "sig");
              ("status", JStr status); ("validatorId", JStr "V1"); ("websiteId", JStr "T1")]).
Definition ex_frame (t : string) (data : raw) : raw :=
  Some (JObj [("type", JStr t); ("data", default JNull data)]).

Definition ex_signup (pk sig : string) : raw :=
  Some (JObj [("ip", JStr "10.0.0.9"); ("publicKey", JStr pk); ("signedMessage", JStr sig);
              ("callbackId", JStr "s1")]).

(** ** Properties of the callback transaction. *)

Lemma run_callback_atomic cb msg w :
  db (exec (run_callback cb msg) w) = db w \/
  exists vid, credited (db w) (db (exec (run_callback cb msg) w)) vid.
Proof.
  destruct cb as [wid pk]. unfold run_callback, exec.
  destruct (unmarshal_ok _) as [v|]; [|by left].
  unfold st_bind, tx_begin, new_uuid, now, tx_rollback, st_modify; simpl.
  rewrite db_exec_eq; simpl. destruct (hd false (faults w)); simpl; [by left|].
  destruct (create_tick _ _) as [[[] d1]|e] eqn:Hc; simpl; [|by left].
  apply create_tick_Ok in Hc as ([= ->] & _ & [v0 Hv0]). simpl in Hv0.
  rewrite db_exec_eq; simpl. destruct (hd false (tail (faults w))); simpl; [by left|].
  destruct (update_pending _ _ _) as [[[] d2]|e] eqn:Hu; simpl; [|by left].
  apply update_pending_Ok in Hu as [[Hnone _]|(v1 & Hv1 & _ & [= ->])];
    simpl in *; [congruence|].
  rewrite tx_commit_eq; simpl. destruct (hd false _); simpl; [by left|].
  right. eexists _, _, v1. by split_and!.
Qed.

Lemma handleValidate_found data s v cb :
  unmarshal_ok (decode_ValidateIncoming data) = Some v ->
  Hub.callbacks (hub s) !! ValidateIncoming.CallbackID v = Some cb ->
  exec (handleValidate data) s =
  mkHubProc (set_callbacks (delete (ValidateIncoming.CallbackID v)) (hub s))
    (exec (run_callback cb (IncomingMessage.mkIncomingMessage "validate" data)) (world s)).
Proof.
  intros Hd Hcb. unfold handleValidate, exec. rewrite Hd.
  unfold st_bind, st_get, lift, modify_hub, st_modify; simpl. rewrite Hcb.
  by destruct (run_callback _ _ _).
Qed.

Lemma handleValidate_missing data s v :
  unmarshal_ok (decode_ValidateIncoming data) = Some v ->
  Hub.callbacks (hub s) !! ValidateIncoming.CallbackID v = None ->
  exec (handleValidate data) s = s.
Proof.
  intros Hd Hcb. unfold handleValidate, exec. rewrite Hd.
  unfold st_bind, st_get; simpl. by rewrite Hcb.
Qed.

Lemma handleValidate_undecodable data s :
  unmarshal_ok (decode_ValidateIncoming data) = None ->
  exec (handleValidate data) s = s.
Proof. intros Hd. unfold handleValidate, exec. by rewrite Hd. Qed.

(** A reply naming a validator the database does not know leaves the
    database as it was: the tick's foreign key fails and the
    transaction is rolled back. *)
Lemma run_callback_unknown_validator cb msg v w :
  unmarshal_ok (decode_ValidateIncoming (IncomingMessage.Data msg)) = Some v ->
  validators (db w) !! ValidateIncoming.ValidatorID v = None ->
  db (exec (run_callback cb msg) w) = db w.
Proof.
  destruct cb as [wid pk]. intros Hd Hv. unfold run_callback, exec. rewrite Hd.
  unfold st_bind, tx_begin, new_uuid, now, tx_rollback, st_modify; simpl.
  rewrite db_exec_eq; simpl. destruct (hd false (faults w)); simpl; [done|].
  unfold create_tick; simpl. rewrite Hv.
  rewrite (bool_decide_eq_false_2 (is_Some None)) by (intros [? ?]; discriminate).
  by rewrite andb_false_r.
Qed.

(** The database after a reply is unchanged or credited for one tick. *)
Lemma handleValidate_db data s :
  db (world (exec (handleValidate data) s)) = db (world s) \/
  exists vid, credited (db (world s)) (db (world (exec (handleValidate data) s))) vid.
Proof.
  destruct (unmarshal_ok (decode_ValidateIncoming data)) as [v|] eqn:Hd;
    [|rewrite handleValidate_undecodable; auto].
  destruct (Hub.callbacks (hub s) !! ValidateIncoming.CallbackID v) as [cb|] eqn:Hcb;
    [|rewrite (handleValidate_missing _ _ _ Hd Hcb); auto].
  rewrite (handleValidate_found _ _ _ _ Hd Hcb); simpl. apply run_callback_atomic.
Qed.

Lemma credited_gap d d' vid id : credited d d' vid -> ledger_gap d' id = ledger_gap d id.
Proof.
  intros (t & v & Ht & <- & Hv & Hvs & _ & _ & _).
  unfold ledger_gap, ticks_of, pending_of. rewrite Ht, Hvs.
  rewrite filter_app, length_app, filter_cons, filter_nil.
  destruct (decide (WebsiteTick.ValidatorID t = id)) as [<-|Hne].
  - rewrite lookup_insert_eq, Hv. simpl. lia.
  - rewrite lookup_insert_ne by done. simpl. lia.
Qed.

#[export] Hint Resolve credited_gap : uptime.

(** The callback transaction without faults, when every constraint holds. *)
Lemma run_callback_ok wid pk data v w vd :
  unmarshal_ok (decode_ValidateIncoming data) = Some v ->
  faults w = [] ->
  is_Some (websites (db w) !! wid) ->
  validators (db w) !! ValidateIncoming.ValidatorID v = Some vd ->
  varchar_ok 50 (ValidateIncoming.Status v) = true ->
  decimal_10_2_ok (ValidateIncoming.Latency v) = true ->
  decimal_20_2_ok (Validator.PendingPayouts vd + COST_PER_VALIDATION) = true ->
  let w' := exec (run_callback (ValidateCallback wid pk)
                    (IncomingMessage.mkIncomingMessage "validate" data)) w in
  ticks (db w') = ticks (db w) ++
    [WebsiteTick.mkWebsiteTick (uuid_string (next_uuid w)) wid (ValidateIncoming.ValidatorID v)
       (ValidateIncoming.Status v) (ValidateIncoming.Latency v) (clock w)] /\
  validators (db w') = <[ValidateIncoming.ValidatorID v :=
      with_pending (Validator.PendingPayouts vd + COST_PER_VALIDATION) vd]> (validators (db w)).
Proof.
  destruct w as [d q o n c fs]; simpl. intros Hd -> Hw Hv Hs Hl Hp.
  unfold run_callback, exec; simpl. rewrite Hd.
  unfold st_bind, tx_begin, new_uuid, now; simpl. rewrite db_exec_eq; simpl.
  rewrite create_tick_eq by (simpl; rewrite ?Hv; done). simpl.
  rewrite db_exec_eq; simpl. rewrite (update_pending_eq _ _ _ vd) by done; simpl.
  done.
Qed.

(** ** Claims about the reply path. *)

(** C4. A reply to a registered probe, with no fault and every database
    constraint met, appends exactly one tick (fresh id, the probed
    website, the reported validator, status and latency, the current
    time), credits that validator with COST_PER_VALIDATION, removes the
    callback and leaves the connection registry alone. *)
Theorem handleValidate_records_tick s data v wid pk vd :
  unmarshal_ok (decode_ValidateIncoming data) = Some v ->
  Hub.callbacks (hub s) !! ValidateIncoming.CallbackID v = Some (ValidateCallback wid pk) ->
  faults (world s) = [] ->
  is_Some (websites (db (world s)) !! wid) ->
  validators (db (world s)) !! ValidateIncoming.ValidatorID v = Some vd ->
  varchar_ok 50 (ValidateIncoming.Status v) = true ->
  decimal_10_2_ok (ValidateIncoming.Latency v) = true ->
  decimal_20_2_ok (Validator.PendingPayouts vd + COST_PER_VALIDATION) = true ->
  let s' := exec (handleValidate data) s in
  ticks (db (world s')) = ticks (db (world s)) ++
    [WebsiteTick.mkWebsiteTick (uuid_string (next_uuid (world s))) wid
       (ValidateIncoming.ValidatorID v) (ValidateIncoming.Status v)
       (ValidateIncoming.Latency v) (clock (world s))] /\
  pending_of (db (world s')) (ValidateIncoming.ValidatorID v) =
    (Validator.PendingPayouts vd + COST_PER_VALIDATION)%Z /\
  Hub.callbacks (hub s') = delete (ValidateIncoming.CallbackID v) (Hub.callbacks (hub s)) /\
  Hub.validators (hub s') = Hub.validators (hub s).
Proof.
  intros Hd Hcb Hf Hw Hv Hs Hl Hp. cbv zeta.
  rewrite (handleValidate_found _ _ _ _ Hd Hcb). cbn [world hub set_callbacks Hub.callbacks Hub.validators].
  destruct (run_callback_ok wid pk data v (world s) vd Hd Hf Hw Hv Hs Hl Hp) as [Ht Hvs].
  unfold pending_of. rewrite Ht, Hvs, lookup_insert_eq. by split_and!.
Qed.

(** C3. Whatever the faults and whatever the reply, handling a reply
    changes no validator's credit except together with its ticks: the
    credit minus COST_PER_VALIDATION per recorded tick is the same for
    every validator before and after.  No tick without its credit, no
    credit without its tick. *)
Theorem handleValidate_preserves_gap data s id :
  ledger_gap (db (world (exec (handleValidate data) s))) id = ledger_gap (db (world s)) id.
Proof.
  destruct (handleValidate_db data s) as [-> | [vid Hc]]; eauto with uptime.
Qed.

(** C5. A callback is invoked at most once: once a reply has been
    handled, any further reply carrying the same callback id (a
    duplicate or late reply) changes nothing. *)
Theorem handleValidate_duplicate_noop s data1 data2 v1 v2 :
  unmarshal_ok (decode_ValidateIncoming data1) = Some v1 ->
  unmarshal_ok (decode_ValidateIncoming data2) = Some v2 ->
  ValidateIncoming.CallbackID v2 = ValidateIncoming.CallbackID v1 ->
  exec (handleValidate data2) (exec (handleValidate data1) s) = exec (handleValidate data1) s.
Proof.
  intros Hd1 Hd2 Hid. apply (handleValidate_missing _ _ v2 Hd2). rewrite Hid.
  destruct (Hub.callbacks (hub s) !! ValidateIncoming.CallbackID v1) as [cb|] eqn:Hcb.
  - rewrite (handleValidate_found _ _ _ _ Hd1 Hcb). apply lookup_delete_eq.
  - by rewrite (handleValidate_missing _ _ _ Hd1 Hcb).
Qed.


(** ** The dispatch loop. *)

Lemma uuid_string_inj m n : uuid_string m = uuid_string n -> m = n.
Proof. unfold uuid_string. intros H. apply (inj (String.app "uuid-")) in H. by apply (inj pretty) in H. Qed.

Lemma fresh_from_insert cbs n cb :
  fresh_from cbs n -> fresh_from (<[uuid_string n := cb]> cbs) (S n).
Proof.
  intros Hf m Hm. rewrite lookup_insert_ne; [apply Hf; lia|].
  intros Heq. apply uuid_string_inj in Heq. lia.
Qed.

Lemma dispatch_one_exec wb v s :
  let s' := exec (dispatch_one wb v) s in
  Hub.callbacks (hub s') =
    <[uuid_string (next_uuid (world s)) :=
        ValidateCallback (Website.ID wb) (ValidatorConnection.PublicKey v)]> (Hub.callbacks (hub s)) /\
  Hub.validators (hub s') = Hub.validators (hub s) /\
  next_uuid (world s') = S (next_uuid (world s)) /\ db (world s') = db (world s).
Proof.
  destruct s as [h w]. unfold dispatch_one, exec, st_bind, lift, new_uuid, modify_hub, st_modify; simpl.
  rewrite write_json_eq. by destruct (hd false _).
Qed.

Lemma dispatch_row wb vs s :
  fresh_from (Hub.callbacks (hub s)) (next_uuid (world s)) ->
  let s' := exec (st_iter (dispatch_one wb) vs) s in
  size (Hub.callbacks (hub s')) = (size (Hub.callbacks (hub s)) + length vs)%nat /\
  next_uuid (world s') = (next_uuid (world s) + length vs)%nat /\
  fresh_from (Hub.callbacks (hub s')) (next_uuid (world s')) /\
  Hub.validators (hub s') = Hub.validators (hub s) /\ db (world s') = db (world s).
Proof.
  revert s. induction vs as [|v vs IH]; intros s Hf; cbv zeta; [unfold exec; simpl; split_and!; done || lia|].
  rewrite exec_st_iter_cons.
  destruct (dispatch_one_exec wb v s) as (Hc & Hv & Hn & Hd).
  assert (Hf' : fresh_from (Hub.callbacks (hub (exec (dispatch_one wb v) s)))
                  (next_uuid (world (exec (dispatch_one wb v) s))))
    by (rewrite Hc, Hn; by apply fresh_from_insert).
  destruct (IH _ Hf') as (Hs & Hn' & Hf'' & Hv' & Hd').
  rewrite Hc, map_size_insert_None in Hs by (apply Hf; lia).
  rewrite length_cons. split_and!; [lia|lia|done|congruence|congruence].
Qed.

Lemma dispatch_grid ws vs s :
  fresh_from (Hub.callbacks (hub s)) (next_uuid (world s)) ->
  let s' := exec (st_iter (fun w => st_iter (dispatch_one w) vs) ws) s in
  size (Hub.callbacks (hub s')) = (size (Hub.callbacks (hub s)) + length ws * length vs)%nat /\
  next_uuid (world s') = (next_uuid (world s) + length ws * length vs)%nat /\
  Hub.validators (hub s') = Hub.validators (hub s) /\ db (world s') = db (world s).
Proof.
  revert s. induction ws as [|wb ws IH]; intros s Hf; cbv zeta; [unfold exec; simpl; split_and!; done || lia|].
  rewrite exec_st_iter_cons.
  destruct (dispatch_row wb vs s Hf) as (Hs & Hn & Hf' & Hv & Hd).
  destruct (IH _ Hf') as (Hs' & Hn' & Hv' & Hd').
  rewrite length_cons. split_and!; [nia|nia|congruence|congruence].
Qed.

(** C15. One iteration of the monitoring loop, when the website query
    succeeds and there are active websites and connected validators,
    registers one fresh callback per (website, validator) pair: the
    callback table grows by exactly |websites| * |validators| entries
    (none overwritten), whatever happens to the socket writes; the
    registry and the database are unchanged. *)
Theorem monitor_tick_fans_out s :
  hd false (faults (world s)) = false ->
  fresh_from (Hub.callbacks (hub s)) (next_uuid (world s)) ->
  active_websites (db (world s)) <> [] ->
  (map_to_list (Hub.validators (hub s))).*2 <> [] ->
  let s' := exec monitor_tick s in
  size (Hub.callbacks (hub s')) =
    (size (Hub.callbacks (hub s)) +
     length (active_websites (db (world s))) * size (Hub.validators (hub s)))%nat /\
  Hub.validators (hub s') = Hub.validators (hub s) /\ db (world s') = db (world s).
Proof.
  intros Hf Hfr Hw Hv. destruct s as [h w].
  unfold monitor_tick, exec, st_bind, lift, st_get; simpl in *.
  rewrite db_exec_eq, Hf. simpl.
  rewrite bool_decide_eq_false_2 by done. simpl. rewrite bool_decide_eq_false_2 by done.
  destruct (dispatch_grid (active_websites (db w)) (map_to_list (Hub.validators h)).*2
              (mkHubProc h (drop_fault w)) Hfr) as (Hs & _ & Hv' & Hd).
  unfold exec in Hs, Hv', Hd. simpl in *.
  rewrite length_fmap, length_map_to_list in Hs. split_and!; done.
Qed.

(** ** Signup. *)

Lemma find_or_create_found su w v :
  hd false (faults w) = false ->
  find_validator_by_pubkey (SignupIncoming.PublicKey su) (db w) = Some v ->
  find_or_create su w = (Some v, drop_fault w).
Proof.
  intros Hf Hv. unfold find_or_create, st_bind. rewrite db_exec_eq, Hf, Hv.
  destruct w; simpl. unfold set_db. by destruct db.
Qed.

Lemma find_or_create_new su w :
  hd false (faults w) = false -> hd false (tail (faults w)) = false ->
  find_validator_by_pubkey (SignupIncoming.PublicKey su) (db w) = None ->
  validators (db w) !! uuid_string (next_uuid w) = None ->
  let v := Validator.mkValidator (uuid_string (next_uuid w)) (SignupIncoming.PublicKey su)
             "unknown" (SignupIncoming.IP su) 0 (clock w) in
  exists w', find_or_create su w = (Some v, w') /\
    db w' = set_validators (<[uuid_string (next_uuid w) := v]> (validators (db w))) (db w).
Proof.
  intros Hf1 Hf2 Hv Hid. destruct w as [d q o n t fs]; simpl in *.
  unfold find_or_create, st_bind. rewrite db_exec_eq; simpl. rewrite Hf1, Hv.
  rewrite db_exec_eq; simpl. rewrite Hf2. unfold create_validator; simpl.
  rewrite Hid, Hv. by eexists.
Qed.

Lemma handleSignup_exec c data su s v w' :
  unmarshal_ok (decode_SignupIncoming data) = Some su ->
  find_or_create su (world s) = (Some v, w') ->
  let s' := exec (handleSignup c data) s in
  Hub.validators (hub s') =
    <[Validator.ID v := ValidatorConnection.mkValidatorConnection (Validator.ID v)
                          (Validator.PublicKey v) c]> (Hub.validators (hub s)) /\
  Hub.callbacks (hub s') = Hub.callbacks (hub s) /\ db (world s') = db w'.
Proof.
  intros Hd Hf. destruct s as [h w]. unfold handleSignup, exec. rewrite Hd.
  unfold st_bind, lift, modify_hub, st_modify; simpl in *. rewrite Hf. simpl.
  rewrite write_json_eq. by destruct (hd false _).
Qed.

(** C14. The hub never checks the signature of a signup: any frame that
    decodes to a signup carrying the public key of a registered
    validator, whatever its signedMessage, binds that validator's id to
    the sender's connection (replacing the honest validator's entry),
    without touching the database. *)
Theorem handleSignup_ignores_signature c data su s v :
  unmarshal_ok (decode_SignupIncoming data) = Some su ->
  hd false (faults (world s)) = false ->
  find_validator_by_pubkey (SignupIncoming.PublicKey su) (db (world s)) = Some v ->
  let s' := exec (handleSignup c data) s in
  Hub.validators (hub s') !! Validator.ID v =
    Some (ValidatorConnection.mkValidatorConnection (Validator.ID v) (Validator.PublicKey v) c) /\
  db (world s') = db (world s).
Proof.
  intros Hd Hf Hv. cbv zeta.
  destruct (handleSignup_exec c data su s v (drop_fault (world s)) Hd)
    as (Hr & _ & Hdb); [by apply find_or_create_found|].
  rewrite Hr, lookup_insert_eq, Hdb. by split.
Qed.

(** A signup with a public key the database does not know creates a
    validator row under a fresh uuid, with location "unknown", the
    signup's IP, no pending credit and the current time, and registers
    the sender's connection under that id. *)
Theorem handleSignup_registers_new_key c data su s :
  unmarshal_ok (decode_SignupIncoming data) = Some su ->
  hd false (faults (world s)) = false -> hd false (tail (faults (world s))) = false ->
  find_validator_by_pubkey (SignupIncoming.PublicKey su) (db (world s)) = None ->
  validators (db (world s)) !! uuid_string (next_uuid (world s)) = None ->
  let id := uuid_string (next_uuid (world s)) in
  let v := Validator.mkValidator id (SignupIncoming.PublicKey su) "unknown"
             (SignupIncoming.IP su) 0 (clock (world s)) in
  let s' := exec (handleSignup c data) s in
  validators (db (world s')) = <[id := v]> (validators (db (world s))) /\
  Hub.validators (hub s') !! id =
    Some (ValidatorConnection.mkValidatorConnection id (SignupIncoming.PublicKey su) c).
Proof.
  intros Hd Hf1 Hf2 Hv Hid.
  destruct (find_or_create_new su (world s) Hf1 Hf2 Hv Hid) as (w' & Hfc & Hw').
  destruct (handleSignup_exec c data su s _ w' Hd Hfc) as (Hr & _ & Hdb).
  cbv zeta in *. rewrite Hr, lookup_insert_eq, Hdb, Hw'. by split.
Qed.

(** ** Disconnection. *)

Lemma remove_first_conn_cases c order m :
  (Forall (fun kv => ValidatorConnection.Conn kv.2 <> c) order /\ remove_first_conn c order m = m) \/
  exists id vc, (id, vc) ∈ order /\ ValidatorConnection.Conn vc = c /\
                remove_first_conn c order m = delete id m.
Proof.
  induction order as [|[id vc] rest IH]; simpl; [by left|].
  case_bool_decide as Hc; [right; exists id, vc; by rewrite elem_of_cons; auto|].
  destruct IH as [[Hall ->]|(id' & vc' & Hin & Hc' & ->)]; [left; by rewrite Forall_cons|].
  right. exists id', vc'. rewrite elem_of_cons. auto.
Qed.

Lemma drop_conn_absent c m :
  (forall i v, m !! i = Some v -> ValidatorConnection.Conn v <> c) -> drop_conn c m = m.
Proof. intros H. apply map_filter_id. intros i v Hv. exact (H i v Hv). Qed.

Lemma drop_conn_unique c m id vc :
  conn_unique m c -> m !! id = Some vc -> ValidatorConnection.Conn vc = c ->
  drop_conn c m = delete id m.
Proof.
  intros Hu Hid Hc. apply map_eq. intros i. apply option_eq. intros x.
  unfold drop_conn. rewrite map_lookup_filter_Some, lookup_delete_Some. simpl.
  split; intros [H1 H2]; split; try done.
  - intros <-. congruence.
  - intros Hx. apply H1. by apply (Hu id i vc x).
Qed.

(** When at most one registry entry holds the closing connection,
    removeValidator's result does not depend on Go's (randomised) map
    iteration order: whatever enumeration of the registry it walks, it
    drops exactly the entries of that connection. *)
Theorem removeValidator_order_independent order c s :
  (forall m, order m ≡ₚ map_to_list m) ->
  conn_unique (Hub.validators (hub s)) c ->
  Hub.validators (hub (exec (removeValidator_in order c) s)) = drop_conn c (Hub.validators (hub s)).
Proof.
  intros Hord Hu. destruct s as [h w]. simpl. set (m := Hub.validators h).
  destruct (remove_first_conn_cases c (order m) m) as [[Hall ->]|(id & vc & Hin & Hc & ->)].
  - symmetry. apply drop_conn_absent. intros i v Hv.
    rewrite Forall_forall in Hall. apply (Hall (i, v)).
    rewrite (Hord m). by apply elem_of_map_to_list.
  - symmetry. apply (drop_conn_unique c m id vc Hu); [|done].
    apply elem_of_map_to_list. by rewrite <- (Hord m).
Qed.

(** C19. removeValidator deletes one entry only: when a connection has
    signed up under two validator ids (the hub allows it, see C21), one of
    them survives the disconnection, in whatever iteration order, and keeps
    pointing at the closed connection. *)
Theorem removeValidator_leaves_stale order c s i j vi vj :
  (forall m, order m ≡ₚ map_to_list m) ->
  i <> j -> Hub.validators (hub s) !! i = Some vi -> Hub.validators (hub s) !! j = Some vj ->
  ValidatorConnection.Conn vi = c -> ValidatorConnection.Conn vj = c ->
  exists k vk, Hub.validators (hub (exec (removeValidator_in order c) s)) !! k = Some vk /\
               ValidatorConnection.Conn vk = c.
Proof.
  intros Hord Hij Hi Hj Hci Hcj. destruct s as [h w]. simpl in *.
  destruct (remove_first_conn_cases c (order (Hub.validators h)) (Hub.validators h))
    as [[_ ->]|(id & vc & _ & _ & ->)]; [by exists i, vi|].
  destruct (decide (id = i)) as [->|Hne].
  - exists j, vj. by rewrite lookup_delete_ne.
  - exists i, vi. by rewrite lookup_delete_ne.
Qed.

(** ** Witnesses on the example configuration. *)

Lemma handleValidate_records_tick_witness :
  let s' := exec (handleValidate (ex_reply "Good")) ex_hubproc in
  ticks (db (world s')) = [WebsiteTick.mkWebsiteTick (uuid_string 1) "T1" "V1" "Good" 120 5] /\
  pending_of (db (world s')) "V1" = 100%Z /\
  Hub.callbacks (hub s') = delete "cb1" (Hub.callbacks (hub ex_hubproc)) /\
  Hub.validators (hub s') = Hub.validators (hub ex_hubproc).
Proof.
  apply (handleValidate_records_tick ex_hubproc (ex_reply "Good") (ex_reply_fields "Good")
           "T1" "pk1" ex_validator); try reflexivity.
  eexists; reflexivity.
Defined.

Lemma handleValidate_duplicate_noop_witness :
  exec (handleValidate (ex_reply "Bad")) (exec (handleValidate (ex_reply "Good")) ex_hubproc) =
  exec (handleValidate (ex_reply "Good")) ex_hubproc.
Proof.
  apply (handleValidate_duplicate_noop ex_hubproc (ex_reply "Good") (ex_reply "Bad")
           (ex_reply_fields "Good") (ex_reply_fields "Bad")); reflexivity.
Defined.

Lemma monitor_tick_fans_out_witness :
  size (Hub.callbacks (hub (exec monitor_tick ex_hubproc))) = 2%nat.
Proof.
  destruct (monitor_tick_fans_out ex_hubproc) as [Hs _].
  - reflexivity.
  - intros m _. simpl. rewrite lookup_singleton_ne; [done|].
    unfold uuid_string. simpl. discriminate.
  - vm_compute. discriminate.
  - vm_compute. discriminate.
  - rewrite Hs. vm_compute. reflexivity.
Defined.

Lemma handleSignup_ignores_signature_witness :
  Hub.validators (hub (exec (handleSignup 9 (ex_signup "pk1" "forged")) ex_hubproc)) !! "V1" =
    Some (ValidatorConnection.mkValidatorConnection "V1" "pk1" 9).
Proof.
  destruct (handleSignup_ignores_signature 9 (ex_signup "pk1" "forged")
              (SignupIncoming.mkSignupIncoming "10.0.0.9" "pk1" "forged" "s1") ex_hubproc ex_validator)
    as [H _].
  - vm_compute. reflexivity.
  - reflexivity.
  - vm_compute. reflexivity.
  - exact H.
Defined.

Lemma handleSignup_registers_new_key_witness :
  Hub.validators (hub (exec (handleSignup 9 (ex_signup "pk2" "sig")) ex_hubproc)) !! "uuid-1" =
    Some (ValidatorConnection.mkValidatorConnection "uuid-1" "pk2" 9).
Proof.
  destruct (handleSignup_registers_new_key 9 (ex_signup "pk2" "sig")
              (SignupIncoming.mkSignupIncoming "10.0.0.9" "pk2" "sig" "s1") ex_hubproc)
    as [_ H].
  - vm_compute. reflexivity.
  - reflexivity.
  - reflexivity.
  - vm_compute. reflexivity.
  - vm_compute. reflexivity.
  - exact H.
Defined.

Lemma removeValidator_order_independent_witness :
  Hub.validators (hub (exec (removeValidator 7) ex_hubproc)) = ∅.
Proof.
  unfold removeValidator. rewrite (removeValidator_order_independent map_to_list 7 ex_hubproc).
  - vm_compute. reflexivity.
  - reflexivity.
  - intros i j vi vj Hi Hj _ _. simpl in *.
    apply lookup_singleton_Some in Hi as [<- _]. by apply lookup_singleton_Some in Hj as [<- _].
Defined.

(** One connection signs up twice under two keys, then closes. *)
Definition ex_double_signup : list raw :=
  [ex_frame "signup" (ex_signup "pk1" "s"); ex_frame "signup" (ex_signup "pk2" "s")].

Lemma removeValidator_leaves_stale_witness :
  exists k vk, Hub.validators (hub (exec (handleWebSocket 9 ex_double_signup) ex_hubproc)) !! k = Some vk /\
               ValidatorConnection.Conn vk = 9%nat.
Proof.
  unfold handleWebSocket. rewrite exec_seq.
  apply (removeValidator_leaves_stale map_to_list 9 _ "V1" "uuid-1"
           (ValidatorConnection.mkValidatorConnection "V1" "pk1" 9)
           (ValidatorConnection.mkValidatorConnection "uuid-1" "pk2" 9)).
  - reflexivity.
  - discriminate.
  - vm_compute. reflexivity.
  - vm_compute. reflexivity.
  - reflexivity.
  - reflexivity.
Defined.
