(* ===== verification/Payout.v ===== *)
(** * Requesting a payout: the zero-and-enqueue step

    Models RequestPayout and GetValidatorBalance of
    src/internal/handlers/user/handler.go (lines 33-155).  RequestPayout
    opens a transaction, locks the validator row (SELECT ... FOR
    UPDATE), and when the pending credit is positive publishes a
    [PayoutRequest] for the whole credit on "payout_queue", then sets the
    credit to 0 and commits.  The row lock serialises concurrent
    requests for one validator, so the model runs the handler as one
    step of the world.  The publish is not part of the database
    transaction: the model keeps the message in the queue when the
    later update or commit fails, as RabbitMQ does.

    [owed w id] is what the system owes validator [id]: its pending
    credit plus the amounts of the queued requests for it. *)

From Stdlib Require Import QArith.
From S2P Require Import Prelude Float64 Json Store.

(** ** The queue message (handler.go lines 33-37). *)
Module PayoutRequest.
Record PayoutRequest := mkPayoutRequest { ValidatorID : string; Amount : Z; PublicKey : string }.
End PayoutRequest.
Abbreviation PayoutRequest := PayoutRequest.PayoutRequest.

(** json.Marshal(payoutReq): struct fields in order, with their tags. *)
Definition encode_PayoutRequest (p : PayoutRequest) : json :=
  JObj [("validator_id", JStr (PayoutRequest.ValidatorID p));
        ("amount", JNum (PayoutRequest.Amount p));
        ("public_key", JStr (PayoutRequest.PublicKey p))].

Definition decode_PayoutRequest (r : raw) : PayoutRequest * bool :=
  dec_struct (PayoutRequest.mkPayoutRequest "" 0 "")
    (fun kvs =>
       let '(vid, e1) := dec_field as_string "validator_id" "" kvs in
       let '(amt, e2) := dec_field as_number "amount" 0%Z kvs in
       let '(pk, e3) := dec_field as_string "public_key" "" kvs in
       (PayoutRequest.mkPayoutRequest vid amt pk, e1 || e2 || e3)) r.

(** ** Responses (status code and the body's "status"). *)
Inductive PayoutResponse :=
| RespNotFound          (* 404 Validator not found *)
| RespDatabaseError     (* 500 Database error *)
| RespCleared           (* 200 status "cleared", amount 0 *)
| RespQueueFailed       (* 500 Failed to queue payout *)
| RespUpdateFailed      (* 500 Failed to update balance *)
| RespCommitFailed      (* 500 Failed to commit transaction *)
| RespQueued (amount : Z). (* 200 status "queued" *)

Definition status_code (r : PayoutResponse) : Z :=
  match r with
  | RespNotFound => 404
  | RespCleared | RespQueued _ => 200
  | _ => 500
  end.

(** h.rabbitMQ.Publish("", "payout_queue", ...): may fail. *)
Definition publish (m : json) : ST World bool :=
  let* f := io_fault in
  if f then st_ret false
  else st_modify (fun w => set_queue (queue w ++ [m]) w) ;;; st_ret true.

(** validator.PendingPayouts as the handlers read it: the decimal
    column scanned into a Go float64 (models.go line 39). *)
Definition pending_f64 (v : Validator) : Z := round_f64 (Validator.PendingPayouts v).

(** ** RequestPayout (lines 40-131). *)
Definition RequestPayout (validatorID : string) : ST World PayoutResponse :=
  let* snap := tx_begin in
  let* r := db_exec (find_validator validatorID) in
  match r with
  | Err ErrRecordNotFound => tx_rollback snap ;;; st_ret RespNotFound
  | Err _ => tx_rollback snap ;;; st_ret RespDatabaseError
  | Ok v =>
      let pending := pending_f64 v in
      if (pending <=? 0)%Z then tx_rollback snap ;;; st_ret RespCleared
      else
        let payoutReq := PayoutRequest.mkPayoutRequest (Validator.ID v) pending (Validator.PublicKey v) in
        let* ok := publish (encode_PayoutRequest payoutReq) in
        if negb ok then tx_rollback snap ;;; st_ret RespQueueFailed
        else
          let* r2 := db_exec (update_pending (Validator.ID v) (fun _ => 0%Z)) in
          match r2 with
          | Err _ => tx_rollback snap ;;; st_ret RespUpdateFailed
          | Ok _ =>
              let* rc := tx_commit snap in
              match rc with
              | Err _ => st_ret RespCommitFailed
              | Ok _ => st_ret (RespQueued (PayoutRequest.Amount payoutReq))
              end
          end
  end.

(** ** GetValidatorBalance (lines 134-155). *)
Inductive BalanceResponse :=
| BalNotFound
| BalDatabaseError
| Balance (validator_id public_key : string) (pending_payouts : Z) (pending_payouts_sol : Q).

Definition GetValidatorBalance (validatorID : string) : ST World BalanceResponse :=
  let* r := db_exec (find_validator validatorID) in
  match r with
  | Err ErrRecordNotFound => st_ret BalNotFound
  | Err _ => st_ret BalDatabaseError
  | Ok v => st_ret (Balance (Validator.ID v) (Validator.PublicKey v) (pending_f64 v)
                      (round_f64_div (pending_f64 v) 1000000000))
  end.

(** ** Accounting. *)
Definition queued_amount (id : string) (m : json) : Z :=
  match unmarshal_ok (decode_PayoutRequest (Some m)) with
  | Some p => if bool_decide (PayoutRequest.ValidatorID p = id) then PayoutRequest.Amount p else 0%Z
  | None => 0%Z
  end.

Definition queued_for (q : list json) (id : string) : Z := sumZ (queued_amount id) q.

Definition owed (w : World) (id : string) : Z := (pending_of (db w) id + queued_for (queue w) id)%Z.

(** The credit of [id] reads as a float64 without rounding. *)
Definition pending_exact (d : DB) (id : string) : Prop := round_f64 (pending_of d id) = pending_of d id.

(** ** An example configuration: validator V1 holding 500 lamports,
    with a fault-free world and with a world whose commit fails. *)
Definition ex_payout_validator (p : Z) : Validator := Validator.mkValidator "V1" "pk1" "unknown" "127.0.0.1" p 0.
Definition ex_payout_world (p : Z) (fs : list bool) : World :=
  mkWorld (mkDB ∅ ∅ {[ "V1" := ex_payout_validator p ]} [] ∅) [] [] 0 0 fs.

(** ** Lemmas. *)

Lemma publish_eq m w :
  publish m w =
  if hd false (faults w) then (false, drop_fault w)
  else (true, set_queue (queue w ++ [m]) (drop_fault w)).
Proof. unfold publish, st_bind. rewrite io_fault_eq. by destruct (hd false (faults w)). Qed.

Lemma decode_encode_PayoutRequest p :
  decode_PayoutRequest (Some (encode_PayoutRequest p)) = (p, false).
Proof. by destruct p. Qed.

Lemma queued_amount_encode id p :
  queued_amount id (encode_PayoutRequest p) =
  if bool_decide (PayoutRequest.ValidatorID p = id) then PayoutRequest.Amount p else 0%Z.
Proof. unfold queued_amount. by rewrite decode_encode_PayoutRequest. Qed.

Lemma pending_f64_leb0 v : (pending_f64 v <=? 0)%Z = (Validator.PendingPayouts v <=? 0)%Z.
Proof.
  unfold pending_f64. pose proof (round_f64_pos (Validator.PendingPayouts v)).
  destruct (Z.leb_spec (round_f64 (Validator.PendingPayouts v)) 0), (Z.leb_spec (Validator.PendingPayouts v) 0); lia.
Qed.

Lemma queued_for_snoc q m id :
  queued_for (q ++ [m]) id = (queued_for q id + queued_amount id m)%Z.
Proof. unfold queued_for. rewrite sumZ_app. simpl. lia. Qed.

(** What RequestPayout does, for every fault schedule: either nothing
    observable (404, 500 before the publish, or "cleared"), or the whole
    credit is published, and then either zeroed and committed, or left
    in place because the update or the commit failed. *)
Lemma RequestPayout_spec id w :
  validators_keyed (db w) ->
  let '(resp, w') := RequestPayout id w in
  (queue w' = queue w /\ db w' = db w /\
   (resp = RespNotFound \/ resp = RespDatabaseError \/ resp = RespCleared \/ resp = RespQueueFailed)) \/
  (exists v, validators (db w) !! id = Some v /\ (0 < Validator.PendingPayouts v)%Z /\
     queue w' = queue w ++ [encode_PayoutRequest (PayoutRequest.mkPayoutRequest id
                                (pending_f64 v) (Validator.PublicKey v))] /\
     ((resp = RespQueued (pending_f64 v) /\
       db w' = set_validators (<[id := with_pending 0 v]> (validators (db w))) (db w)) \/
      ((resp = RespUpdateFailed \/ resp = RespCommitFailed) /\ db w' = db w))).
Proof.
  intros Hk. unfold RequestPayout, st_bind, tx_begin, tx_rollback, st_modify, st_ret.
  rewrite db_exec_eq. destruct (hd false (faults w)); simpl; [left; naive_solver|].
  unfold find_validator. destruct (validators (db w) !! id) as [v|] eqn:Hv; simpl;
    [|left; naive_solver].
  pose proof (Hk _ _ Hv) as Hid. rewrite Hid.
  rewrite pending_f64_leb0. destruct (Validator.PendingPayouts v <=? 0)%Z eqn:Hp; simpl; [left; naive_solver|].
  apply Z.leb_gt in Hp. rewrite publish_eq.
  simpl. destruct (hd false (tail (faults w))); simpl; [left; naive_solver|].
  rewrite db_exec_eq. simpl. destruct (hd false (tail (tail (faults w)))); simpl;
    [right; exists v; naive_solver|].
  rewrite (update_pending_eq _ _ _ v Hv) by done. simpl.
  rewrite tx_commit_eq. simpl. destruct (hd false _); simpl; right; exists v; naive_solver.
Qed.

Lemma queued_for_encode q id a pk id' :
  queued_for (q ++ [encode_PayoutRequest (PayoutRequest.mkPayoutRequest id a pk)]) id' =
  (queued_for q id' + if bool_decide (id = id') then a else 0)%Z.
Proof. by rewrite queued_for_snoc, queued_amount_encode. Qed.

Lemma pending_of_lookup d id v : validators d !! id = Some v -> pending_of d id = Validator.PendingPayouts v.
Proof. unfold pending_of. by intros ->. Qed.

(** The fault-free run on a validator with a positive credit. *)
Lemma RequestPayout_no_fault id w v :
  validators_keyed (db w) ->
  faults w = [] ->
  validators (db w) !! id = Some v ->
  (0 < Validator.PendingPayouts v)%Z ->
  RequestPayout id w =
    (RespQueued (pending_f64 v),
     mkWorld (set_validators (<[id := with_pending 0 v]> (validators (db w))) (db w))
       (queue w ++ [encode_PayoutRequest (PayoutRequest.mkPayoutRequest id
                      (pending_f64 v) (Validator.PublicKey v))])
       (outbox w) (next_uuid w) (clock w) []).
Proof.
  destruct w as [d q o n c fs]; simpl. intros Hk -> Hv Hp.
  unfold RequestPayout, st_bind, tx_begin, st_ret.
  rewrite db_exec_eq. simpl. unfold find_validator. rewrite Hv, (Hk _ _ Hv). simpl.
  rewrite pending_f64_leb0, (proj2 (Z.leb_gt _ _) Hp), publish_eq. simpl.
  rewrite db_exec_eq. simpl. rewrite (update_pending_eq _ _ _ v Hv) by done. done.
Qed.

(** Requesting a payout for a validator whose credit is not positive
    answers "cleared" and changes nothing but the consumed fault bit. *)
Lemma RequestPayout_cleared id w v :
  validators (db w) !! id = Some v ->
  (Validator.PendingPayouts v <= 0)%Z ->
  hd false (faults w) = false ->
  RequestPayout id w = (RespCleared, drop_fault w).
Proof.
  intros Hv Hp Hf. unfold RequestPayout, st_bind, tx_begin, tx_rollback, st_modify, st_ret.
  rewrite db_exec_eq, Hf. simpl. unfold find_validator. rewrite Hv. simpl.
  rewrite pending_f64_leb0, (proj2 (Z.leb_le _ _) Hp). by destruct w.
Qed.

(** ** Claims. *)

(** C8. Without faults, a payout request for a validator with a
    positive credit publishes exactly one request (with the validator's
    id and public key) for the credit as read into a float64, answers
    "queued" with that amount, and zeroes the credit. *)
Theorem RequestPayout_queues_balance id w v :
  validators_keyed (db w) ->
  faults w = [] ->
  validators (db w) !! id = Some v ->
  (0 < Validator.PendingPayouts v)%Z ->
  let '(resp, w') := RequestPayout id w in
  resp = RespQueued (pending_f64 v) /\
  queue w' = queue w ++ [encode_PayoutRequest (PayoutRequest.mkPayoutRequest id
                            (pending_f64 v) (Validator.PublicKey v))] /\
  pending_of (db w') id = 0%Z.
Proof.
  intros Hk Hf Hv Hp. rewrite (RequestPayout_no_fault id w v Hk Hf Hv Hp).
  split_and!; [done|done|]. unfold pending_of. simpl. by rewrite lookup_insert_eq.
Qed.

(** C22. The credit is read as a float64 before it is queued: without
    faults, a payout request for a credit B > 0 zeroes B and queues the
    float64 nearest B, so what the system owes the validator changes by
    exactly the rounding error; that error is at most B / 2^53 (half an
    ulp) and is zero when B is at most 2^53 lamports.  Above 2^53 the
    decimal(20,2) column holds credits the float64 cannot represent,
    and a payout request creates or destroys up to B / 2^53 lamports. *)
Theorem RequestPayout_rounds_credit id w v :
  validators_keyed (db w) -> faults w = [] ->
  validators (db w) !! id = Some v -> (0 < Validator.PendingPayouts v)%Z ->
  owed (RequestPayout id w).2 id = (owed w id + (pending_f64 v - Validator.PendingPayouts v))%Z /\
  (2 ^ 53 * Z.abs (pending_f64 v - Validator.PendingPayouts v) <= Validator.PendingPayouts v)%Z /\
  ((Validator.PendingPayouts v <= 2 ^ 53)%Z -> pending_f64 v = Validator.PendingPayouts v).
Proof.
  intros Hk Hf Hv Hp. rewrite (RequestPayout_no_fault id w v Hk Hf Hv Hp). simpl.
  unfold pending_f64. split_and!.
  - unfold owed. simpl. rewrite pending_of_insert, queued_for_encode, (pending_of_lookup _ _ _ Hv).
    rewrite !bool_decide_eq_true_2 by done. lia.
  - pose proof (round_f64_error (Validator.PendingPayouts v)). lia.
  - intros Hb. apply round_f64_exact. lia.
Qed.

(** C7. Whatever the faults, unless the update or the commit fails
    after the publish, a payout request for a credit that reads exactly
    as a float64 moves value without creating or losing any: for every
    validator, pending credit plus queued amounts is the same before
    and after. *)
Theorem RequestPayout_conserves_owed id w id' :
  validators_keyed (db w) ->
  pending_exact (db w) id ->
  (RequestPayout id w).1 <> RespUpdateFailed ->
  (RequestPayout id w).1 <> RespCommitFailed ->
  owed (RequestPayout id w).2 id' = owed w id'.
Proof.
  intros Hk Hx. pose proof (RequestPayout_spec id w Hk) as Hs.
  destruct (RequestPayout id w) as [resp w']; simpl. intros Hu Hc.
  destruct Hs as [(Hq & Hd & _)|(v & Hv & _ & Hq & [[_ Hd]|[[-> | ->] _]])]; [|..|done|done];
    unfold owed; rewrite Hq, Hd; [done|].
  rewrite pending_of_insert, queued_for_encode.
  unfold pending_exact in Hx. rewrite (pending_of_lookup _ _ _ Hv) in Hx. unfold pending_f64. rewrite Hx.
  case_bool_decide; subst; [|lia]. rewrite (pending_of_lookup _ _ _ Hv). lia.
Qed.

(** C11. The publish happens before the transaction commits: when the
    update or the commit fails afterwards, the request stays queued
    while the credit stays in place, so what the system owes the
    validator grows by the whole amount published (a retry publishes
    it again). *)
Theorem RequestPayout_late_failure_duplicates id w :
  validators_keyed (db w) ->
  (RequestPayout id w).1 = RespUpdateFailed \/ (RequestPayout id w).1 = RespCommitFailed ->
  exists v, validators (db w) !! id = Some v /\
    pending_of (db (RequestPayout id w).2) id = Validator.PendingPayouts v /\
    owed (RequestPayout id w).2 id = (owed w id + pending_f64 v)%Z.
Proof.
  intros Hk. pose proof (RequestPayout_spec id w Hk) as Hs.
  destruct (RequestPayout id w) as [resp w']; simpl. intros Hr.
  destruct Hs as [(_ & _ & Hr')|(v & Hv & _ & Hq & [[-> _]|[_ Hd]])].
  { destruct Hr as [-> | ->]; destruct Hr' as [?|[?|[?|?]]]; discriminate. }
  { destruct Hr; discriminate. }
  exists v. unfold owed. rewrite Hq, Hd, queued_for_encode, (pending_of_lookup _ _ _ Hv).
  rewrite bool_decide_eq_true_2 by done. split_and!; [done|done|lia].
Qed.

(** ** Witnesses. *)

Lemma RequestPayout_queues_balance_witness :
  let '(resp, w') := RequestPayout "V1" (ex_payout_world 500 []) in
  resp = RespQueued 500 /\
  queue w' = [encode_PayoutRequest (PayoutRequest.mkPayoutRequest "V1" 500 "pk1")] /\
  pending_of (db w') "V1" = 0%Z.
Proof.
  apply (RequestPayout_queues_balance "V1" (ex_payout_world 500 []) (ex_payout_validator 500));
    [eapply bool_decide_unpack; vm_compute; exact I|reflexivity|reflexivity|simpl; lia].
Defined.

Lemma RequestPayout_rounds_credit_witness :
  owed (RequestPayout "V1" (ex_payout_world (2 ^ 53 + 3) [])).2 "V1" =
  (owed (ex_payout_world (2 ^ 53 + 3) []) "V1" + 1)%Z.
Proof.
  destruct (RequestPayout_rounds_credit "V1" (ex_payout_world (2 ^ 53 + 3) []) (ex_payout_validator (2 ^ 53 + 3)))
    as [H _]; [eapply bool_decide_unpack; vm_compute; exact I|reflexivity|reflexivity|vm_compute; reflexivity|].
  rewrite H. reflexivity.
Defined.

Lemma RequestPayout_conserves_owed_witness :
  owed (RequestPayout "V1" (ex_payout_world 500 [])).2 "V1" = owed (ex_payout_world 500 []) "V1".
Proof.
  apply (RequestPayout_conserves_owed "V1" (ex_payout_world 500 []) "V1");
    [eapply bool_decide_unpack; vm_compute; exact I|vm_compute; reflexivity|vm_compute; discriminate|vm_compute; discriminate].
Defined.

Lemma RequestPayout_late_failure_duplicates_witness :
  exists v, validators (db (ex_payout_world 500 [false; false; false; true])) !! "V1" = Some v /\
    pending_of (db (RequestPayout "V1" (ex_payout_world 500 [false; false; false; true])).2) "V1" =
      Validator.PendingPayouts v /\
    owed (RequestPayout "V1" (ex_payout_world 500 [false; false; false; true])).2 "V1" =
      (owed (ex_payout_world 500 [false; false; false; true]) "V1" + pending_f64 v)%Z.
Proof.
  apply (RequestPayout_late_failure_duplicates "V1" (ex_payout_world 500 [false; false; false; true]));
    [eapply bool_decide_unpack; vm_compute; exact I|right; vm_compute; reflexivity].
Defined.
