(* ===== verification/Worker.v ===== *)
(** * The payout worker

    Models the services package in the second half of
    src/internal/models/models.go (lines 83-348): [PayoutWorker] consumes
    "payout_queue" one message at a time with manual acknowledgement,
    records a PayoutTransaction, sends a Solana transfer from the
    platform wallet, polls for finality, and refunds the validator when
    the transfer cannot be sent.

    The Solana node is a [Chain]: the transfers it accepted, a supply of
    fresh signatures, a fault schedule for its RPC calls (kept apart
    from the database faults of the [World], so that theorems can
    assume a reliable database while quantifying over every node
    behaviour) and the sequence of answers GetSignatureStatuses gives.
    base58 decoding of the recipient key is modelled (alphabet, leading
    '1's as zero bytes, 32-byte length check of PublicKeyFromBase58);
    ed25519 signing of the transaction is not (it cannot fail here).

    waitForConfirmation ticks every 2 s and gives up at the 30 s
    deadline, which it sets before it starts the ticker: the tick at
    30 s comes after the deadline, so at most 14 statuses are read. *)

From Stdlib Require Import Ascii.
From S2P Require Import Prelude Json Store Payout.

(** ** base58 (github.com/mr-tron/base58) and PublicKeyFromBase58. *)
Definition b58_alphabet : string :=
  "123456789ABCDEFGHJKLMNPQRSTUVWXYZabcdefghijkmnopqrstuvwxyz".

Fixpoint b58_digit_in (c : Ascii.ascii) (alpha : string) (i : Z) : option Z :=
  match alpha with
  | EmptyString => None
  | String a rest => if bool_decide (a = c) then Some i else b58_digit_in c rest (i + 1)
  end.

Fixpoint b58_value (s : string) (acc : Z) : option Z :=
  match s with
  | EmptyString => Some acc
  | String c rest =>
      match b58_digit_in c b58_alphabet 0 with
      | Some d => b58_value rest (acc * 58 + d)
      | None => None
      end
  end.

Fixpoint leading_ones (s : string) : nat :=
  match s with
  | String "1"%char rest => S (leading_ones rest)
  | _ => O
  end.

Definition byte_len (n : Z) : nat := if (n =? 0)%Z then O else Z.to_nat (Z.log2 n / 8 + 1).

(** Number of bytes base58.Decode returns, or [None] on an error. *)
Definition b58_decoded_len (s : string) : option nat :=
  match s with
  | EmptyString => None
  | _ => match b58_value s 0 with
         | Some n => Some (leading_ones s + byte_len n)%nat
         | None => None
         end
  end.

Definition PublicKeyFromBase58_ok (s : string) : bool :=
  match b58_decoded_len s with Some 32%nat => true | _ => false end.

(** ** The Solana node. *)
Inductive SigStatus :=
| StatusRpcError                           (* GetSignatureStatuses returned an error *)
| StatusNil                                (* status.Value empty or Value[0] == nil *)
| StatusSeen (finalized failed : bool).    (* ConfirmationStatus == Finalized, Err != nil *)

Record Transfer := mkTransfer { from : string; to : string; lamports : Z; signature : string }.

Record Chain := mkChain {
  transfers : list Transfer;
  next_sig : nat;
  rpc_faults : list bool;
  statuses : list SigStatus }.

Definition sig_string (n : nat) : string := "sig" +:+ pretty n.

Definition with_statuses (l : list SigStatus) (c : Chain) : Chain :=
  mkChain (transfers c) (next_sig c) (rpc_faults c) l.

(** Answers that end the polling loop, and what the loop returns then. *)
Definition terminal (a : SigStatus) : bool :=
  match a with StatusSeen true _ | StatusSeen false true => true | _ => false end.
Definition poll_outcome (a : SigStatus) : bool * option string :=
  match a with StatusSeen true _ => (true, None) | _ => (false, Some "transaction failed") end.

(** The node after accepting a transfer (two RPC calls consumed). *)
Definition sent_chain (payer recipient : string) (amount : Z) (c : Chain) : Chain :=
  mkChain (transfers c ++ [mkTransfer payer recipient amount (sig_string (next_sig c))])
    (S (next_sig c)) (drop 2 (rpc_faults c)) (statuses c).

(** ** The worker process: the PayoutWorker struct (lines 101-106) with
    its database and queue in the world and its Solana client. *)
Record WorkerProc := mkWorkerProc { platformWallet : string; wworld : World; chain : Chain }.

#[export] Program Instance WorkerProc_HasWorld : HasWorld WorkerProc := {|
  get_world := wworld; put_world w s := mkWorkerProc (platformWallet s) w (chain s) |}.
Solve Obligations with by intros [].

Definition on_chain {A} (m : ST Chain A) : ST WorkerProc A := fun s =>
  let '(a, c') := m (chain s) in (a, mkWorkerProc (platformWallet s) (wworld s) c').

Definition rpc_fault : ST Chain bool := fun c =>
  match rpc_faults c with
  | [] => (false, c)
  | b :: rest => (b, mkChain (transfers c) (next_sig c) rest (statuses c))
  end.

Definition next_status : ST Chain SigStatus := fun c =>
  match statuses c with
  | [] => (StatusNil, c)
  | a :: rest => (a, mkChain (transfers c) (next_sig c) (rpc_faults c) rest)
  end.

(** SendTransactionWithOpts: on success the node holds the transfer and
    returns its signature. *)
Definition send_transaction (payer recipient : string) (amount : Z) : ST Chain (option string) :=
  let* f := rpc_fault in
  if f then st_ret None
  else fun c =>
    let sig := sig_string (next_sig c) in
    (Some sig, mkChain (transfers c ++ [mkTransfer payer recipient amount sig])
                 (S (next_sig c)) (rpc_faults c) (statuses c)).

(** uint64(req.Amount): integral amounts are taken modulo 2^64. *)
Definition uint64_of_amount (a : Z) : Z := (a mod 2 ^ 64)%Z.

(** ** executeSolanaTransfer (lines 259-316): an error message or the
    transaction signature. *)
Definition executeSolanaTransfer (recipientPublicKey : string) (amount : Z)
    : ST WorkerProc (string + string) :=
  if negb (PublicKeyFromBase58_ok recipientPublicKey) then st_ret (inl "invalid recipient public key")
  else
    let* f := on_chain rpc_fault in
    if f then st_ret (inl "failed to get latest blockhash")
    else
      let* s := st_get in
      let* r := on_chain (send_transaction (platformWallet s) recipientPublicKey amount) in
      match r with
      | None => st_ret (inl "failed to send transaction")
      | Some sig => st_ret (inr sig)
      end.

(** ** waitForConfirmation (lines 319-348).

    Times are in milliseconds from context.WithTimeout (line 320): the
    context expires at [confirmation_timeout_ms].  The ticker is
    created after it (line 324), [ticker_start_ms] later, and fires at
    [ticker_start_ms + k * poll_interval_ms] for k = 1, 2, ...  Each
    iteration of the for-select takes the earlier of the two events: a
    tick that does not come before the deadline is preceded by
    ctx.Done, and the loop returns the timeout.  The RPC is taken as
    instantaneous. *)
Definition confirmation_timeout_ms : Z := 30000.
Definition poll_interval_ms : Z := 2000.
Definition ticker_start_ms : Z := 1.

(** The loop waiting for the tick due at [tick]; the fuel only makes the
    recursion structural (see [confirmation_fuel]). *)
Fixpoint poll_loop (fuel : nat) (tick : Z) : ST Chain (bool * option string) :=
  match fuel with
  | O => st_ret (false, Some "confirmation timeout")
  | S fuel' =>
      if (confirmation_timeout_ms <=? tick)%Z then st_ret (false, Some "confirmation timeout")
      else
        let* a := next_status in
        match a with
        | StatusRpcError | StatusNil => poll_loop fuel' (tick + poll_interval_ms)
        | StatusSeen finalized failed =>
            if finalized then st_ret (true, None)
            else if failed then st_ret (false, Some "transaction failed")
            else poll_loop fuel' (tick + poll_interval_ms)
        end
  end.

(** One more than the ticks that fit in the timeout: the deadline, not
    the fuel, ends the loop ([poll_loop_ticks]). *)
Definition confirmation_fuel : nat := S (Z.to_nat (confirmation_timeout_ms / poll_interval_ms)).

Definition waitForConfirmation (sig : string) : ST WorkerProc (bool * option string) :=
  on_chain (poll_loop confirmation_fuel (ticker_start_ms + poll_interval_ms)).

(** The loop reading at most [n] statuses, with no clock: what
    [poll_loop] does when [n] ticks come before the deadline. *)
Fixpoint poll_confirmation (n : nat) : ST Chain (bool * option string) :=
  match n with
  | O => st_ret (false, Some "confirmation timeout")
  | S n' =>
      let* a := next_status in
      match a with
      | StatusRpcError | StatusNil => poll_confirmation n'
      | StatusSeen finalized failed =>
          if finalized then st_ret (true, None)
          else if failed then st_ret (false, Some "transaction failed")
          else poll_confirmation n'
      end
  end.

(** The number of ticks due at [tick], [tick + poll_interval_ms], ...
    that come before the deadline. *)
Definition ticks_before_deadline (tick : Z) : nat :=
  if (tick <? confirmation_timeout_ms)%Z
  then S (Z.to_nat ((confirmation_timeout_ms - tick - 1) / poll_interval_ms)) else O.

(** ** processPayoutRequest (lines 184-256). *)
Inductive Ack := Acked | NackDrop | NackRequeue.

Definition mark_failed (err : string) (t : Z) (p : PayoutTransaction) : PayoutTransaction :=
  PayoutTransaction.mkPayoutTransaction (PayoutTransaction.ID p) (PayoutTransaction.ValidatorID p)
    (PayoutTransaction.Amount p) "failed" (PayoutTransaction.TxSignature p) err
    (PayoutTransaction.CreatedAt p) t.

Definition mark_unconfirmed (sig : string) (t : Z) (p : PayoutTransaction) : PayoutTransaction :=
  PayoutTransaction.mkPayoutTransaction (PayoutTransaction.ID p) (PayoutTransaction.ValidatorID p)
    (PayoutTransaction.Amount p) "failed" sig "Transaction confirmation timeout"
    (PayoutTransaction.CreatedAt p) t.

Definition mark_completed (sig : string) (t : Z) (p : PayoutTransaction) : PayoutTransaction :=
  PayoutTransaction.mkPayoutTransaction (PayoutTransaction.ID p) (PayoutTransaction.ValidatorID p)
    (PayoutTransaction.Amount p) "completed" sig (PayoutTransaction.ErrorMessage p)
    (PayoutTransaction.CreatedAt p) t.

Definition processPayoutRequest (body : json) : ST WorkerProc Ack :=
  match unmarshal_ok (decode_PayoutRequest (Some body)) with
  | None => st_ret NackDrop
  | Some req =>
      let* id := lift new_uuid in
      let* t := lift now in
      let txRecord := PayoutTransaction.mkPayoutTransaction id (PayoutRequest.ValidatorID req)
                        (PayoutRequest.Amount req) "processing" "" "" t t in
      let* r := lift (db_exec (create_payout txRecord)) in
      match r with
      | Err _ => st_ret NackRequeue
      | Ok _ =>
          let* res := executeSolanaTransfer (PayoutRequest.PublicKey req)
                        (uint64_of_amount (PayoutRequest.Amount req)) in
          match res with
          | inl err =>
              let* t2 := lift now in
              let* _ := lift (db_exec (update_payout id (mark_failed err t2))) in
              let* _ := lift (db_exec (update_pending (PayoutRequest.ValidatorID req)
                                         (fun p => p + PayoutRequest.Amount req)%Z)) in
              st_ret NackDrop
          | inr sig =>
              let* '(confirmed, _) := waitForConfirmation sig in
              let* t2 := lift now in
              if confirmed then
                let* _ := lift (db_exec (update_payout id (mark_completed sig t2))) in
                st_ret Acked
              else
                let* _ := lift (db_exec (update_payout id (mark_unconfirmed sig t2))) in
                st_ret NackDrop
          end
      end
  end.

(** The record processPayoutRequest creates first. *)
Definition initial_record (req : PayoutRequest) (w : World) : PayoutTransaction :=
  PayoutTransaction.mkPayoutTransaction (uuid_string (next_uuid w)) (PayoutRequest.ValidatorID req)
    (PayoutRequest.Amount req) "processing" "" "" (clock w) (clock w).

(** One delivery (Start, lines 171-177, with QoS 1): the head of the
    queue is processed; Ack and Nack without requeue remove it, Nack
    with requeue leaves it at the head. *)
Definition deliver : ST WorkerProc unit :=
  let* s := st_get in
  match queue (wworld s) with
  | [] => st_ret tt
  | m :: _ =>
      let* a := processPayoutRequest m in
      match a with
      | NackRequeue => st_ret tt
      | _ => lift (st_modify (fun w => set_queue (tail (queue w)) w))
      end
  end.

(** A delivery whose acknowledgement never reaches RabbitMQ: the worker
    process stops, or its connection drops, after processPayoutRequest
    has run and before its Ack or Nack is received.  The consumer does
    not auto-acknowledge (autoAck=false, line 159), so the broker
    requeues the unacknowledged message when the channel closes: it
    stays at the head of the queue and is delivered again. *)
Definition deliver_unacked : ST WorkerProc unit :=
  let* s := st_get in
  match queue (wworld s) with
  | [] => st_ret tt
  | m :: _ => processPayoutRequest m ;;; st_ret tt
  end.

(** ** An example configuration: validator V1 with a real base58 key,
    one queued request for 500 lamports, a node with the given RPC
    faults and status answers. *)
Definition ex_pk : string := "4Nd1mBQtrMJVYVfKf2PJy9NZUZdTAsp7D4xWLs4gDB4T".
Definition ex_wvalidator (p : Z) : Validator := Validator.mkValidator "V1" ex_pk "unknown" "127.0.0.1" p 0.
Definition ex_req : PayoutRequest := PayoutRequest.mkPayoutRequest "V1" 500 ex_pk.
Definition ex_wworld (p : Z) (q : list json) : World :=
  mkWorld (mkDB ∅ ∅ {[ "V1" := ex_wvalidator p ]} [] ∅) q [] 0 0 [].
Definition ex_worker (rf : list bool) (st : list SigStatus) : WorkerProc :=
  mkWorkerProc "wallet" (ex_wworld 0 [encode_PayoutRequest ex_req]) (mkChain [] 0 rf st).

(** ** Lemmas on the polling loop. *)

Lemma poll_confirmation_frame fuel c :
  let c' := (poll_confirmation fuel c).2 in
  transfers c' = transfers c /\ next_sig c' = next_sig c /\ rpc_faults c' = rpc_faults c /\
  exists k, (k <= fuel)%nat /\ statuses c' = drop k (statuses c).
Proof.
  revert c. induction fuel as [|fuel IH]; intros c; simpl.
  - split_and!; [done..|]. exists O. split; [lia|done].
  - unfold st_bind, next_status. destruct (statuses c) as [|a rest] eqn:Hs; simpl.
    + destruct (IH c) as (? & ? & ? & k & ? & Hk). split_and!; [done..|].
      exists k. split; [lia|]. by rewrite Hk, ?Hs.
    + destruct a as [| |[] []]; simpl; try (split_and!; [done..|exists 1%nat; split; [lia|by rewrite ?Hs]]);
        destruct (IH (mkChain (transfers c) (next_sig c) (rpc_faults c) rest))
          as (Ht & Hn & Hr & k & ? & Hk); simpl in *;
        (split_and!; [done..|exists (S k); split; [lia|by rewrite Hk, ?Hs]]).
Qed.

Lemma poll_confirmation_timeout fuel c :
  Forall (fun a => terminal a = false) (take fuel (statuses c)) ->
  poll_confirmation fuel c =
    ((false, Some "confirmation timeout"), with_statuses (drop fuel (statuses c)) c).
Proof.
  revert c. induction fuel as [|fuel IH]; intros c Hall; simpl.
  - by destruct c.
  - unfold st_bind, next_status. destruct (statuses c) as [|a rest] eqn:Hs; simpl.
    + rewrite IH by (rewrite Hs, take_nil; constructor). by rewrite Hs, !drop_nil.
    + simpl in Hall. inversion Hall as [|? ? Ha Hrest]; subst.
      destruct a as [| |[] []]; simpl in Ha; try discriminate;
        rewrite IH by exact Hrest; done.
Qed.

Lemma poll_confirmation_terminal fuel c pre a post :
  statuses c = pre ++ a :: post ->
  Forall (fun a => terminal a = false) pre ->
  terminal a = true ->
  (length pre < fuel)%nat ->
  poll_confirmation fuel c = (poll_outcome a, with_statuses post c).
Proof.
  revert c pre. induction fuel as [|fuel IH]; intros c pre Hs Hpre Ha Hlen; simpl; [lia|].
  unfold st_bind, next_status. rewrite Hs. destruct pre as [|b pre]; simpl.
  - destruct a as [| |[] []]; simpl in Ha; try discriminate; done.
  - inversion Hpre as [|? ? Hb Hrest]; subst. simpl in Hlen.
    destruct b as [| |[] []]; simpl in Hb; try discriminate;
      (rewrite (IH _ pre) by (simpl; done || lia); done).
Qed.

(** ** The clock of the polling loop. *)

Lemma ticks_before_deadline_step tick :
  (tick < confirmation_timeout_ms)%Z ->
  ticks_before_deadline tick = S (ticks_before_deadline (tick + poll_interval_ms)).
Proof.
  unfold ticks_before_deadline, confirmation_timeout_ms, poll_interval_ms. intros Ht.
  rewrite (proj2 (Z.ltb_lt _ _) Ht). f_equal.
  destruct (Z.ltb_spec (tick + 2000) 30000) as [Hl|Hl].
  - replace (30000 - tick - 1)%Z with ((30000 - (tick + 2000) - 1) + 1 * 2000)%Z by lia.
    rewrite Z_div_plus_full by lia. rewrite Z2Nat.inj_add by (try apply Z.div_pos; lia). simpl. lia.
  - rewrite Z.div_small by lia. done.
Qed.

(** Whatever the fuel beyond the ticks before the deadline, the loop
    reads as that many polls. *)
Lemma poll_loop_ticks fuel tick c :
  (ticks_before_deadline tick < fuel)%nat ->
  poll_loop fuel tick c = poll_confirmation (ticks_before_deadline tick) c.
Proof.
  revert tick c. induction fuel as [|fuel IH]; intros tick c Hf; [lia|]. simpl.
  destruct (Z.leb_spec confirmation_timeout_ms tick) as [Hd|Hd].
  - unfold ticks_before_deadline. by rewrite (proj2 (Z.ltb_ge _ _) Hd).
  - rewrite (ticks_before_deadline_step tick Hd) in *. simpl.
    unfold st_bind, next_status. destruct (statuses c) as [|[| |[] []] rest]; simpl;
      try done; apply IH; lia.
Qed.

Lemma waitForConfirmation_polls sig s : waitForConfirmation sig s = on_chain (poll_confirmation 14) s.
Proof. unfold waitForConfirmation, on_chain. rewrite poll_loop_ticks; [reflexivity|vm_compute; lia]. Qed.

(** ** Lemmas on the transfer. *)

Lemma executeSolanaTransfer_failed pk a s :
  PublicKeyFromBase58_ok pk = false \/ hd false (rpc_faults (chain s)) = true \/
  hd false (tail (rpc_faults (chain s))) = true ->
  exists err c', executeSolanaTransfer pk a s = (inl err, mkWorkerProc (platformWallet s) (wworld s) c') /\
    transfers c' = transfers (chain s) /\ statuses c' = statuses (chain s).
Proof.
  destruct s as [wal w [tr n [|b1 [|b2 fs]] st]]; unfold executeSolanaTransfer; simpl;
    destruct (PublicKeyFromBase58_ok pk); simpl; intros H;
    try (destruct H as [H|[H|H]]; discriminate);
    unfold st_bind, on_chain, rpc_fault, send_transaction, st_ret; simpl;
    try (do 2 eexists; split; [reflexivity|done]);
    destruct b1; simpl; try (do 2 eexists; split; [reflexivity|done]);
    destruct H as [H|[H|H]]; try discriminate; subst; simpl;
    do 2 eexists; split; [reflexivity|done].
Qed.

Lemma executeSolanaTransfer_sent pk a s :
  PublicKeyFromBase58_ok pk = true ->
  hd false (rpc_faults (chain s)) = false ->
  hd false (tail (rpc_faults (chain s))) = false ->
  executeSolanaTransfer pk a s =
    (inr (sig_string (next_sig (chain s))),
     mkWorkerProc (platformWallet s) (wworld s) (sent_chain (platformWallet s) pk a (chain s))).
Proof.
  destruct s as [wal w [tr n fs st]]; unfold executeSolanaTransfer; simpl. intros -> H1 H2. simpl.
  unfold st_bind, on_chain, rpc_fault, send_transaction, st_ret, st_get, sent_chain; simpl.
  destruct fs as [|[] [|[] fs]]; simpl in *; try discriminate; done.
Qed.

(** ** processPayoutRequest with a reliable database. *)

#[local] Arguments poll_confirmation : simpl never.

Section Reliable.
Context (body : json) (s : WorkerProc) (req : PayoutRequest) (vd : Validator).
Hypothesis Hdec : unmarshal_ok (decode_PayoutRequest (Some body)) = Some req.
Hypothesis Hfaults : faults (wworld s) = [].
Hypothesis Hval : validators (db (wworld s)) !! PayoutRequest.ValidatorID req = Some vd.
Hypothesis Hamt : decimal_20_2_ok (PayoutRequest.Amount req) = true.
Hypothesis Hfresh : payouts (db (wworld s)) !! uuid_string (next_uuid (wworld s)) = None.

(** C9. With a reliable database, when the transfer cannot be sent
    (the recipient key is not a base58 32-byte key, or the blockhash
    or the send RPC fails), the worker records the payout as failed
    with the error, refunds the whole amount to the validator's
    pending credit, and drops the message without requeueing it; no
    transfer reaches the node. *)
Lemma processPayoutRequest_refund :
  decimal_20_2_ok (Validator.PendingPayouts vd + PayoutRequest.Amount req) = true ->
  PublicKeyFromBase58_ok (PayoutRequest.PublicKey req) = false \/
    hd false (rpc_faults (chain s)) = true \/ hd false (tail (rpc_faults (chain s))) = true ->
  let w := wworld s in
  let '(ack, s') := processPayoutRequest body s in
  ack = NackDrop /\
  (exists err, payouts (db (wworld s')) =
     <[uuid_string (next_uuid w) := mark_failed err (clock w) (initial_record req w)]> (payouts (db w))) /\
  validators (db (wworld s')) =
    <[PayoutRequest.ValidatorID req :=
        with_pending (Validator.PendingPayouts vd + PayoutRequest.Amount req) vd]> (validators (db w)) /\
  transfers (chain s') = transfers (chain s) /\ queue (wworld s') = queue w.
Proof.
  intros Hsum Hfail. destruct s as [wal [d q o n t fs] c].
  cbn [wworld chain faults db next_uuid clock] in *; subst fs.
  unfold processPayoutRequest. rewrite Hdec.
  unfold st_bind, lift, new_uuid, now, st_ret; simpl. rewrite db_exec_eq; simpl.
  rewrite create_payout_eq by (simpl; rewrite ?Hval; done). simpl.
  match goal with |- context [executeSolanaTransfer ?pk ?a ?st] =>
    destruct (executeSolanaTransfer_failed pk a st Hfail) as (err & c' & Hex & Htr & _) end.
  rewrite Hex; simpl. rewrite db_exec_eq; simpl.
  rewrite (update_payout_eq _ _ (initial_record req (mkWorld d q o n t []))) by
    (simpl; apply lookup_insert_eq).
  simpl. rewrite db_exec_eq; simpl. rewrite (update_pending_eq _ _ _ vd) by done. simpl.
  split_and!; [done| |done|done|done]. exists err. by rewrite insert_insert_eq.
Qed.
Lemma processPayoutRequest_sent :
  PublicKeyFromBase58_ok (PayoutRequest.PublicKey req) = true ->
  hd false (rpc_faults (chain s)) = false ->
  hd false (tail (rpc_faults (chain s))) = false ->
  let w := wworld s in
  let sig := sig_string (next_sig (chain s)) in
  let c2 := sent_chain (platformWallet s) (PayoutRequest.PublicKey req)
              (uint64_of_amount (PayoutRequest.Amount req)) (chain s) in
  let '(ack, s') := processPayoutRequest body s in
  chain s' = with_statuses (statuses (chain s')) c2 /\
  validators (db (wworld s')) = validators (db w) /\ queue (wworld s') = queue w /\
  if (poll_confirmation 14 c2).1.1
  then ack = Acked /\ payouts (db (wworld s')) =
         <[uuid_string (next_uuid w) := mark_completed sig (clock w) (initial_record req w)]> (payouts (db w))
  else ack = NackDrop /\ payouts (db (wworld s')) =
         <[uuid_string (next_uuid w) := mark_unconfirmed sig (clock w) (initial_record req w)]> (payouts (db w)).
Proof.
  intros Hpk H1 H2. destruct s as [wal [d q o n t fs] c].
  cbn [wworld chain faults db next_uuid clock platformWallet] in *; subst fs.
  unfold processPayoutRequest. rewrite Hdec.
  unfold st_bind, lift, new_uuid, now, st_ret; simpl. rewrite db_exec_eq; simpl.
  rewrite create_payout_eq by (simpl; rewrite ?Hval; done). simpl.
  rewrite executeSolanaTransfer_sent by done. simpl.
  rewrite waitForConfirmation_polls. unfold on_chain.
  destruct (poll_confirmation 14 _) as [[confirmed e] c3] eqn:Hp.
  match type of Hp with poll_confirmation _ ?c0 = _ =>
    pose proof (poll_confirmation_frame 14 c0) as Hfr end.
  rewrite Hp in Hfr. destruct Hfr as (Htr & Hns & Hrf & _). simpl in *.
  assert (Hc3 : c3 = with_statuses (statuses c3) (sent_chain wal (PayoutRequest.PublicKey req)
                  (uint64_of_amount (PayoutRequest.Amount req)) c)).
  { destruct c3. unfold with_statuses, sent_chain in *. simpl in *. by rewrite Htr, Hns, Hrf. }
  destruct confirmed; simpl; rewrite db_exec_eq; simpl;
    (rewrite (update_payout_eq _ _ (initial_record req (mkWorld d q o n t []))) by
       (simpl; apply lookup_insert_eq));
    simpl; split_and!; try done; by rewrite insert_insert_eq.
Qed.
End Reliable.

Lemma deliver_head s m rest :
  queue (wworld s) = m :: rest ->
  (processPayoutRequest m s).1 <> NackRequeue ->
  queue (wworld (processPayoutRequest m s).2) = m :: rest ->
  exec deliver s =
    mkWorkerProc (platformWallet (processPayoutRequest m s).2)
      (set_queue rest (wworld (processPayoutRequest m s).2)) (chain (processPayoutRequest m s).2).
Proof.
  intros Hq. unfold deliver, exec, st_bind, st_get. simpl. rewrite Hq.
  destruct (processPayoutRequest m s) as [a s'] eqn:Hp; simpl. intros Ha Hq'.
  destruct a; [| |done]; unfold lift, st_modify; simpl; by rewrite Hq'.
Qed.

Lemma poll_sent_statuses payer r a c : statuses (sent_chain payer r a c) = statuses c.
Proof. done. Qed.

(** ** Claims about the worker. *)

(** C12. With a reliable database, a transfer that the node accepts and
    whose first decisive status among the 14 polls made before the
    30 s deadline is Finalized is
    recorded "completed" with its (non-empty) signature and the message
    is acknowledged; the validator's credit is not touched and the node
    holds the transfer of the requested amount to the validator's key.
    This holds whatever the status's Err field says: a transaction that
    failed on chain but is finalized is also recorded "completed". *)
Theorem processPayoutRequest_finalized body s req vd pre failed post :
  unmarshal_ok (decode_PayoutRequest (Some body)) = Some req ->
  faults (wworld s) = [] ->
  validators (db (wworld s)) !! PayoutRequest.ValidatorID req = Some vd ->
  decimal_20_2_ok (PayoutRequest.Amount req) = true ->
  payouts (db (wworld s)) !! uuid_string (next_uuid (wworld s)) = None ->
  PublicKeyFromBase58_ok (PayoutRequest.PublicKey req) = true ->
  hd false (rpc_faults (chain s)) = false ->
  hd false (tail (rpc_faults (chain s))) = false ->
  statuses (chain s) = pre ++ StatusSeen true failed :: post ->
  Forall (fun a => terminal a = false) pre ->
  (length pre < 14)%nat ->
  let w := wworld s in
  let sig := sig_string (next_sig (chain s)) in
  let '(ack, s') := processPayoutRequest body s in
  ack = Acked /\ sig <> "" /\
  PayoutTransaction.Status (mark_completed sig (clock w) (initial_record req w)) = "completed" /\
  payouts (db (wworld s')) =
    <[uuid_string (next_uuid w) := mark_completed sig (clock w) (initial_record req w)]> (payouts (db w)) /\
  validators (db (wworld s')) = validators (db w) /\
  transfers (chain s') = transfers (chain s) ++
    [mkTransfer (platformWallet s) (PayoutRequest.PublicKey req)
       (uint64_of_amount (PayoutRequest.Amount req)) sig].
Proof.
  intros Hd Hf Hv Ha Hn Hpk H1 H2 Hst Hpre Hlen.
  pose proof (processPayoutRequest_sent body s req vd) as H.
  repeat (specialize (H ltac:(assumption))). cbv zeta in H.
  rewrite (poll_confirmation_terminal _ _ pre (StatusSeen true failed) post) in H
    by (rewrite ?poll_sent_statuses; done).
  cbv zeta in *. destruct (processPayoutRequest body s) as [ack s'].
  destruct H as (Htr & Hvs & _ & Hack & Hp). rewrite Htr. by split_and!.
Qed.

(** C13. When no decisive status arrives (the node reports a failed
    transaction first, or none of the 14 polls made before the 30 s
    deadline is decisive), the worker records the
    payout "failed" with the signature and the timeout message, drops
    the message, and does not refund the validator, although the
    transfer was sent. *)
Theorem processPayoutRequest_unconfirmed_no_refund body s req vd :
  unmarshal_ok (decode_PayoutRequest (Some body)) = Some req ->
  faults (wworld s) = [] ->
  validators (db (wworld s)) !! PayoutRequest.ValidatorID req = Some vd ->
  decimal_20_2_ok (PayoutRequest.Amount req) = true ->
  payouts (db (wworld s)) !! uuid_string (next_uuid (wworld s)) = None ->
  PublicKeyFromBase58_ok (PayoutRequest.PublicKey req) = true ->
  hd false (rpc_faults (chain s)) = false ->
  hd false (tail (rpc_faults (chain s))) = false ->
  (exists pre post, statuses (chain s) = pre ++ StatusSeen false true :: post /\
     Forall (fun a => terminal a = false) pre /\ (length pre < 14)%nat) \/
  Forall (fun a => terminal a = false) (take 14 (statuses (chain s))) ->
  let w := wworld s in
  let sig := sig_string (next_sig (chain s)) in
  let '(ack, s') := processPayoutRequest body s in
  ack = NackDrop /\
  payouts (db (wworld s')) =
    <[uuid_string (next_uuid w) := mark_unconfirmed sig (clock w) (initial_record req w)]> (payouts (db w)) /\
  pending_of (db (wworld s')) (PayoutRequest.ValidatorID req) = Validator.PendingPayouts vd /\
  length (transfers (chain s')) = S (length (transfers (chain s))).
Proof.
  intros Hd Hf Hv Ha Hn Hpk H1 H2 Hst.
  pose proof (processPayoutRequest_sent body s req vd) as H.
  repeat (specialize (H ltac:(assumption))). cbv zeta in H.
  destruct Hst as [(pre & post & Hst & Hpre & Hlen)|Hall].
  - rewrite (poll_confirmation_terminal _ _ pre (StatusSeen false true) post) in H
      by (rewrite ?poll_sent_statuses; done).
    cbv zeta in *. destruct (processPayoutRequest body s) as [ack s'].
    destruct H as (Htr & Hvs & _ & Hack & Hp). unfold pending_of. rewrite Hvs, Hv, Htr.
    simpl. rewrite length_app. simpl. split_and!; [done|done|done|lia].
  - rewrite poll_confirmation_timeout in H by (rewrite ?poll_sent_statuses; done).
    cbv zeta in *. destruct (processPayoutRequest body s) as [ack s'].
    destruct H as (Htr & Hvs & _ & Hack & Hp). unfold pending_of. rewrite Hvs, Hv, Htr.
    simpl. rewrite length_app. simpl. split_and!; [done|done|done|lia].
Qed.

(** C23. The 30 s deadline, not the fuel, ends the confirmation loop,
    after at most 14 status reads: the context's deadline is set
    (line 320) before the 2 s ticker starts (line 324), so the tick at
    30 s comes after ctx.Done.  For every fuel above 14, the loop
    consumes at most 14 answers of the node, and when none of the first
    14 is decisive it reports the confirmation timeout with the 15th
    answer unread, whatever that answer is. *)
Theorem poll_loop_deadline fuel c :
  (14 < fuel)%nat ->
  let '(r, c') := poll_loop fuel (ticker_start_ms + poll_interval_ms) c in
  (exists k, (k <= 14)%nat /\ statuses c' = drop k (statuses c)) /\
  (Forall (fun a => terminal a = false) (take 14 (statuses c)) ->
   r = (false, Some "confirmation timeout") /\ statuses c' = drop 14 (statuses c)).
Proof.
  intros Hf. rewrite poll_loop_ticks by (vm_compute; lia). change (ticks_before_deadline _) with 14%nat.
  pose proof (poll_confirmation_frame 14 c) as (_ & _ & _ & Hk).
  destruct (poll_confirmation 14 c) as [r c'] eqn:Hp. split; [exact Hk|]. intros Hall.
  rewrite poll_confirmation_timeout in Hp by exact Hall. by inversion Hp.
Qed.

(** C10. End to end, with a reliable database: a validator with credit
    B > 0 requests a payout, the worker takes the message and the
    transfer cannot be sent.  Afterwards the validator's credit is the
    amount that was queued, B as read into a float64 (B itself up to
    2^53 lamports: full compensation), the queue is empty, and the
    payout is recorded as "failed". *)
Theorem settlement_failure_restores_credit id w c wal v :
  validators_keyed (db w) ->
  faults w = [] ->
  queue w = [] ->
  validators (db w) !! id = Some v ->
  (0 < Validator.PendingPayouts v)%Z ->
  decimal_20_2_ok (pending_f64 v) = true ->
  payouts (db w) !! uuid_string (next_uuid w) = None ->
  PublicKeyFromBase58_ok (Validator.PublicKey v) = false \/
    hd false (rpc_faults c) = true \/ hd false (tail (rpc_faults c)) = true ->
  let s2 := exec deliver (mkWorkerProc wal (RequestPayout id w).2 c) in
  pending_of (db (wworld s2)) id = pending_f64 v /\
  queue (wworld s2) = [] /\
  exists p, payouts (db (wworld s2)) !! uuid_string (next_uuid w) = Some p /\
            PayoutTransaction.Status p = "failed".
Proof.
  intros Hk Hf Hq Hv Hp Hdec Hn Hfail. rewrite (RequestPayout_no_fault id w v Hk Hf Hv Hp).
  cbn [snd]. rewrite Hq. simpl.
  set (req := PayoutRequest.mkPayoutRequest id (pending_f64 v) (Validator.PublicKey v)).
  set (w1 := mkWorld _ _ _ _ _ _).
  set (s1 := mkWorkerProc wal w1 c).
  assert (Hd : unmarshal_ok (decode_PayoutRequest (Some (encode_PayoutRequest req))) = Some req)
    by (unfold unmarshal_ok; by rewrite decode_encode_PayoutRequest).
  assert (Hf1 : faults (wworld s1) = []) by done.
  assert (Hv1 : validators (db (wworld s1)) !! PayoutRequest.ValidatorID req = Some (with_pending 0 v))
    by (simpl; apply lookup_insert_eq).
  assert (Ha1 : decimal_20_2_ok (PayoutRequest.Amount req) = true) by done.
  assert (Hn1 : payouts (db (wworld s1)) !! uuid_string (next_uuid (wworld s1)) = None) by done.
  assert (Hs1 : decimal_20_2_ok (Validator.PendingPayouts (with_pending 0 v) + PayoutRequest.Amount req) = true)
    by (simpl; by rewrite Z.add_0_l).
  assert (Hfail1 : PublicKeyFromBase58_ok (PayoutRequest.PublicKey req) = false \/
    hd false (rpc_faults (chain s1)) = true \/ hd false (tail (rpc_faults (chain s1))) = true) by done.
  pose proof (processPayoutRequest_refund (encode_PayoutRequest req) s1 req (with_pending 0 v)) as H.
  repeat (specialize (H ltac:(assumption))). cbv zeta in H.
  destruct (processPayoutRequest (encode_PayoutRequest req) s1) as [ack s'] eqn:Hpr.
  destruct H as (-> & [err Hpay] & Hvs & _ & Hq').
  rewrite (deliver_head s1 (encode_PayoutRequest req) []); rewrite ?Hpr; simpl; [|done|done|done].
  unfold pending_of. rewrite Hvs, lookup_insert_eq. simpl. split_and!; [lia|done|].
  eexists. rewrite Hpay. split; [apply lookup_insert_eq|done].
Qed.

(** ** Witnesses. *)

Lemma processPayoutRequest_refund_witness :
  let w := wworld (ex_worker [true] []) in
  let '(ack, s') := processPayoutRequest (encode_PayoutRequest ex_req) (ex_worker [true] []) in
  ack = NackDrop /\
  (exists err, payouts (db (wworld s')) =
     <[uuid_string (next_uuid w) := mark_failed err (clock w) (initial_record ex_req w)]> (payouts (db w))) /\
  validators (db (wworld s')) =
    <[PayoutRequest.ValidatorID ex_req :=
        with_pending (Validator.PendingPayouts (ex_wvalidator 0) + PayoutRequest.Amount ex_req)
          (ex_wvalidator 0)]> (validators (db w)) /\
  transfers (chain s') = transfers (chain (ex_worker [true] [])) /\ queue (wworld s') = queue w.
Proof.
  apply (processPayoutRequest_refund (encode_PayoutRequest ex_req) (ex_worker [true] []) ex_req
           (ex_wvalidator 0)); try reflexivity.
  right; left; reflexivity.
Defined.

Lemma processPayoutRequest_finalized_witness :
  let s := ex_worker [] [StatusNil; StatusSeen true true] in
  let w := wworld s in
  let sig := sig_string (next_sig (chain s)) in
  let '(ack, s') := processPayoutRequest (encode_PayoutRequest ex_req) s in
  ack = Acked /\ sig <> "" /\
  PayoutTransaction.Status (mark_completed sig (clock w) (initial_record ex_req w)) = "completed" /\
  payouts (db (wworld s')) =
    <[uuid_string (next_uuid w) := mark_completed sig (clock w) (initial_record ex_req w)]> (payouts (db w)) /\
  validators (db (wworld s')) = validators (db w) /\
  transfers (chain s') = transfers (chain s) ++
    [mkTransfer (platformWallet s) (PayoutRequest.PublicKey ex_req)
       (uint64_of_amount (PayoutRequest.Amount ex_req)) sig].
Proof.
  apply (processPayoutRequest_finalized (encode_PayoutRequest ex_req)
           (ex_worker [] [StatusNil; StatusSeen true true]) ex_req (ex_wvalidator 0) [StatusNil] true []);
    try reflexivity.
  - repeat constructor.
  - vm_compute. lia.
Defined.

Lemma processPayoutRequest_unconfirmed_no_refund_witness :
  let s := ex_worker [] [StatusSeen false true] in
  let w := wworld s in
  let sig := sig_string (next_sig (chain s)) in
  let '(ack, s') := processPayoutRequest (encode_PayoutRequest ex_req) s in
  ack = NackDrop /\
  payouts (db (wworld s')) =
    <[uuid_string (next_uuid w) := mark_unconfirmed sig (clock w) (initial_record ex_req w)]> (payouts (db w)) /\
  pending_of (db (wworld s')) (PayoutRequest.ValidatorID ex_req) = Validator.PendingPayouts (ex_wvalidator 0) /\
  length (transfers (chain s')) = S (length (transfers (chain s))).
Proof.
  apply (processPayoutRequest_unconfirmed_no_refund (encode_PayoutRequest ex_req)
           (ex_worker [] [StatusSeen false true]) ex_req (ex_wvalidator 0)); try reflexivity.
  left. exists [], []. split_and!; [reflexivity|constructor|vm_compute; lia].
Defined.

Lemma settlement_failure_restores_credit_witness :
  let s2 := exec deliver (mkWorkerProc "wallet" (RequestPayout "V1" (ex_wworld 500 [])).2
                            (mkChain [] 0 [false; true] [])) in
  pending_of (db (wworld s2)) "V1" = pending_f64 (ex_wvalidator 500) /\
  queue (wworld s2) = [] /\
  exists p, payouts (db (wworld s2)) !! uuid_string (next_uuid (ex_wworld 500 [])) = Some p /\
            PayoutTransaction.Status p = "failed".
Proof.
  apply (settlement_failure_restores_credit "V1" (ex_wworld 500 []) (mkChain [] 0 [false; true] [])
           "wallet" (ex_wvalidator 500)); try reflexivity.
  - eapply bool_decide_unpack; vm_compute; exact I.
  - right; right; reflexivity.
Defined.

Lemma poll_loop_deadline_witness :
  let c := mkChain [] 0 [] (repeat StatusNil 14 ++ [StatusSeen true false]) in
  (14 < 15)%nat /\
  (poll_loop 15 (ticker_start_ms + poll_interval_ms) c).1 = (false, Some "confirmation timeout") /\
  statuses (poll_loop 15 (ticker_start_ms + poll_interval_ms) c).2 = [StatusSeen true false].
Proof.
  cbv zeta. pose proof (poll_loop_deadline 15 (mkChain [] 0 [] (repeat StatusNil 14 ++ [StatusSeen true false]))
    ltac:(lia)) as H.
  destruct (poll_loop 15 _ _) as [r c'] eqn:Hp. simpl. destruct H as [_ H].
  destruct (H ltac:(vm_compute; repeat constructor)) as [-> ->]. split_and!; [lia|reflexivity|reflexivity].
Defined.
