(* ===== verification/Agent.v ===== *)
(** * The validator agent (src/cmd/api/main.go, lines 116-352)

    The agent is the [ValidatorClient] of the second half of
    src/cmd/api/main.go: one keypair, one websocket connection to the
    hub, the id the hub gave it ([validatorID], empty until the signup
    reply arrives) and a table of one-shot signup callbacks.  Its
    operations are [signup] (lines 214-245), the listener loop [listen]
    (lines 196-212) with [handleSignupResponse] (247-255) and
    [handleValidateRequest] (257-266), and the probe goroutine
    [validateWebsite] (268-311).

    The model threads the client through the state monad of the
    prelude; the connection is the list of frames the agent has
    written, and a fault schedule decides which writes fail.  A type
    assertion that fails in Go panics and kills the process: the
    listener's result is [Panicked].  A read or decode error ends the
    listener ([Stopped]).  The ed25519 signature
    [base64(Sign(key, message))] is the section variable [sign]; the
    HTTP GET of a probe is its result, given as an input: [None] for a
    transport error or the timeout, [Some code] for a response. *)

From S2P Require Import Prelude Json Store.

(** ** Types (lines 135-162). *)
Module ValidateData.
Record ValidateData := mkValidateData { URL : string; CallbackID : string; WebsiteID : string }.
End ValidateData.
Abbreviation ValidateData := ValidateData.ValidateData.

(** The agent's [OutgoingMessage] (what the hub sends): [Data] is an
    [interface{}]. *)
Module AgentOutgoing.
Record AgentOutgoing := mkAgentOutgoing { Type' : string; Data : json }.
End AgentOutgoing.
Abbreviation AgentOutgoing := AgentOutgoing.AgentOutgoing.

(** The only closure the agent ever registers: the one of [signup]
    (lines 220-224), which stores the id the hub returns. *)
Inductive SignupCallback := SetValidatorID.

Record ValidatorClient := mkValidatorClient {
  publicKey : string;                        (* keypair.PublicKey().String() *)
  validatorID : string;
  agent_callbacks : gmap string SignupCallback;
  agent_uuid : nat;                          (* uuid.New() *)
  sent : list json;                          (* frames written on conn *)
  write_faults : list bool;                  (* which WriteJSON calls fail *)
  probes : list ValidateData                 (* validateWebsite goroutines in flight *)
}.

(** The result of the listener on one frame. *)
Inductive Listen :=
| Continue (a : ValidatorClient)
| Stopped (a : ValidatorClient)
| Panicked (reason : string).

Definition set_validatorID (id : string) (a : ValidatorClient) : ValidatorClient :=
  mkValidatorClient (publicKey a) id (agent_callbacks a) (agent_uuid a) (sent a) (write_faults a) (probes a).
Definition set_agent_callbacks (f : gmap string SignupCallback -> gmap string SignupCallback)
    (a : ValidatorClient) : ValidatorClient :=
  mkValidatorClient (publicKey a) (validatorID a) (f (agent_callbacks a)) (agent_uuid a) (sent a)
    (write_faults a) (probes a).
Definition add_probe (d : ValidateData) (a : ValidatorClient) : ValidatorClient :=
  mkValidatorClient (publicKey a) (validatorID a) (agent_callbacks a) (agent_uuid a) (sent a)
    (write_faults a) (probes a ++ [d]).

Definition agent_new_uuid : ST ValidatorClient string := fun a =>
  (uuid_string (agent_uuid a),
   mkValidatorClient (publicKey a) (validatorID a) (agent_callbacks a) (S (agent_uuid a)) (sent a)
     (write_faults a) (probes a)).

(** conn.WriteJSON(msg), under connMu: fails on a fault, else the frame
    is on the wire. *)
Definition agent_write (v : json) : ST ValidatorClient bool := fun a =>
  match write_faults a with
  | true :: rest =>
      (false, mkValidatorClient (publicKey a) (validatorID a) (agent_callbacks a) (agent_uuid a)
                (sent a) rest (probes a))
  | fs =>
      (true, mkValidatorClient (publicKey a) (validatorID a) (agent_callbacks a) (agent_uuid a)
               (sent a ++ [v]) (tail fs) (probes a))
  end.

(** IncomingMessage{Type, Data: mustMarshal(...)} as the agent writes it. *)
Definition incoming_frame (ty : string) (data : json) : json :=
  JObj [("type", JStr ty); ("data", data)].

(** ** Decoding what the hub sends. *)
Definition decode_AgentOutgoing (frame : json) : AgentOutgoing * bool :=
  dec_struct (AgentOutgoing.mkAgentOutgoing "" JNull)
    (fun kvs =>
       let '(t, e1) := dec_field as_string "type" "" kvs in
       let '(d, e2) := dec_field as_iface "data" JNull kvs in
       (AgentOutgoing.mkAgentOutgoing t d, e1 || e2)) (Some frame).

Definition decode_ValidateData (r : raw) : ValidateData * bool :=
  dec_struct (ValidateData.mkValidateData "" "" "")
    (fun kvs =>
       let '(u, e1) := dec_field as_string "url" "" kvs in
       let '(c, e2) := dec_field as_string "callbackId" "" kvs in
       let '(w, e3) := dec_field as_string "websiteId" "" kvs in
       (ValidateData.mkValidateData u c w, e1 || e2 || e3)) r.

(** The classification of lines 279-282: "Good" only for a response
    with status 200. *)
Definition probe_status (resp : option Z) : string :=
  match resp with Some 200%Z => "Good" | _ => "Bad" end.

Section Agent.
(** signMessage (lines 313-316): base64 of the ed25519 signature of the
    message under the agent's private key. *)
Variable sign : string -> string.

(** signup (lines 214-245): register the callback, then send the
    handshake; the result is [err == nil]. *)
Definition signup : ST ValidatorClient bool :=
  let* callbackID := agent_new_uuid in
  let* a := st_get in
  let message := "Signed message for " +:+ callbackID +:+ ", " +:+ publicKey a in
  let signature := sign message in
  st_modify (set_agent_callbacks (<[callbackID := SetValidatorID]>)) ;;;
  agent_write (incoming_frame "signup"
    (marshal_string_map [("callbackId", callbackID); ("ip", "127.0.0.1");
                         ("publicKey", publicKey a); ("signedMessage", signature)])).

(** validateWebsite (lines 268-311): [resp] is the result of the GET,
    [latency] the elapsed milliseconds.  A failed write is only logged. *)
Definition validateWebsite (d : ValidateData) (resp : option Z) (latency : Z) : ST ValidatorClient unit :=
  let status := probe_status resp in
  let signature := sign ("Replying to " +:+ ValidateData.CallbackID d) in
  let* a := st_get in
  let* _ := agent_write (incoming_frame "validate"
    (marshal_map [("callbackId", JStr (ValidateData.CallbackID d)); ("status", JStr status);
                  ("latency", JNum latency); ("validatorId", JStr (validatorID a));
                  ("websiteId", JStr (ValidateData.WebsiteID d)); ("signedMessage", JStr signature)])) in
  st_ret tt.

End Agent.

(** handleSignupResponse (lines 247-255) and the callback of signup:
    [data.(map[string]interface{})] and the [.(string)] assertions panic
    on anything else. *)
Definition handleSignupResponse (data : json) (a : ValidatorClient) : Listen :=
  match data with
  | JObj kvs =>
      match obj_lookup "callbackId" kvs with
      | Some (JStr cb) =>
          match agent_callbacks a !! cb with
          | Some SetValidatorID =>
              match obj_lookup "validatorId" kvs with
              | Some (JStr vid) => Continue (set_agent_callbacks (delete cb) (set_validatorID vid a))
              | _ => Panicked "interface conversion: validatorId is not a string"
              end
          | None => Continue a
          end
      | _ => Panicked "interface conversion: callbackId is not a string"
      end
  | _ => Panicked "interface conversion: data is not a map"
  end.

(** handleValidateRequest (lines 257-266): re-encode the map, decode it
    into ValidateData ignoring the error, and start the probe. *)
Definition handleValidateRequest (data : json) (a : ValidatorClient) : ValidatorClient :=
  add_probe (decode_ValidateData (Some data)).1 a.

(** One iteration of listen (lines 196-212); [None] is a read error. *)
Definition listen_step (frame : option json) (a : ValidatorClient) : Listen :=
  match frame with
  | None => Stopped a
  | Some f =>
      match unmarshal_ok (decode_AgentOutgoing f) with
      | None => Stopped a
      | Some msg =>
          if bool_decide (AgentOutgoing.Type' msg = "signup") then handleSignupResponse (AgentOutgoing.Data msg) a
          else if bool_decide (AgentOutgoing.Type' msg = "validate") then
            Continue (handleValidateRequest (AgentOutgoing.Data msg) a)
          else Continue a
      end
  end.

Fixpoint listen (frames : list (option json)) (a : ValidatorClient) : Listen :=
  match frames with
  | [] => Continue a
  | f :: fs => match listen_step f a with Continue a' => listen fs a' | r => r end
  end.

(** An agent with key "pk1" before its handshake. *)
Definition ex_agent : ValidatorClient := mkValidatorClient "pk1" "" ∅ 0 [] [] [].

(** ** Properties of the agent alone. *)

Lemma iface_not_obj v : (forall kvs, v <> JObj kvs) -> forall kvs, iface v <> JObj kvs.
Proof. destruct v; simpl; try discriminate. intros H. by destruct (H kvs). Qed.

Lemma listen_step_signup a d :
  listen_step (Some (JObj [("type", JStr "signup"); ("data", d)])) a = handleSignupResponse (iface d) a.
Proof. reflexivity. Qed.

(** C26. A signup frame whose data is not a JSON object (null, a
    string, a number...) makes the agent's listener panic on the type
    assertion [data.(map[string]interface{})], killing the agent,
    whereas the protocol treats malformed frames as errors to log and
    ignore. *)
Theorem handleSignupResponse_panics a d :
  (forall kvs, d <> JObj kvs) ->
  exists reason, listen_step (Some (JObj [("type", JStr "signup"); ("data", d)])) a = Panicked reason.
Proof.
  intros Hd. rewrite listen_step_signup. unfold handleSignupResponse.
  destruct (iface d) eqn:Hi; try by eexists.
  exfalso. by apply (iface_not_obj d Hd kvs).
Qed.

Lemma handleSignupResponse_panics_witness :
  exists reason, listen_step (Some (JObj [("type", JStr "signup"); ("data", JNull)])) ex_agent =
                 Panicked reason.
Proof. apply (handleSignupResponse_panics ex_agent JNull). discriminate. Defined.
