(* ===== verification/Protocol.v ===== *)
(** * The hub/agent protocol: frames across the websocket

    Both ends of the connection together: the frames the hub writes
    ([signup_response], [validate_task] in Hub.v) as the agent decodes
    them, and the frames the agent writes ([signup], [validateWebsite]
    in Agent.v) as the hub decodes them; then one whole probe cycle,
    from the hub's dispatch of a task to the credit of the agent that
    answers it.  The two processes share no state: what one writes is
    what the other reads, so the cycle is the composition of the
    components' operations on the frame that passes between them. *)

From S2P Require Import Prelude Json Store Hub Agent.

(** ** An example: the agent of validator V1 (key "pk1", connection 7
    of the hub's example configuration), with a stand-in signature. *)
Definition ex_sign (m : string) : string := "sig(" +:+ m +:+ ")".
Definition ex_agent_V1 : ValidatorClient := mkValidatorClient "pk1" "V1" ∅ 1 [] [] [].
Definition ex_conn : ValidatorConnection := ValidatorConnection.mkValidatorConnection "V1" "pk1" 7.
Definition ex_task : ValidateData := ValidateData.mkValidateData "https://example.org" "cb1" "T1".

(** ** Decoding lemmas for the frames of each side. *)

Lemma agent_decodes_signup_response a vid cb :
  listen_step (Some (signup_response vid cb)) a =
  handleSignupResponse (JObj [("callbackId", JStr cb); ("validatorId", JStr vid)]) a.
Proof. reflexivity. Qed.

Lemma handleSignupResponse_registered a vid cb :
  agent_callbacks a !! cb = Some SetValidatorID ->
  handleSignupResponse (JObj [("callbackId", JStr cb); ("validatorId", JStr vid)]) a =
  Continue (set_agent_callbacks (delete cb) (set_validatorID vid a)).
Proof. intros H. unfold handleSignupResponse. simpl. by rewrite H. Qed.

Lemma handleSignupResponse_unregistered a vid cb :
  agent_callbacks a !! cb = None ->
  handleSignupResponse (JObj [("callbackId", JStr cb); ("validatorId", JStr vid)]) a = Continue a.
Proof. intros H. unfold handleSignupResponse. simpl. by rewrite H. Qed.

Lemma agent_write_ok a v :
  hd false (write_faults a) = false ->
  agent_write v a = (true, mkValidatorClient (publicKey a) (validatorID a) (agent_callbacks a)
                             (agent_uuid a) (sent a ++ [v]) (tail (write_faults a)) (probes a)).
Proof. destruct a as [? ? ? ? ? [|[] ?] ?]; simpl; done. Qed.

Lemma dispatch_one_no_fault wb vc h w :
  faults w = [] ->
  exec (dispatch_one wb vc) (mkHubProc h w) =
  mkHubProc
    (set_callbacks (<[uuid_string (next_uuid w) :=
                      ValidateCallback (Website.ID wb) (ValidatorConnection.PublicKey vc)]>) h)
    (mkWorld (db w) (queue w)
       (outbox w ++ [(ValidatorConnection.Conn vc,
                      validate_task (Website.URL wb) (uuid_string (next_uuid w)) (Website.ID wb))])
       (S (next_uuid w)) (clock w) []).
Proof.
  destruct w as [d q o n c fs]; simpl; intros ->.
  unfold dispatch_one, exec, st_bind, lift, new_uuid, modify_hub, st_modify; cbn -[write_json].
  by rewrite write_json_eq.
Qed.

Lemma handle_frame_validate c f msg s :
  unmarshal_ok (decode_IncomingMessage f) = Some msg -> IncomingMessage.Type' msg = "validate" ->
  exec (handle_frame c f) s = exec (handleValidate (IncomingMessage.Data msg)) s.
Proof. intros Hd Ht. unfold handle_frame. by rewrite Hd, Ht. Qed.

Lemma probe_status_varchar resp : varchar_ok 50 (probe_status resp) = true.
Proof. unfold probe_status. by repeat case_match. Qed.

(** The probe task the hub writes, [{type: "validate", data: {url,
    callbackId, websiteId}}], is read by the agent's listener as exactly
    one new probe with the same url, callback id and website id, for all
    strings. *)
Theorem agent_reads_validate_task a url cb wid :
  listen_step (Some (validate_task url cb wid)) a =
  Continue (add_probe (ValidateData.mkValidateData url cb wid) a).
Proof. reflexivity. Qed.

(** The reply the agent writes at the end of a probe decodes at the
    hub, without error, to a "validate" message whose ValidateIncoming
    carries the task's callback and website ids, "Good" exactly for an
    HTTP 200, the measured latency, the agent's current validatorID and
    the signature of "Replying to <callbackId>". *)
Theorem hub_decodes_agent_reply sign d resp lat a :
  hd false (write_faults a) = false ->
  exists f msg,
    sent (exec (validateWebsite sign d resp lat) a) = sent a ++ [f] /\
    unmarshal_ok (decode_IncomingMessage (Some f)) = Some msg /\
    IncomingMessage.Type' msg = "validate" /\
    unmarshal_ok (decode_ValidateIncoming (IncomingMessage.Data msg)) =
      Some (ValidateIncoming.mkValidateIncoming (ValidateData.CallbackID d) (probe_status resp) lat
              (validatorID a) (ValidateData.WebsiteID d)
              (sign ("Replying to " +:+ ValidateData.CallbackID d))).
Proof.
  intros Hf. unfold validateWebsite, exec, st_bind, st_get, st_ret. rewrite agent_write_ok by done.
  eexists _, _. split_and!; [reflexivity|vm_compute; reflexivity|reflexivity|vm_compute; reflexivity].
Qed.

(** C18. The handshake: the frame [signup] writes decodes at the hub to
    the SignupIncoming with IP "127.0.0.1", the agent's public key, the
    signature of "Signed message for <callbackId>, <publicKey>" and the
    fresh callback id; the hub's reply with that callback id sets the
    agent's validatorID and consumes the callback, so a second reply
    with the same id is ignored. *)
Theorem signup_handshake sign a vid vid' :
  hd false (write_faults a) = false ->
  let cb := uuid_string (agent_uuid a) in
  let a1 := exec (signup sign) a in
  let a2 := set_agent_callbacks (delete cb) (set_validatorID vid a1) in
  exists f msg,
    sent a1 = sent a ++ [f] /\
    unmarshal_ok (decode_IncomingMessage (Some f)) = Some msg /\
    IncomingMessage.Type' msg = "signup" /\
    unmarshal_ok (decode_SignupIncoming (IncomingMessage.Data msg)) =
      Some (SignupIncoming.mkSignupIncoming "127.0.0.1" (publicKey a)
              (sign ("Signed message for " +:+ cb +:+ ", " +:+ publicKey a)) cb) /\
    listen_step (Some (signup_response vid cb)) a1 = Continue a2 /\
    validatorID a2 = vid /\
    listen_step (Some (signup_response vid' cb)) a2 = Continue a2.
Proof.
  intros Hf. cbv zeta. set (cb := uuid_string (agent_uuid a)).
  set (f := incoming_frame "signup" (marshal_string_map [("callbackId", cb); ("ip", "127.0.0.1");
              ("publicKey", publicKey a);
              ("signedMessage", sign ("Signed message for " +:+ cb +:+ ", " +:+ publicKey a))])).
  assert (Ha1 : exec (signup sign) a =
    mkValidatorClient (publicKey a) (validatorID a) (<[cb := SetValidatorID]> (agent_callbacks a))
      (S (agent_uuid a)) (sent a ++ [f]) (tail (write_faults a)) (probes a)).
  { unfold signup, exec, st_bind, st_get, st_modify, agent_new_uuid. simpl.
    by rewrite agent_write_ok by done. }
  rewrite Ha1, !agent_decodes_signup_response, handleSignupResponse_registered
    by (simpl; apply lookup_insert_eq).
  rewrite handleSignupResponse_unregistered by (simpl; apply lookup_delete_eq).
  exists f. eexists. split_and!; [reflexivity|vm_compute; reflexivity|reflexivity|vm_compute; reflexivity|..];
    reflexivity.
Qed.

(** C2. One whole probe cycle, the spec's scenario in general: the hub
    dispatches a task for website [wb] to the connection of [vc]; the
    agent on that connection reads it, probes, and writes its reply;
    the hub reads the reply on that connection.  With no I/O fault,
    the website and the agent's validator row present and the credit in
    range, the hub has recorded exactly one tick (website, the agent's
    validatorID, "Good" iff HTTP 200, the latency) and credited the
    agent's validator with COST_PER_VALIDATION, and its callback table
    is back to what it was (the answered callback does not leak). *)
Theorem probe_cycle_credits sign s a wb vc vd resp lat :
  faults (world s) = [] -> hd false (write_faults a) = false ->
  Hub.callbacks (hub s) !! uuid_string (next_uuid (world s)) = None ->
  is_Some (websites (db (world s)) !! Website.ID wb) ->
  validators (db (world s)) !! validatorID a = Some vd ->
  decimal_10_2_ok lat = true ->
  decimal_20_2_ok (Validator.PendingPayouts vd + COST_PER_VALIDATION) = true ->
  let s1 := exec (dispatch_one wb vc) s in
  exists task a1 d reply,
    outbox (world s1) = outbox (world s) ++ [(ValidatorConnection.Conn vc, task)] /\
    listen_step (Some task) a = Continue a1 /\ probes a1 = probes a ++ [d] /\
    sent (exec (validateWebsite sign d resp lat) a1) = sent a ++ [reply] /\
    let s2 := exec (handle_frame (ValidatorConnection.Conn vc) (Some reply)) s1 in
    ticks (db (world s2)) = ticks (db (world s)) ++
      [WebsiteTick.mkWebsiteTick (uuid_string (S (next_uuid (world s)))) (Website.ID wb)
         (validatorID a) (probe_status resp) lat (clock (world s))] /\
    pending_of (db (world s2)) (validatorID a) = (Validator.PendingPayouts vd + COST_PER_VALIDATION)%Z /\
    Hub.callbacks (hub s2) = Hub.callbacks (hub s).
Proof.
  intros Hf Hwf Hfresh Hw Hv Hl Hp. cbv zeta. destruct s as [h w]; simpl in *.
  rewrite (dispatch_one_no_fault _ _ _ _ Hf). simpl.
  set (cb := uuid_string (next_uuid w)).
  set (d := ValidateData.mkValidateData (Website.URL wb) cb (Website.ID wb)).
  set (data := marshal_map [("callbackId", JStr cb); ("status", JStr (probe_status resp));
                  ("latency", JNum lat); ("validatorId", JStr (validatorID a));
                  ("websiteId", JStr (Website.ID wb));
                  ("signedMessage", JStr (sign ("Replying to " +:+ cb)))]).
  exists (validate_task (Website.URL wb) cb (Website.ID wb)), (add_probe d a), d,
    (incoming_frame "validate" data).
  split; [done|]. split; [reflexivity|]. split; [reflexivity|].
  split; [unfold validateWebsite, exec, st_bind, st_get, st_ret; by rewrite agent_write_ok|].
  rewrite (handle_frame_validate _ _ (IncomingMessage.mkIncomingMessage "validate" (Some data)))
    by (vm_compute; reflexivity).
  set (v := ValidateIncoming.mkValidateIncoming cb (probe_status resp) lat (validatorID a)
              (Website.ID wb) (sign ("Replying to " +:+ cb))).
  assert (Hd : unmarshal_ok (decode_ValidateIncoming (Some data)) = Some v) by (vm_compute; reflexivity).
  rewrite (handleValidate_found _ _ v (ValidateCallback (Website.ID wb) (ValidatorConnection.PublicKey vc)) Hd)
    by (simpl; apply lookup_insert_eq).
  destruct (run_callback_ok (Website.ID wb) (ValidatorConnection.PublicKey vc) (Some data) v
              (mkWorld (db w) (queue w) (outbox w ++ [(ValidatorConnection.Conn vc,
                 validate_task (Website.URL wb) cb (Website.ID wb))]) (S (next_uuid w)) (clock w) [])
              vd Hd eq_refl Hw Hv (probe_status_varchar resp) Hl Hp) as [Ht Hvs].
  simpl in *. unfold pending_of. rewrite Ht, Hvs, lookup_insert_eq.
  split_and!; [done|done|]. by rewrite delete_insert_id.
Qed.

(** C25. A probe answered before the agent has processed its signup
    reply carries the empty validatorID.  When the database has no
    validator with the empty id, the hub, whatever connection the reply
    arrives on, consumes the probe's callback and records nothing: the
    result is lost and nobody is credited. *)
Theorem early_reply_dropped sign s a d resp lat :
  hd false (write_faults a) = false -> validatorID a = "" ->
  validators (db (world s)) !! "" = None ->
  exists reply,
    sent (exec (validateWebsite sign d resp lat) a) = sent a ++ [reply] /\
    forall c,
      db (world (exec (handle_frame c (Some reply)) s)) = db (world s) /\
      Hub.callbacks (hub (exec (handle_frame c (Some reply)) s)) =
        delete (ValidateData.CallbackID d) (Hub.callbacks (hub s)).
Proof.
  intros Hwf Hid Hnone.
  set (data := marshal_map [("callbackId", JStr (ValidateData.CallbackID d));
                  ("status", JStr (probe_status resp)); ("latency", JNum lat);
                  ("validatorId", JStr (validatorID a)); ("websiteId", JStr (ValidateData.WebsiteID d));
                  ("signedMessage", JStr (sign ("Replying to " +:+ ValidateData.CallbackID d)))]).
  exists (incoming_frame "validate" data). split.
  { unfold validateWebsite, exec, st_bind, st_get, st_ret. by rewrite agent_write_ok. }
  intros c.
  rewrite (handle_frame_validate _ _ (IncomingMessage.mkIncomingMessage "validate" (Some data)))
    by (vm_compute; reflexivity).
  set (v := ValidateIncoming.mkValidateIncoming (ValidateData.CallbackID d) (probe_status resp) lat
              (validatorID a) (ValidateData.WebsiteID d)
              (sign ("Replying to " +:+ ValidateData.CallbackID d))).
  assert (Hd : unmarshal_ok (decode_ValidateIncoming (Some data)) = Some v) by (vm_compute; reflexivity).
  simpl. destruct (Hub.callbacks (hub s) !! ValidateData.CallbackID d) as [cb|] eqn:Hcb.
  - rewrite (handleValidate_found _ _ v cb Hd Hcb). simpl.
    split; [|done]. apply (run_callback_unknown_validator _ _ v); [done|]. simpl. by rewrite Hid.
  - rewrite (handleValidate_missing _ _ v Hd Hcb). split; [done|].
    by rewrite delete_id.
Qed.

(** ** Witnesses. *)

Lemma hub_decodes_agent_reply_witness :
  exists f msg,
    sent (exec (validateWebsite ex_sign ex_task (Some 200%Z) 120) ex_agent_V1) = [] ++ [f] /\
    unmarshal_ok (decode_IncomingMessage (Some f)) = Some msg /\
    IncomingMessage.Type' msg = "validate" /\
    unmarshal_ok (decode_ValidateIncoming (IncomingMessage.Data msg)) =
      Some (ValidateIncoming.mkValidateIncoming "cb1" "Good" 120 "V1" "T1" (ex_sign "Replying to cb1")).
Proof. exact (hub_decodes_agent_reply ex_sign ex_task (Some 200%Z) 120 ex_agent_V1 eq_refl). Defined.

Lemma signup_handshake_witness :
  exists a2, listen_step (Some (signup_response "V1" "uuid-0")) (exec (signup ex_sign) ex_agent) = Continue a2 /\
             validatorID a2 = "V1".
Proof.
  destruct (signup_handshake ex_sign ex_agent "V1" "V2") as (f & msg & _ & _ & _ & _ & Hl & Hv & _);
    [reflexivity|].
  eexists. split; [exact Hl|exact Hv].
Defined.

Lemma probe_cycle_credits_witness :
  exists reply,
    pending_of (db (world (exec (handle_frame 7 (Some reply)) (exec (dispatch_one ex_website ex_conn) ex_hubproc))))
      "V1" = 100%Z.
Proof.
  destruct (probe_cycle_credits ex_sign ex_hubproc ex_agent_V1 ex_website ex_conn ex_validator (Some 200%Z) 120)
    as (task & a1 & d & reply & _ & _ & _ & _ & _ & Hp & _);
    [reflexivity|reflexivity|vm_compute; reflexivity|vm_compute; eauto|vm_compute; reflexivity
    |reflexivity|reflexivity|].
  exists reply. exact Hp.
Defined.

Lemma early_reply_dropped_witness :
  exists reply, db (world (exec (handle_frame 7 (Some reply)) ex_hubproc)) = ex_db.
Proof.
  destruct (early_reply_dropped ex_sign ex_hubproc ex_agent ex_task (Some 200%Z) 120) as (reply & _ & H);
    [reflexivity|reflexivity|vm_compute; reflexivity|].
  exists reply. exact (proj1 (H 7%nat)).
Defined.
