(* ===== verification/WebsiteApi.v ===== *)
(** * The website handlers (src/internal/handlers/website/handler.go)

    The four routes a logged-in user has on monitored websites: create
    (POST /website), list (GET /websites), status (GET /website/status)
    and soft delete (DELETE /website).  The user id is the one the JWT
    middleware stored in the gin context.  Each handler is a world
    action, like RequestPayout: it runs its SQL statements through
    [db_exec] and returns the HTTP status and the payload.

    Two library behaviours are modelled as the code relies on them:
    gin's binding validators ([binding:"required,url"]) are the
    section variable [is_url] for the url rule and a non-empty test for
    [required]; and a GORM [Preload] with a [Limit] applies the limit
    to the one query that loads the ticks of all the parent rows, so the
    list handler loads at most 100 ticks in total.  SQL orders rows with
    equal [created_at] arbitrarily; the model keeps them in table order.
    The JSON wrappers utils.SuccessResponse and utils.ErrorResponse are
    not in the sources: a response is its status code and the payload
    as it is serialized.  The [Ticks] field of models.Website is tagged
    [json:"-"], so the preloaded ticks are dropped when the website is
    written out: a payload carries website rows only.  The bind error
    text appended to "Invalid request: " is not modelled. *)

From S2P Require Import Prelude Json Store Hub.

(** ** Responses. *)
Inductive Body :=
| BError (msg : string)
| BCreated (id url : string)
| BWebsites (ws : list Website) (count : nat)
| BWebsite (w : Website)
| BMessage (msg : string).

Record WebResp := mkWebResp { code : Z; body : Body }.

(** ** SQL statements. *)

(** ORDER BY created_at DESC. *)
Definition newer_website (a b : Website) : Prop := (Website.CreatedAt b <= Website.CreatedAt a)%Z.
Definition newer_tick (a b : WebsiteTick) : Prop := (WebsiteTick.CreatedAt b <= WebsiteTick.CreatedAt a)%Z.
#[export] Instance newer_website_dec : RelDecision newer_website.
Proof. intros a b. unfold newer_website. apply _. Defined.
#[export] Instance newer_tick_dec : RelDecision newer_tick.
Proof. intros a b. unfold newer_tick. apply _. Defined.

(** Create(&website): primary key, varchar(255) ids, varchar(500) url. *)
Definition create_website (w : Website) (d : DB) : result (unit * DB) :=
  if bool_decide (websites d !! Website.ID w = None)
     && varchar_ok 255 (Website.ID w) && varchar_ok 500 (Website.URL w) && varchar_ok 255 (Website.UserID w)
  then Ok (tt, mkDB (users d) (<[Website.ID w := w]> (websites d)) (validators d) (ticks d) (payouts d))
  else Err ErrConstraint.

(** Where("user_id = ? AND disabled = ?", userID, false).Order("created_at DESC").Find
    with Preload("Ticks", Order("created_at DESC").Limit(100)). *)
Definition websites_of (uid : string) (d : DB) : list (Website * list WebsiteTick) :=
  let ws := merge_sort newer_website
              (filter (fun w => Website.UserID w = uid /\ Website.Disabled w = false)
                 (map_to_list (websites d)).*2) in
  let ids := Website.ID <$> ws in
  let tks := take 100 (merge_sort newer_tick (filter (fun t => WebsiteTick.WebsiteID t ∈ ids) (ticks d))) in
  (fun w => (w, filter (fun t => WebsiteTick.WebsiteID t = Website.ID w) tks)) <$> ws.

(** Where("id = ? AND user_id = ? AND disabled = ?", ...).First with the
    same preload, on one parent row. *)
Definition website_status (uid wid : string) (d : DB) : result ((Website * list WebsiteTick) * DB) :=
  match websites d !! wid with
  | Some w =>
      if bool_decide (Website.UserID w = uid /\ Website.Disabled w = false)
      then Ok ((w, take 100 (merge_sort newer_tick
                               (filter (fun t => WebsiteTick.WebsiteID t = wid) (ticks d)))), d)
      else Err ErrRecordNotFound
  | None => Err ErrRecordNotFound
  end.

(** The website once soft-deleted. *)
Definition disabled (w : Website) : Website :=
  Website.mkWebsite (Website.ID w) (Website.URL w) (Website.UserID w) true (Website.CreatedAt w).

(** Model(&Website{}).Where("id = ? AND user_id = ?", ...).Update("disabled", true):
    the number of rows affected and the new table. *)
Definition disable_website (uid wid : string) (d : DB) : result (nat * DB) :=
  match websites d !! wid with
  | Some w =>
      if bool_decide (Website.UserID w = uid)
      then Ok (1%nat, mkDB (users d) (<[wid := disabled w]> (websites d)) (validators d) (ticks d) (payouts d))
      else Ok (0%nat, d)
  | None => Ok (0%nat, d)
  end.

(** ** Request bodies. *)
Definition decode_CreateWebsiteRequest (r : raw) : string * bool :=
  dec_struct "" (fun kvs => dec_field as_string "url" "" kvs) r.

Definition decode_DeleteWebsiteRequest (r : raw) : string * bool :=
  dec_struct "" (fun kvs => dec_field as_string "websiteId" "" kvs) r.

Section Handlers.
(** gin's [url] binding rule (go-playground/validator's isURL). *)
Variable is_url : string -> bool.

(** CreateWebsite (lines 27-58). *)
Definition CreateWebsite (userID : option string) (req : raw) : ST World WebResp :=
  match userID with
  | None => st_ret (mkWebResp 401 (BError "User not authenticated"))
  | Some uid =>
      match unmarshal_ok (decode_CreateWebsiteRequest req) with
      | Some url =>
          if bool_decide (url <> "") && is_url url then
            let* id := new_uuid in
            let* t := now in
            let website := Website.mkWebsite id url uid false t in
            let* r := db_exec (create_website website) in
            match r with
            | Err _ => st_ret (mkWebResp 500 (BError "Failed to create website"))
            | Ok _ => st_ret (mkWebResp 201 (BCreated id url))
            end
          else st_ret (mkWebResp 400 (BError "Invalid request"))
      | None => st_ret (mkWebResp 400 (BError "Invalid request"))
      end
  end.

End Handlers.

(** GetWebsites (lines 61-84): the rows are serialized without their
    preloaded ticks. *)
Definition GetWebsites (uid : string) : ST World WebResp :=
  let* r := db_exec (fun d => Ok (websites_of uid d, d)) in
  match r with
  | Err _ => st_ret (mkWebResp 500 (BError "Failed to fetch websites"))
  | Ok ws => st_ret (mkWebResp 200 (BWebsites ws.*1 (length ws)))
  end.

(** GetWebsiteStatus (lines 87-114). *)
Definition GetWebsiteStatus (uid websiteID : string) : ST World WebResp :=
  if bool_decide (websiteID = "") then st_ret (mkWebResp 400 (BError "websiteId query parameter required"))
  else
    let* r := db_exec (website_status uid websiteID) in
    match r with
    | Ok (w, _) => st_ret (mkWebResp 200 (BWebsite w))
    | Err ErrRecordNotFound => st_ret (mkWebResp 404 (BError "Website not found"))
    | Err _ => st_ret (mkWebResp 500 (BError "Database error"))
    end.

(** DeleteWebsite (lines 117-147): a soft delete. *)
Definition DeleteWebsite (uid : string) (req : raw) : ST World WebResp :=
  match unmarshal_ok (decode_DeleteWebsiteRequest req) with
  | Some wid =>
      if bool_decide (wid = "") then st_ret (mkWebResp 400 (BError "Invalid request"))
      else
        let* r := db_exec (disable_website uid wid) in
        match r with
        | Err _ => st_ret (mkWebResp 500 (BError "Failed to delete website"))
        | Ok O => st_ret (mkWebResp 404 (BError "Website not found"))
        | Ok _ => st_ret (mkWebResp 200 (BMessage "Website deleted successfully"))
        end
  | None => st_ret (mkWebResp 400 (BError "Invalid request"))
  end.

(** The websites table is keyed by id (Create inserts under the id). *)
Definition websites_keyed (d : DB) : Prop := map_Forall (fun k w => Website.ID w = k) (websites d).

(** An example: users u1 and u2 with one website each, validator V1
    connected on connection 7. *)
Definition ex_site (id url uid : string) (t : Z) : Website := Website.mkWebsite id url uid false t.
Definition ex_web_db : DB :=
  mkDB ∅ {[ "W1" := ex_site "W1" "https://a.example" "u1" 1; "W2" := ex_site "W2" "https://b.example" "u2" 2 ]}
    {[ "V1" := ex_validator ]} [] ∅.
Definition ex_web_world : World := mkWorld ex_web_db [] [] 1 5 [].
Definition ex_web_hub : Hub :=
  Hub.mkHub {[ "V1" := ValidatorConnection.mkValidatorConnection "V1" "pk1" 7 ]} ∅.
Definition ex_delete (wid : string) : raw := Some (JObj [("websiteId", JStr wid)]).

(** A user with two websites: [A], the newer, has 100 ticks, all newer
    than the one tick of [B]. *)
Definition ex_tick (wid : string) (t : Z) : WebsiteTick :=
  WebsiteTick.mkWebsiteTick ("tick-" +:+ wid) wid "V1" "Good" 10 t.
Definition ex_busy_ticks : list WebsiteTick :=
  ex_tick "B" 5 :: ((fun i => ex_tick "A" (Z.of_nat i)) <$> seq 10 100).
Definition ex_busy_world : World :=
  mkWorld (mkDB ∅ {[ "A" := ex_site "A" "https://a.example" "u1" 2; "B" := ex_site "B" "https://b.example" "u1" 1 ]}
             ∅ ex_busy_ticks ∅) [] [] 1 200 [].
Definition ex_create (url : string) : raw := Some (JObj [("url", JStr url)]).

(** ** Lemmas. *)

Lemma disable_website_owned uid wid d w :
  websites d !! wid = Some w -> Website.UserID w = uid ->
  disable_website uid wid d =
    Ok (1%nat, mkDB (users d) (<[wid := disabled w]> (websites d)) (validators d) (ticks d) (payouts d)).
Proof. intros Hw Hu. unfold disable_website. rewrite Hw. by rewrite bool_decide_eq_true_2. Qed.

Lemma disable_website_other uid wid d :
  (forall w, websites d !! wid = Some w -> Website.UserID w <> uid) ->
  disable_website uid wid d = Ok (0%nat, d).
Proof.
  intros H. unfold disable_website. destruct (websites d !! wid) as [w|] eqn:Hw; [|done].
  rewrite bool_decide_eq_false_2; [done|]. by apply H.
Qed.

Lemma DeleteWebsite_run uid req wid w :
  unmarshal_ok (decode_DeleteWebsiteRequest req) = Some wid -> wid <> "" ->
  hd false (faults w) = false ->
  DeleteWebsite uid req w =
    match disable_website uid wid (db w) with
    | Ok (O, d') => (mkWebResp 404 (BError "Website not found"), set_db d' (drop_fault w))
    | Ok (S _, d') => (mkWebResp 200 (BMessage "Website deleted successfully"), set_db d' (drop_fault w))
    | Err _ => (mkWebResp 500 (BError "Failed to delete website"), drop_fault w)
    end.
Proof.
  intros Hd Hne Hf. unfold DeleteWebsite. rewrite Hd, bool_decide_eq_false_2 by done.
  unfold st_bind. rewrite db_exec_eq, Hf. by destruct (disable_website _ _ _) as [[[|n] d']|e].
Qed.

Lemma active_websites_ids d wid :
  websites_keyed d -> wid ∈ Website.ID <$> active_websites d ->
  exists w, websites d !! wid = Some w /\ Website.Disabled w = false.
Proof.
  intros Hk Hin. unfold active_websites in Hin.
  apply list_elem_of_fmap in Hin as (w & -> & Hin).
  apply list_elem_of_fmap in Hin as ([k w'] & -> & Hin). simpl.
  apply elem_of_map_to_list, map_lookup_filter_Some in Hin as [Hw Hd]. simpl in Hd.
  rewrite <- (Hk _ _ Hw) in Hw. by exists w'.
Qed.

(** Every callback a monitoring tick adds is for a website that was
    active when the tick queried the database. *)
Lemma monitor_tick_callback_source s k wid pk :
  Hub.callbacks (hub (exec monitor_tick s)) !! k = Some (ValidateCallback wid pk) ->
  Hub.callbacks (hub s) !! k = Some (ValidateCallback wid pk) \/
  wid ∈ Website.ID <$> active_websites (db (world s)).
Proof.
  unfold monitor_tick, exec, st_bind, lift. simpl. rewrite db_exec_eq.
  destruct (hd false _); simpl; [auto|]. case_bool_decide; simpl; [auto|].
  unfold st_get. simpl. case_bool_decide; simpl; [auto|]. revert k.
  set (ws := active_websites (db (world s))).
  set (P := fun s' : HubProc => forall k, Hub.callbacks (hub s') !! k = Some (ValidateCallback wid pk) ->
              Hub.callbacks (hub s) !! k = Some (ValidateCallback wid pk) \/ wid ∈ Website.ID <$> ws).
  apply (st_iter_preserves_in P); [|by left].
  intros wb s1 Hwb H1. apply (st_iter_preserves P); [|done].
  intros v s2 H2 k. destruct (dispatch_one_exec wb v s2) as (Hcb & _). unfold exec in Hcb. rewrite Hcb.
  destruct (decide (uuid_string (next_uuid (world s2)) = k)) as [<-|Hne].
  - rewrite lookup_insert_eq. intros [= <- _]. right. by apply list_elem_of_fmap_2.
  - rewrite lookup_insert_ne by done. apply H2.
Qed.

Lemma disabled_not_active d wid w :
  websites_keyed d -> websites d !! wid = Some w ->
  wid ∉ Website.ID <$> active_websites
          (mkDB (users d) (<[wid := disabled w]> (websites d)) (validators d) (ticks d) (payouts d)).
Proof.
  intros Hk Hw Hin. apply active_websites_ids in Hin as (w' & Hw' & Hd).
  - simpl in Hw'. rewrite lookup_insert_eq in Hw'. by injection Hw' as <-.
  - unfold websites_keyed. simpl. apply map_Forall_insert_2; [|done]. exact (Hk _ _ Hw).
Qed.

(** What DeleteWebsite does, when the body names a website and the
    database answers. *)
Lemma DeleteWebsite_cases uid req wid w :
  unmarshal_ok (decode_DeleteWebsiteRequest req) = Some wid -> wid <> "" ->
  hd false (faults w) = false ->
  let '(resp, w') := DeleteWebsite uid req w in
  (exists web, websites (db w) !! wid = Some web /\ Website.UserID web = uid /\ code resp = 200%Z /\
     db w' = mkDB (users (db w)) (<[wid := disabled web]> (websites (db w))) (validators (db w))
               (ticks (db w)) (payouts (db w))) \/
  ((forall web, websites (db w) !! wid = Some web -> Website.UserID web <> uid) /\
   code resp = 404%Z /\ db w' = db w).
Proof.
  intros Hd Hne Hf. rewrite (DeleteWebsite_run uid req wid w Hd Hne Hf).
  destruct (websites (db w) !! wid) as [web|] eqn:Hw; [destruct (decide (Website.UserID web = uid)) as [Hu|Hu]|].
  - rewrite (disable_website_owned _ _ _ web Hw Hu). left. by exists web.
  - rewrite disable_website_other by (intros web' Hw'; congruence). right. split_and!; [|done|done].
    intros web' Hw'. congruence.
  - rewrite disable_website_other by (intros web' Hw'; congruence). right. by split_and!.
Qed.

(** C30. DeleteWebsite only ever touches the caller's own website: every
    other row of the websites table (another id, or the requested id
    owned by another user) is left as it was, and a request for a
    website the caller does not own answers 404. *)
Theorem DeleteWebsite_owner_only uid req wid w k :
  unmarshal_ok (decode_DeleteWebsiteRequest req) = Some wid -> wid <> "" ->
  hd false (faults w) = false ->
  (k <> wid \/ forall web, websites (db w) !! k = Some web -> Website.UserID web <> uid) ->
  websites (db (DeleteWebsite uid req w).2) !! k = websites (db w) !! k.
Proof.
  intros Hd Hne Hf Hk. pose proof (DeleteWebsite_cases uid req wid w Hd Hne Hf) as Hc.
  destruct (DeleteWebsite uid req w) as [resp w']. simpl.
  destruct Hc as [(web & Hw & Hu & _ & ->)|(_ & _ & ->)]; [|done]. simpl.
  destruct Hk as [Hk|Hk]; [by rewrite lookup_insert_ne|].
  destruct (decide (wid = k)) as [<-|]; [|by rewrite lookup_insert_ne].
  exfalso. by apply (Hk web).
Qed.

(** C31. A website deleted through the API is no longer probed: when
    DeleteWebsite answers 200, the next monitoring tick of the hub
    registers no callback (and so sends no task) for that website;
    every callback for it in the table afterwards was there before. *)
Theorem deleted_website_not_probed uid req wid w h :
  unmarshal_ok (decode_DeleteWebsiteRequest req) = Some wid -> wid <> "" ->
  hd false (faults w) = false -> websites_keyed (db w) ->
  code (DeleteWebsite uid req w).1 = 200%Z ->
  forall k pk,
    Hub.callbacks (hub (exec monitor_tick (mkHubProc h (DeleteWebsite uid req w).2))) !! k =
      Some (ValidateCallback wid pk) ->
    Hub.callbacks h !! k = Some (ValidateCallback wid pk).
Proof.
  intros Hd Hne Hf Hk. pose proof (DeleteWebsite_cases uid req wid w Hd Hne Hf) as Hc.
  destruct (DeleteWebsite uid req w) as [resp w']. simpl.
  destruct Hc as [(web & Hw & Hu & _ & Hdb)|(_ & H404 & _)]; [|by rewrite H404].
  intros _ k pk Hcb. apply monitor_tick_callback_source in Hcb as [Hcb|Hin]; [done|].
  simpl in Hin. rewrite Hdb in Hin. by apply disabled_not_active in Hin.
Qed.

(** ** Witnesses. *)

Lemma DeleteWebsite_owner_only_witness :
  websites (db (DeleteWebsite "u1" (ex_delete "W2") ex_web_world).2) !! "W2" =
  Some (ex_site "W2" "https://b.example" "u2" 2).
Proof.
  rewrite (DeleteWebsite_owner_only "u1" (ex_delete "W2") "W2" ex_web_world "W2");
    [reflexivity|reflexivity|discriminate|reflexivity|].
  right. intros web Hw. vm_compute in Hw. injection Hw as <-. discriminate.
Defined.

Lemma deleted_website_not_probed_witness :
  code (DeleteWebsite "u1" (ex_delete "W1") ex_web_world).1 = 200%Z /\
  Hub.callbacks (hub (exec monitor_tick (mkHubProc ex_web_hub (DeleteWebsite "u1" (ex_delete "W1") ex_web_world).2)))
    !! "uuid-1" <> Some (ValidateCallback "W1" "pk1").
Proof.
  assert (Hk : websites_keyed (db ex_web_world)) by (eapply bool_decide_unpack; vm_compute; exact I).
  split; [vm_compute; reflexivity|]. intros Hcb.
  pose proof (deleted_website_not_probed "u1" (ex_delete "W1") "W1" ex_web_world ex_web_hub
                eq_refl ltac:(discriminate) eq_refl Hk ltac:(vm_compute; reflexivity) _ _ Hcb) as Hold.
  vm_compute in Hold. discriminate.
Defined.

(** ** The list handler. *)

Lemma websites_ids_nodup d (P : Website -> Prop) `{!forall w, Decision (P w)} :
  websites_keyed d ->
  NoDup (Website.ID <$> merge_sort newer_website (filter P (map_to_list (websites d)).*2)).
Proof.
  intros Hk.
  assert (Hp : Website.ID <$> merge_sort newer_website (filter P (map_to_list (websites d)).*2) ≡ₚ
               Website.ID <$> filter P (map_to_list (websites d)).*2) by (by rewrite merge_sort_Permutation).
  rewrite Hp. apply (sublist_NoDup _ (Website.ID <$> (map_to_list (websites d)).*2));
    [|apply fmap_sublist, sublist_filter].
  rewrite <- list_fmap_compose.
  rewrite (list_fmap_ext _ fst); [apply NoDup_fst_map_to_list|].
  intros i [k w] Hi. simpl. apply (Hk k w), elem_of_map_to_list, (list_elem_of_lookup_2 _ i), Hi.
Qed.

Lemma sum_list_with_fmap {A B} (f : B -> nat) (g : A -> B) l :
  sum_list_with f (g <$> l) = sum_list_with (fun x => f (g x)) l.
Proof. induction l as [|x l IH]; [done|]. rewrite fmap_cons. simpl. by rewrite IH. Qed.

Lemma filters_partition_by `{EqDecision K} {A B} (key : A -> K) (id : B -> K) (ws : list B) (l : list A) :
  NoDup (id <$> ws) -> (sum_list_with (fun w => length (filter (fun a => key a = id w) l)) ws <= length l)%nat.
Proof.
  intros Hnd. pose proof (filters_partition key _ l Hnd) as H.
  rewrite sum_list_with_fmap in H. exact H.
Qed.

(** C33. GetWebsites loads the ticks of all the user's websites with one
    preload query limited to 100 rows: whatever the number of websites,
    the handler loads at most 100 ticks in total, not 100 per website. *)
Theorem GetWebsites_tick_cap uid d :
  websites_keyed d -> (sum_list_with (fun p => length p.2) (websites_of uid d) <= 100)%nat.
Proof.
  intros Hk. unfold websites_of. cbv zeta. rewrite sum_list_with_fmap. simpl.
  etrans; [apply filters_partition_by, websites_ids_nodup, Hk|]. rewrite length_take. lia.
Qed.

Lemma websites_of_rows uid d :
  (websites_of uid d).*1 = merge_sort newer_website
    (filter (fun w => Website.UserID w = uid /\ Website.Disabled w = false) (map_to_list (websites d)).*2).
Proof. unfold websites_of. rewrite <- list_fmap_compose. apply list_fmap_id. Qed.

(** C32. No response of the website API depends on the ticks table:
    two worlds with the same websites table and the same fault schedule
    get the same answers from GetWebsites and GetWebsiteStatus, because
    the preloaded ticks are not serialized; the uptime history the
    front end charts from the status route is never sent. *)
Theorem website_responses_ignore_ticks uid wid w w' :
  websites (db w) = websites (db w') -> hd false (faults w) = hd false (faults w') ->
  (GetWebsites uid w).1 = (GetWebsites uid w').1 /\
  (GetWebsiteStatus uid wid w).1 = (GetWebsiteStatus uid wid w').1.
Proof.
  intros Hw Hf. split.
  - unfold GetWebsites, st_bind. rewrite !db_exec_eq, Hf. destruct (hd false (faults w')); [done|]. simpl.
    rewrite <- (length_fmap fst (websites_of uid (db w))), <- (length_fmap fst (websites_of uid (db w'))).
    by rewrite !websites_of_rows, Hw.
  - unfold GetWebsiteStatus, st_bind. destruct (bool_decide (wid = "")); [done|]. cbv beta.
    rewrite !db_exec_eq, Hf. destruct (hd false (faults w')); [done|].
    unfold website_status. rewrite Hw. destruct (websites (db w') !! wid); [case_bool_decide|]; done.
Qed.

(** ** Creating and reading back a website. *)

Lemma CreateWebsite_created is_url uid req w id url :
  body (CreateWebsite is_url (Some uid) req w).1 = BCreated id url ->
  id <> "" /\ websites (db (CreateWebsite is_url (Some uid) req w).2) !! id =
               Some (Website.mkWebsite id url uid false (clock w)).
Proof.
  unfold CreateWebsite. destruct (unmarshal_ok _) as [u|]; [|discriminate].
  destruct (bool_decide _ && is_url u); [|discriminate].
  unfold st_bind, new_uuid, now. simpl. rewrite db_exec_eq. simpl.
  destruct (hd false (faults w)); [discriminate|]. unfold create_website. simpl.
  destruct (_ && _ && _ && _); simpl; [|discriminate].
  intros [= <- <-]. split; [done|]. by rewrite lookup_insert_eq.
Qed.

Lemma GetWebsiteStatus_run uid wid w :
  wid <> "" -> hd false (faults w) = false ->
  (GetWebsiteStatus uid wid w).1 =
    match website_status uid wid (db w) with
    | Ok ((web, _), _) => mkWebResp 200 (BWebsite web)
    | Err ErrRecordNotFound => mkWebResp 404 (BError "Website not found")
    | Err _ => mkWebResp 500 (BError "Database error")
    end.
Proof.
  intros Hne Hf. unfold GetWebsiteStatus. rewrite bool_decide_eq_false_2 by done.
  unfold st_bind. rewrite db_exec_eq, Hf. by destruct (website_status _ _ _) as [[[web tks] d']|[]].
Qed.

(** C34. A website created through the API can be read back by its
    owner and by nobody else: when CreateWebsite answers 201 with an id
    and a url, GetWebsiteStatus by the same user on that id answers 200
    with the new, enabled website stamped with the creation time, and
    by any other user answers 404. *)
Theorem CreateWebsite_status_roundtrip is_url uid uid' req w id url :
  body (CreateWebsite is_url (Some uid) req w).1 = BCreated id url ->
  hd false (faults (CreateWebsite is_url (Some uid) req w).2) = false ->
  (GetWebsiteStatus uid id (CreateWebsite is_url (Some uid) req w).2).1 =
    mkWebResp 200 (BWebsite (Website.mkWebsite id url uid false (clock w))) /\
  (uid' <> uid -> (GetWebsiteStatus uid' id (CreateWebsite is_url (Some uid) req w).2).1 =
                    mkWebResp 404 (BError "Website not found")).
Proof.
  intros Hc Hf. destruct (CreateWebsite_created is_url uid req w id url Hc) as [Hne Hw].
  rewrite !GetWebsiteStatus_run by done. unfold website_status. rewrite Hw. simpl. split.
  - by rewrite bool_decide_eq_true_2.
  - intros Hu. rewrite bool_decide_eq_false_2; [done|]. intros [? _]. done.
Qed.

Lemma CreateWebsite_status_roundtrip_witness :
  (GetWebsiteStatus "u2" "uuid-1" (CreateWebsite (fun _ => true) (Some "u1") (ex_create "https://c.example") ex_web_world).2).1 =
    mkWebResp 404 (BError "Website not found").
Proof.
  apply (CreateWebsite_status_roundtrip (fun _ => true) "u1" "u2" (ex_create "https://c.example") ex_web_world
           "uuid-1" "https://c.example"); [vm_compute; reflexivity..|discriminate].
Defined.

Lemma GetWebsites_tick_cap_witness :
  websites_keyed (db ex_busy_world) /\
  (sum_list_with (fun p => length p.2) (websites_of "u1" (db ex_busy_world)) <= 100)%nat.
Proof.
  assert (Hk : websites_keyed (db ex_busy_world)) by (eapply bool_decide_unpack; vm_compute; exact I).
  split; [exact Hk|]. apply (GetWebsites_tick_cap "u1" _ Hk).
Defined.

Lemma website_responses_ignore_ticks_witness :
  (GetWebsiteStatus "u1" "B" ex_busy_world).1 =
    (GetWebsiteStatus "u1" "B" (set_db (mkDB ∅ (websites (db ex_busy_world)) ∅ [] ∅) ex_busy_world)).1.
Proof. apply (website_responses_ignore_ticks "u1" "B"); reflexivity. Defined.
