(* ===== verification/Jwt.v ===== *)
(** * Session tokens: src/internal/utils/jwt.go over golang-jwt/jwt/v5

    GenerateJWT signs the claims {sub, exp = now + 24 h, iat = now} with
    HS256 and the server's secret; VerifyJWT parses a token with a key
    function that accepts the HMAC family only, and returns its string
    [sub] claim.

    The library is not part of the program: what the code relies on is
    the class [JwtLib], the operations the library offers (signing, the
    unverified split of a token into header and claims, the signature
    check) with the laws of a symbolic MAC: a signed token parses back
    to its header and claims and verifies under its key, and a token
    that verifies under a key was signed with that key.  [jwt_Parse]
    is the library's Parser.ParseWithClaims in the order v5 runs it
    (split, key function, signature, then the default claim
    validation: [exp] must lie after now, [nbf] not after it, a
    non-numeric time claim is invalid, [iat] is not checked).  The
    instance [sym_jwt] is a concrete symbolic MAC (a token is the
    binary code of its method, key and claims, checked by
    re-encoding); it shows the laws consistent and runs the
    examples. *)

From Stdlib Require Import Ascii.
From S2P Require Import Prelude.

(** ** Signing methods and claims. *)
Inductive SigningMethod := HS256 | HS384 | HS512 | RS256 | ES256 | EdDSA | SigNone.

#[export] Instance SigningMethod_eq_dec : EqDecision SigningMethod.
Proof. solve_decision. Defined.
#[export] Instance SigningMethod_countable : Countable SigningMethod.
Proof.
  refine (inj_countable'
            (fun m => match m with HS256 => 0 | HS384 => 1 | HS512 => 2 | RS256 => 3
                              | ES256 => 4 | EdDSA => 5 | SigNone => 6 end)%nat
            (fun n => match n with 0 => HS256 | 1 => HS384 | 2 => HS512 | 3 => RS256
                              | 4 => ES256 | 5 => EdDSA | _ => SigNone end)%nat _).
  by intros [].
Defined.

(** The type assertion of [token.Method] to a jwt.SigningMethodHMAC. *)
Definition is_hmac (m : SigningMethod) : bool :=
  match m with HS256 | HS384 | HS512 => true | _ => false end.

(** A value of [jwt.MapClaims] (map[string]interface{} decoded from
    JSON): a string, a number, or anything else. *)
Inductive ClaimVal := CStr (s : string) | CNum (n : Z) | COther.

#[export] Instance ClaimVal_eq_dec : EqDecision ClaimVal.
Proof. solve_decision. Defined.
#[export] Instance ClaimVal_countable : Countable ClaimVal.
Proof.
  refine (inj_countable'
            (fun v => match v with CStr s => inl s | CNum n => inr (inl n) | COther => inr (inr tt) end)
            (fun x => match x with inl s => CStr s | inr (inl n) => CNum n | inr (inr _) => COther end) _).
  by intros [].
Defined.

Abbreviation Claims := (gmap string ClaimVal) (only parsing).

(** The errors of jwt.Parse (by kind) and of VerifyJWT. *)
Inductive JwtError :=
| ErrTokenMalformed | ErrTokenUnverifiable | ErrTokenSignatureInvalid | ErrTokenInvalidClaims
| ErrSubNotFound.

(** ** The library. *)
Class JwtLib := {
  (** jwt.NewWithClaims(m, claims).SignedString(key) *)
  jwt_sign : SigningMethod -> string -> Claims -> string;
  (** Parser.ParseUnverified: the method named by the header and the claims *)
  jwt_unverified : string -> option (SigningMethod * Claims);
  (** token.Method.Verify(signing string, signature, key) *)
  jwt_verify : string -> string -> bool;
  jwt_unverified_sign m k c : jwt_unverified (jwt_sign m k c) = Some (m, c);
  jwt_verify_sign m k c : is_hmac m = true -> jwt_verify (jwt_sign m k c) k = true;
  jwt_verify_sound t k m c :
    is_hmac m = true -> jwt_unverified t = Some (m, c) -> jwt_verify t k = true -> t = jwt_sign m k c
}.

(** The default validator of v5: a time claim, when present, must be a
    number satisfying [ok]. *)
Definition time_claim_ok (c : Claims) (k : string) (ok : Z -> bool) : bool :=
  match c !! k with None => true | Some (CNum t) => ok t | Some _ => false end.

Definition claims_valid (now : Z) (c : Claims) : bool :=
  time_claim_ok c "exp" (fun e => bool_decide (now < e)%Z) &&
  time_claim_ok c "nbf" (fun n => bool_decide (n <= now)%Z).

Section Tokens.
Context `{!JwtLib}.

(** jwt.Parse(tokenString, keyFunc), with [now] the validator's clock. *)
Definition jwt_Parse (t : string) (keyfunc : SigningMethod -> option string) (now : Z) : JwtError + Claims :=
  match jwt_unverified t with
  | None => inl ErrTokenMalformed
  | Some (m, c) =>
      match keyfunc m with
      | None => inl ErrTokenUnverifiable
      | Some key =>
          if jwt_verify t key then
            if claims_valid now c then inr c else inl ErrTokenInvalidClaims
          else inl ErrTokenSignatureInvalid
      end
  end.

(** The key function of VerifyJWT (lines 24-30): HMAC methods get the
    secret, any other method is refused. *)
Definition verify_keyfunc (secret : string) (m : SigningMethod) : option string :=
  if is_hmac m then Some secret else None.

(** VerifyJWT (lines 22-45).  [token.Valid] is true whenever jwt.Parse
    returns no error, so the final "invalid token" return is dead. *)
Definition VerifyJWT (tokenString secret : string) (now : Z) : JwtError + string :=
  match jwt_Parse tokenString (verify_keyfunc secret) now with
  | inl e => inl e
  | inr c => match c !! "sub" with Some (CStr s) => inr s | _ => inl ErrSubNotFound end
  end.

(** The claims of GenerateJWT (lines 12-16). *)
Definition jwt_claims (userID : string) (now : Z) : Claims :=
  {[ "sub" := CStr userID; "exp" := CNum (now + 24 * 3600); "iat" := CNum now ]}.

(** GenerateJWT (lines 11-20).  SignedString with an HMAC method and a
    []byte key cannot fail, so the error result is always nil. *)
Definition GenerateJWT (userID secret : string) (now : Z) : string :=
  jwt_sign HS256 secret (jwt_claims userID now).

End Tokens.

(** ** A symbolic instance. *)
Fixpoint bits_of_pos (p : positive) : string :=
  match p with
  | xI p => String "1"%char (bits_of_pos p)
  | xO p => String "0"%char (bits_of_pos p)
  | xH => EmptyString
  end.

Fixpoint pos_of_bits (s : string) : option positive :=
  match s with
  | EmptyString => Some xH
  | String c s' =>
      if Ascii.eqb c "1"%char then xI <$> pos_of_bits s'
      else if Ascii.eqb c "0"%char then xO <$> pos_of_bits s' else None
  end.

Definition sym_token (m : SigningMethod) (k : string) (c : Claims) : string :=
  bits_of_pos (encode (m, k, c)).

Definition sym_open (t : string) : option (SigningMethod * string * Claims) :=
  match pos_of_bits t ≫= decode with
  | Some (m, k, c) => if bool_decide (sym_token m k c = t) then Some (m, k, c) else None
  | None => None
  end.

#[export] Instance sym_jwt : JwtLib.
Proof.
  assert (Hb : forall p, pos_of_bits (bits_of_pos p) = Some p) by (intros p; induction p as [p IH|p IH|]; simpl; by rewrite ?IH).
  refine {| jwt_sign := sym_token;
            jwt_unverified t := (fun '(m, _, c) => (m, c)) <$> sym_open t;
            jwt_verify t k := match sym_open t with Some (_, k', _) => bool_decide (k' = k) | None => false end |}.
  - intros m k c. unfold sym_open, sym_token. rewrite Hb. simpl. rewrite decode_encode. simpl.
    by rewrite bool_decide_eq_true_2.
  - intros m k c _. unfold sym_open, sym_token. rewrite Hb. simpl. rewrite decode_encode. simpl.
    rewrite bool_decide_eq_true_2 by done. by apply bool_decide_eq_true_2.
  - intros t k m c _. unfold sym_open.
    destruct (pos_of_bits t ≫= decode) as [[[m' k'] c']|]; [|done].
    case_bool_decide as Ht; [|done]. simpl. intros [= <- <-] Hk.
    apply bool_decide_eq_true_1 in Hk as <-. done.
Defined.

(** ** Lemmas. *)
Section TokenLemmas.
Context `{!JwtLib}.

Lemma jwt_claims_valid uid t0 now :
  (now < t0 + 24 * 3600)%Z -> claims_valid now (jwt_claims uid t0) = true.
Proof.
  intros Hn. unfold claims_valid, time_claim_ok, jwt_claims.
  rewrite lookup_insert_ne, lookup_insert_eq by done. rewrite !lookup_insert_ne, lookup_singleton_ne by done.
  simpl. by rewrite bool_decide_eq_true_2.
Qed.

(** A token GenerateJWT issued verifies, until it expires, as its
    subject under the secret that signed it. *)
Lemma VerifyJWT_GenerateJWT uid k t0 now :
  (now < t0 + 24 * 3600)%Z -> VerifyJWT (GenerateJWT uid k t0) k now = inr uid.
Proof.
  intros Hn. unfold VerifyJWT, jwt_Parse, GenerateJWT. rewrite jwt_unverified_sign. simpl.
  rewrite jwt_verify_sign, jwt_claims_valid by done. unfold jwt_claims. by rewrite lookup_insert_eq.
Qed.

(** A token VerifyJWT accepts was signed under the secret by an HMAC
    method, names the user in a string [sub] claim, and its claims pass
    validation. *)
Lemma VerifyJWT_sound tok k now uid :
  VerifyJWT tok k now = inr uid ->
  exists m c, is_hmac m = true /\ tok = jwt_sign m k c /\ c !! "sub" = Some (CStr uid) /\
              claims_valid now c = true.
Proof.
  unfold VerifyJWT, jwt_Parse. destruct (jwt_unverified tok) as [[m c]|] eqn:Hu; [|done].
  unfold verify_keyfunc. destruct (is_hmac m) eqn:Hm; [|done].
  destruct (jwt_verify tok k) eqn:Hv; [|done]. destruct (claims_valid now c) eqn:Hc; [|done].
  destruct (c !! "sub") as [[s| |]|] eqn:Hs; intros; simplify_eq.
  exists m, c. split_and!; [done|by apply jwt_verify_sound|done|done].
Qed.

End TokenLemmas.
