(* ===== verification/Account.v ===== *)
(** * User accounts: Signup and Login (src/internal/handlers/user/handler.go, lines 157-252)

    Signup looks the email up, hashes the password with bcrypt, inserts
    the user under a fresh uuid and answers a session token; Login looks
    the email up, compares the password with the stored hash and answers
    a token.  Both are world actions like the other handlers: their SQL
    statements go through [db_exec], so every database call may fail.

    bcrypt (golang.org/x/crypto/bcrypt) is a library: the class
    [Bcrypt] states what the code relies on.  GenerateFromPassword
    fails exactly on passwords longer than 72 bytes
    (ErrPasswordTooLong); CompareHashAndPassword accepts a password
    exactly when the bytes the cipher reads from it ([bcrypt_key]) are
    those of the hashed one.  The salt bcrypt draws from crypto/rand is
    an argument of Signup.  gin's [email] validator is the section
    variable [is_email]; [required] is non-emptiness and [min=8] a
    length bound (on ASCII strings runes and bytes agree). *)

From S2P Require Import Prelude Json Store Frame Jwt Config.

(** ** The bcrypt library. *)
Class Bcrypt := {
  (** GenerateFromPassword(password, DefaultCost) with the drawn salt *)
  bcrypt_hash : string -> nat -> option string;
  (** CompareHashAndPassword(hash, password) == nil *)
  bcrypt_compare : string -> string -> bool;
  (** the bytes of a password the key schedule reads *)
  bcrypt_key : string -> string;
  bcrypt_hash_none pw s : bcrypt_hash pw s = None <-> (72 < String.length pw)%nat;
  bcrypt_hash_length pw s h : bcrypt_hash pw s = Some h -> (String.length h <= 255)%nat;
  bcrypt_compare_hash pw s h pw' :
    bcrypt_hash pw s = Some h -> bcrypt_compare h pw' = bool_decide (bcrypt_key pw' = bcrypt_key pw)
}.

(** A symbolic instance: the hash carries the password. *)
Definition sym_hash_prefix : string := "$2a$10$".
Definition sym_key (pw : string) : string := String.substring 0 72 pw.

#[export] Instance sym_bcrypt : Bcrypt.
Proof.
  assert (Hk : forall pw, (String.length pw <= 72)%nat -> sym_key pw = pw).
  { intros pw. unfold sym_key. generalize 72%nat.
    induction pw as [|c pw IH]; intros [|n] Hn; simpl in *; [done|done|lia|]. f_equal. apply IH. lia. }
  assert (Happ : forall a b, String.length (a +:+ b) = (String.length a + String.length b)%nat).
  { intros a b. induction a as [|c a IH]; simpl; [done|by rewrite IH]. }
  refine {| bcrypt_hash pw s := if (String.length pw <=? 72)%nat then Some (sym_hash_prefix +:+ pw) else None;
            bcrypt_compare h pw' := bool_decide (h = sym_hash_prefix +:+ sym_key pw');
            bcrypt_key := sym_key |}.
  - intros pw s. destruct (Nat.leb_spec (String.length pw) 72); split; (done || lia).
  - intros pw s h. destruct (Nat.leb_spec (String.length pw) 72); [|done].
    intros [= <-]. rewrite Happ. unfold sym_hash_prefix. simpl. lia.
  - intros pw s h pw'. destruct (Nat.leb_spec (String.length pw) 72) as [Hpw|]; [|done].
    intros [= <-]. rewrite (Hk pw Hpw). apply bool_decide_ext. split.
    + intros Heq. unfold sym_hash_prefix in Heq. simpl in Heq. by simplify_eq.
    + by intros ->.
Defined.

(** ** The users table. *)

(** GORM's First orders by the primary key. *)
Definition user_id_le (a b : User) : Prop := String.le (User.ID a) (User.ID b).
#[export] Instance user_id_le_dec : RelDecision user_id_le.
Proof. intros a b. unfold user_id_le. apply _. Defined.

(** Where("email = ?", email).First(&user). *)
Definition find_user_by_email (email : string) (d : DB) : result (User * DB) :=
  match merge_sort user_id_le (filter (fun u => User.Email u = email) (map_to_list (users d)).*2) with
  | u :: _ => Ok (u, d)
  | [] => Err ErrRecordNotFound
  end.

(** Create(&user): primary key, unique index on email, varchar(255)
    columns. *)
Definition create_user (u : User) (d : DB) : result (unit * DB) :=
  if bool_decide (users d !! User.ID u = None)
     && bool_decide (User.Email u ∉ User.Email <$> (map_to_list (users d)).*2)
     && varchar_ok 255 (User.ID u) && varchar_ok 255 (User.Email u) && varchar_ok 255 (User.Password u)
  then Ok (tt, mkDB (<[User.ID u := u]> (users d)) (websites d) (validators d) (ticks d) (payouts d))
  else Err ErrConstraint.

(** ** Requests and responses. *)

(** SignupRequest and LoginRequest (lines 157-165) have the same JSON
    shape; their binding rules differ. *)
Definition decode_Credentials (r : raw) : (string * string) * bool :=
  dec_struct ("", "")
    (fun kvs =>
       let '(email, e1) := dec_field as_string "email" "" kvs in
       let '(password, e2) := dec_field as_string "password" "" kvs in
       ((email, password), e1 || e2)) r.

(** The response: the status code and the payload; a binding error
    carries the validator's message, which is not modelled. *)
Inductive AuthBody :=
| ABindError
| AError (msg : string)
| ASession (token userID email : string).

Record AuthResp := mkAuthResp { acode : Z; abody : AuthBody }.

Section Handlers.
Context `{!JwtLib} `{!Bcrypt}.
(** gin's [email] binding rule. *)
Variable is_email : string -> bool.

(** binding:"required,email" and binding:"required,min=8". *)
Definition signup_valid (email password : string) : bool :=
  bool_decide (email <> "") && is_email email && bool_decide (password <> "")
  && (8 <=? String.length password)%nat.

(** binding:"required,email" and binding:"required". *)
Definition login_valid (email password : string) : bool :=
  bool_decide (email <> "") && is_email email && bool_decide (password <> "").

(** Signup (lines 168-215). *)
Definition Signup (cfg : Config) (salt : nat) (req : raw) : ST World AuthResp :=
  match unmarshal_ok (decode_Credentials req) with
  | None => st_ret (mkAuthResp 400 ABindError)
  | Some (email, password) =>
      if negb (signup_valid email password) then st_ret (mkAuthResp 400 ABindError)
      else
        let* r := db_exec (find_user_by_email email) in
        match r with
        | Ok _ => st_ret (mkAuthResp 409 (AError "User already exists"))
        | Err _ =>
            match bcrypt_hash password salt with
            | None => st_ret (mkAuthResp 500 (AError "Failed to hash password"))
            | Some hashed =>
                let* id := new_uuid in
                let* r2 := db_exec (create_user (User.mkUser id email hashed)) in
                match r2 with
                | Err _ => st_ret (mkAuthResp 500 (AError "Failed to create user"))
                | Ok _ =>
                    let* t := now in
                    st_ret (mkAuthResp 201 (ASession (GenerateJWT id (JWTSecret cfg) t) id email))
                end
            end
        end
  end.

(** Login (lines 218-252). *)
Definition Login (cfg : Config) (req : raw) : ST World AuthResp :=
  match unmarshal_ok (decode_Credentials req) with
  | None => st_ret (mkAuthResp 400 ABindError)
  | Some (email, password) =>
      if negb (login_valid email password) then st_ret (mkAuthResp 400 ABindError)
      else
        let* r := db_exec (find_user_by_email email) in
        match r with
        | Err _ => st_ret (mkAuthResp 401 (AError "Invalid credentials"))
        | Ok u =>
            if bcrypt_compare (User.Password u) password then
              let* t := now in
              st_ret (mkAuthResp 200 (ASession (GenerateJWT (User.ID u) (JWTSecret cfg) t) (User.ID u) (User.Email u)))
            else st_ret (mkAuthResp 401 (AError "Invalid credentials"))
        end
  end.

End Handlers.

(** The users table is keyed by id and its emails are distinct (the
    primary key and the unique index). *)
Definition users_wf (d : DB) : Prop :=
  map_Forall (fun k u => User.ID u = k) (users d) /\ NoDup (User.Email <$> (map_to_list (users d)).*2).

(** The relation of databases a handler keeps: well-formed users stay
    well-formed. *)
Definition keeps_users_wf : relation DB := fun d d' => users_wf d -> users_wf d'.

#[export] Instance keeps_users_wf_preorder : PreOrder keeps_users_wf.
Proof. split; [intros d H; exact H|intros d1 d2 d3 H1 H2 H; auto]. Qed.

(** Examples. *)
Definition ex_cfg : Config := Load ∅.
Definition ex_creds (email password : string) : raw :=
  Some (JObj [("email", JStr email); ("password", JStr password)]).
Definition ex_is_email (s : string) : bool := bool_decide (s <> "").
Definition ex_acc_world : World := mkWorld (mkDB ∅ ∅ ∅ [] ∅) [] [] 1 100 [].
(** 73 bytes, one more than bcrypt takes. *)
Definition ex_long_password : string :=
  "0123456789012345678901234567890123456789012345678901234567890123456789012".

(** ** Lemmas. *)

Lemma filter_none {A} (P : A -> Prop) `{!forall x, Decision (P x)} l :
  (forall x, x ∈ l -> ~ P x) -> filter P l = [].
Proof.
  induction l as [|x l IH]; intros Hn; [done|].
  rewrite filter_cons_False by (apply Hn; left). apply IH. intros y Hy. apply Hn. by right.
Qed.

Lemma find_user_by_email_absent email d :
  email ∉ User.Email <$> (map_to_list (users d)).*2 -> find_user_by_email email d = Err ErrRecordNotFound.
Proof.
  intros Hn. unfold find_user_by_email. rewrite filter_none; [done|].
  intros u Hu <-. apply Hn. by apply list_elem_of_fmap_2.
Qed.

Lemma find_user_by_email_only email d u :
  (filter (fun v => User.Email v = email) (map_to_list (users d)).*2 ≡ₚ [u]) ->
  find_user_by_email email d = Ok (u, d).
Proof.
  intros Hp. unfold find_user_by_email.
  assert (Hs : merge_sort user_id_le (filter (fun v => User.Email v = email) (map_to_list (users d)).*2) = [u]).
  { apply Permutation_singleton_r. by rewrite merge_sort_Permutation. }
  by rewrite Hs.
Qed.

Lemma find_user_by_email_db email d u d' : find_user_by_email email d = Ok (u, d') -> d' = d.
Proof. unfold find_user_by_email. by destruct (merge_sort _ _) as [|? ?]; [|intros [= _ <-]]. Qed.

Lemma create_user_ok u d r :
  create_user u d = Ok r ->
  users d !! User.ID u = None /\ (User.Email u ∉ User.Email <$> (map_to_list (users d)).*2) /\
  r = (tt, mkDB (<[User.ID u := u]> (users d)) (websites d) (validators d) (ticks d) (payouts d)).
Proof.
  unfold create_user. case_bool_decide as H1; case_bool_decide as H2; simpl; [|done..].
  destruct (_ && _ && _); [|done]. by intros [= <-].
Qed.

(** After a successful insert, the new user is the only one with its
    email. *)
Lemma users_insert_only u (m : gmap string User) :
  m !! User.ID u = None -> User.Email u ∉ User.Email <$> (map_to_list m).*2 ->
  filter (fun v => User.Email v = User.Email u) (map_to_list (<[User.ID u := u]> m)).*2 ≡ₚ [u].
Proof.
  intros Hid Hem. rewrite map_to_list_insert by done. simpl.
  rewrite filter_cons_True by done. rewrite filter_none; [done|].
  intros v Hv Heq. apply Hem. rewrite <- Heq. by apply list_elem_of_fmap_2.
Qed.

Lemma create_user_wf u d a d' : create_user u d = Ok (a, d') -> users_wf d -> users_wf d'.
Proof.
  intros Hc [Hk Hnd]. apply create_user_ok in Hc as (Hid & Hem & [= _ ->]). split; simpl.
  - by apply map_Forall_insert_2.
  - rewrite map_to_list_insert by done. simpl. by apply NoDup_cons_2.
Qed.

Lemma find_user_by_email_present email d :
  email ∈ User.Email <$> (map_to_list (users d)).*2 -> exists u, find_user_by_email email d = Ok (u, d).
Proof.
  intros Hin. apply list_elem_of_fmap in Hin as (u & -> & Hu). unfold find_user_by_email.
  destruct (merge_sort _ _) as [|v l] eqn:Hs; [|by eexists].
  assert (Hin : u ∈ merge_sort user_id_le (filter (fun v => User.Email v = User.Email u) (map_to_list (users d)).*2)).
  { rewrite merge_sort_Permutation. by apply list_elem_of_filter. }
  rewrite Hs in Hin. by apply elem_of_nil in Hin.
Qed.

Lemma create_user_taken u d :
  User.Email u ∈ User.Email <$> (map_to_list (users d)).*2 -> exists e, create_user u d = Err e.
Proof.
  intros Hin. destruct (create_user u d) as [r|e] eqn:Hc; [|by eexists].
  by apply create_user_ok in Hc as (_ & Hn & _).
Qed.

Section Behaviour.
Context `{!JwtLib} `{!Bcrypt}.
Variable is_email : string -> bool.

Lemma Login_run cfg req w email pw :
  unmarshal_ok (decode_Credentials req) = Some (email, pw) -> login_valid is_email email pw = true ->
  hd false (faults w) = false ->
  (Login is_email cfg req w).1 =
    match find_user_by_email email (db w) with
    | Ok (u, _) =>
        if bcrypt_compare (User.Password u) pw
        then mkAuthResp 200 (ASession (GenerateJWT (User.ID u) (JWTSecret cfg) (clock w)) (User.ID u) (User.Email u))
        else mkAuthResp 401 (AError "Invalid credentials")
    | Err _ => mkAuthResp 401 (AError "Invalid credentials")
    end.
Proof.
  intros Hd Hv Hf. unfold Login. rewrite Hd, Hv. simpl. unfold st_bind. rewrite db_exec_eq, Hf.
  destruct (find_user_by_email email (db w)) as [[u d']|e]; simpl; [|done].
  by destruct (bcrypt_compare _ _).
Qed.

(** What a 201 answer of Signup tells about the request and the world. *)
Lemma Signup_created cfg salt req w t id email :
  (Signup is_email cfg salt req w).1 = mkAuthResp 201 (ASession t id email) ->
  exists pw h,
    unmarshal_ok (decode_Credentials req) = Some (email, pw) /\ bcrypt_hash pw salt = Some h /\
    users (db w) !! id = None /\ (email ∉ User.Email <$> (map_to_list (users (db w))).*2) /\
    t = GenerateJWT id (JWTSecret cfg) (clock w) /\
    users (db (Signup is_email cfg salt req w).2) = <[id := User.mkUser id email h]> (users (db w)) /\
    clock (Signup is_email cfg salt req w).2 = clock w.
Proof.
  unfold Signup. destruct (unmarshal_ok _) as [[em pw]|]; [|done].
  destruct (signup_valid is_email em pw); simpl; [|done]. unfold st_bind. rewrite db_exec_eq.
  destruct (hd false (faults w)) eqn:Hf;
    [|destruct (find_user_by_email em (db w)) as [[u d']|e] eqn:Hfind; [done|]]; simpl;
    (destruct (bcrypt_hash pw salt) as [h|] eqn:Hh; [|done]); unfold new_uuid; simpl;
    rewrite db_exec_eq; simpl; (destruct (hd false (tail (faults w))); [done|]);
    (destruct (create_user _ _) as [[a d2]|] eqn:Hc; [|done]); simpl; intros [= <- <- <-];
    apply create_user_ok in Hc as (Hid & Hem & [= _ ->]); simpl in *;
    exists pw, h; split_and!; done.
Qed.

(** C37. Signing up and logging in agree: after Signup answers 201 for
    an email and a password, a well-formed Login for that email (on a
    database that answers) succeeds with the new user's id exactly when
    the password reaches bcrypt as the signed-up one, and otherwise
    answers 401 "Invalid credentials". *)
Theorem Signup_Login_roundtrip cfg salt req req' w t id email pw' :
  (Signup is_email cfg salt req w).1 = mkAuthResp 201 (ASession t id email) ->
  unmarshal_ok (decode_Credentials req') = Some (email, pw') -> login_valid is_email email pw' = true ->
  hd false (faults (Signup is_email cfg salt req w).2) = false ->
  exists pw, unmarshal_ok (decode_Credentials req) = Some (email, pw) /\
    (Login is_email cfg req' (Signup is_email cfg salt req w).2).1 =
      if bool_decide (bcrypt_key pw' = bcrypt_key pw)
      then mkAuthResp 200 (ASession (GenerateJWT id (JWTSecret cfg) (clock w)) id email)
      else mkAuthResp 401 (AError "Invalid credentials").
Proof.
  intros Hs Hd' Hv' Hf. destruct (Signup_created cfg salt req w t id email Hs)
    as (pw & h & Hd & Hh & Hid & Hem & _ & Hus & Hclk).
  exists pw. split; [done|]. rewrite (Login_run cfg req' _ email pw' Hd' Hv' Hf), Hclk.
  rewrite (find_user_by_email_only email _ (User.mkUser id email h)).
  - simpl. rewrite (bcrypt_compare_hash pw salt h pw' Hh). by case_bool_decide.
  - rewrite Hus. by apply (users_insert_only (User.mkUser id email h)).
Qed.

Lemma Signup_keeps cfg salt req : keeps (frame eq keeps_users_wf) (Signup is_email cfg salt req).
Proof.
  unfold Signup. keeps_solve; apply keeps_db_exec; try apply _; intros d r d' Hs.
  - apply find_user_by_email_db in Hs as ->. reflexivity.
  - exact (create_user_wf _ _ _ _ Hs).
Qed.

(** C39. Signup never registers an email twice, and says so when it
    can: for a well-formed signup whose email a user already has,
    Signup changes no table under every fault schedule.  When the
    lookup of line 177 answers, the reply is 409 "User already exists";
    when the lookup fails with a database error the handler goes on as
    for a new email (only a nil error counts as "exists"), and the
    reply is a 500, from bcrypt or from the unique index on email that
    refuses the insert. *)
Theorem Signup_existing_email cfg salt req w email pw :
  unmarshal_ok (decode_Credentials req) = Some (email, pw) -> signup_valid is_email email pw = true ->
  email ∈ User.Email <$> (map_to_list (users (db w))).*2 ->
  db (Signup is_email cfg salt req w).2 = db w /\
  (hd false (faults w) = false -> (Signup is_email cfg salt req w).1 = mkAuthResp 409 (AError "User already exists")) /\
  (hd false (faults w) = true -> acode (Signup is_email cfg salt req w).1 = 500%Z).
Proof.
  intros Hd Hv Hin. unfold Signup. rewrite Hd, Hv. simpl. unfold st_bind. rewrite db_exec_eq.
  destruct (hd false (faults w)) eqn:Hf; simpl.
  - destruct (bcrypt_hash pw salt) as [h|]; simpl; [|done]. rewrite db_exec_eq. simpl.
    destruct (hd false (tail (faults w))); simpl; [done|].
    destruct (create_user_taken (User.mkUser (uuid_string (next_uuid w)) email h) (db w) Hin) as [e He].
    rewrite He. done.
  - destruct (find_user_by_email_present email (db w) Hin) as [u ->]. done.
Qed.

(** C40. The binding rules bound passwords below (min=8) but not above:
    a well-formed signup whose password is longer than the 72 bytes
    bcrypt accepts, for an email not yet registered, is answered 500
    "Failed to hash password" and changes no table, under every fault
    schedule. *)
Theorem Signup_long_password cfg salt req w email pw :
  unmarshal_ok (decode_Credentials req) = Some (email, pw) -> signup_valid is_email email pw = true ->
  (72 < String.length pw)%nat -> email ∉ User.Email <$> (map_to_list (users (db w))).*2 ->
  (Signup is_email cfg salt req w).1 = mkAuthResp 500 (AError "Failed to hash password") /\
  db (Signup is_email cfg salt req w).2 = db w.
Proof.
  intros Hd Hv Hl Hem. unfold Signup. rewrite Hd, Hv. simpl. unfold st_bind. rewrite db_exec_eq.
  assert (Hh : bcrypt_hash pw salt = None) by by apply bcrypt_hash_none.
  destruct (hd false _); [|rewrite find_user_by_email_absent by done]; simpl; by rewrite Hh.
Qed.

Lemma find_user_by_email_found email d u d' :
  find_user_by_email email d = Ok (u, d') -> u ∈ (map_to_list (users d)).*2 /\ User.Email u = email.
Proof.
  unfold find_user_by_email.
  destruct (merge_sort user_id_le _) as [|v l] eqn:Hs; [done|]. intros [= <- _].
  assert (Hin : v ∈ filter (fun u => User.Email u = email) (map_to_list (users d)).*2).
  { rewrite <- (merge_sort_Permutation user_id_le), Hs. left. }
  by apply list_elem_of_filter in Hin as [? ?].
Qed.

(** What a 200 answer of Login tells: the session is for the stored
    user with the requested email, issued at the world's clock. *)
Lemma Login_session cfg req w t id em :
  (Login is_email cfg req w).1 = mkAuthResp 200 (ASession t id em) ->
  exists email pw u,
    unmarshal_ok (decode_Credentials req) = Some (email, pw) /\ find_user_by_email email (db w) = Ok (u, db w) /\
    User.ID u = id /\ User.Email u = em /\ t = GenerateJWT id (JWTSecret cfg) (clock w).
Proof.
  unfold Login. destruct (unmarshal_ok _) as [[e p]|]; [|done].
  destruct (login_valid is_email e p); simpl; [|done]. unfold st_bind. rewrite db_exec_eq.
  destruct (hd false _); [done|].
  destruct (find_user_by_email e (db w)) as [[u d']|] eqn:Hfind; simpl; [|done].
  destruct (bcrypt_compare _ _); [|done]. simpl. intros [= <- <- <-].
  pose proof (find_user_by_email_db _ _ _ _ Hfind) as ->. by exists e, p, u.
Qed.

End Behaviour.

(** ** Witnesses, with the symbolic libraries. *)

Lemma Signup_Login_roundtrip_witness :
  (Login ex_is_email ex_cfg (ex_creds "a@x.io" "password2")
     (Signup ex_is_email ex_cfg 7 (ex_creds "a@x.io" "password1") ex_acc_world).2).1 =
  mkAuthResp 401 (AError "Invalid credentials").
Proof.
  destruct (Signup_Login_roundtrip ex_is_email ex_cfg 7 (ex_creds "a@x.io" "password1") (ex_creds "a@x.io" "password2")
              ex_acc_world (GenerateJWT "uuid-1" (JWTSecret ex_cfg) 100) "uuid-1" "a@x.io" "password2")
    as (pw & Hpw & ->); [vm_compute; reflexivity..|].
  vm_compute in Hpw. injection Hpw as <-. vm_compute. reflexivity.
Defined.

Lemma Signup_existing_email_witness :
  (Signup ex_is_email ex_cfg 7 (ex_creds "a@x.io" "password2")
     (Signup ex_is_email ex_cfg 7 (ex_creds "a@x.io" "password1") ex_acc_world).2).1 =
  mkAuthResp 409 (AError "User already exists").
Proof.
  apply (Signup_existing_email ex_is_email ex_cfg 7 _ _ "a@x.io" "password2");
    [vm_compute; reflexivity..| |vm_compute; reflexivity].
  vm_compute. left.
Defined.

Lemma Signup_long_password_witness :
  (Signup ex_is_email ex_cfg 7 (ex_creds "a@x.io" ex_long_password) ex_acc_world).1 =
  mkAuthResp 500 (AError "Failed to hash password").
Proof.
  apply (Signup_long_password ex_is_email ex_cfg 7 _ ex_acc_world "a@x.io" ex_long_password);
    [vm_compute; reflexivity..|vm_compute; lia|vm_compute; intros Hin; inversion Hin].
Defined.
