(* ===== verification/Auth.v ===== *)
(** * Authentication: src/internal/middleware/auth.go and the protected routes

    AuthMiddleware reads the Authorization header, strips an optional
    "Bearer " prefix, verifies the token with VerifyJWT and stores the
    token's subject as the gin context's userID; a missing header or an
    invalid token aborts with 401.  The API server (src/cmd/api/main.go,
    lines 80-88) runs the four website handlers behind it, so the user
    id every website handler sees is the subject of a token the
    middleware accepted.  The middleware's clock is the world's clock.
    The text of the verification error appended to "Invalid token: "
    is not modelled. *)

From S2P Require Import Prelude Json Store Hub Jwt Config Account WebsiteApi.

(** strings.TrimPrefix(s, prefix). *)
Definition trim_prefix (prefix s : string) : string :=
  if String.prefix prefix s
  then String.substring (String.length prefix) (String.length s - String.length prefix) s
  else s.

Definition bearer : string := "Bearer ".

(** The outcome of the middleware: abort (missing header, invalid
    token) or c.Next() with the stored user id. *)
Inductive AuthOutcome := AbortMissing | AbortInvalid (e : JwtError) | Next (userID : string).

(** The protected website routes (main.go lines 84-87). *)
Inductive WebsiteRoute :=
| WCreate (req : raw)
| WList
| WStatus (websiteId : string)
| WDelete (req : raw).

Section Middleware.
Context `{!JwtLib}.

(** AuthMiddleware (lines 11-40).  The test [token == authHeader]
    (lines 23-26) assigns the value the token already has. *)
Definition AuthMiddleware (jwtSecret authHeader : string) (now : Z) : AuthOutcome :=
  if bool_decide (authHeader = "") then AbortMissing
  else
    let token := trim_prefix bearer authHeader in
    match VerifyJWT token jwtSecret now with
    | inl e => AbortInvalid e
    | inr userID => Next userID
    end.

Variable is_url : string -> bool.

(** The handler of each protected route, given the stored user id. *)
Definition website_handler (userID : string) (r : WebsiteRoute) : ST World WebResp :=
  match r with
  | WCreate req => CreateWebsite is_url (Some userID) req
  | WList => GetWebsites userID
  | WStatus wid => GetWebsiteStatus userID wid
  | WDelete req => DeleteWebsite userID req
  end.

(** The protected group (main.go lines 80-88): the middleware, then the
    route's handler. *)
Definition serve_protected (cfg : Config) (authHeader : string) (r : WebsiteRoute) : ST World WebResp :=
  let* t := now in
  match AuthMiddleware (JWTSecret cfg) authHeader t with
  | AbortMissing => st_ret (mkWebResp 401 (BError "Authorization header required"))
  | AbortInvalid _ => st_ret (mkWebResp 401 (BError "Invalid token"))
  | Next userID => website_handler userID r
  end.

End Middleware.

(** ** Lemmas. *)

Lemma substring_all s : String.substring 0 (String.length s) s = s.
Proof. induction s as [|c s IH]; simpl; [done|by rewrite IH]. Qed.

Lemma prefix_app p x : String.prefix p (p +:+ x) = true.
Proof.
  induction p as [|c p IH]; simpl; [by destruct x|].
  by destruct (Ascii.ascii_dec c c).
Qed.

Lemma substring_app p x :
  String.substring (String.length p) (String.length (p +:+ x) - String.length p) (p +:+ x) = x.
Proof. induction p as [|c p IH]; simpl; [rewrite Nat.sub_0_r; apply substring_all|exact IH]. Qed.

Lemma trim_prefix_app p x : trim_prefix p (p +:+ x) = x.
Proof. unfold trim_prefix. rewrite prefix_app. apply substring_app. Qed.

Lemma bearer_nonempty x : bearer +:+ x <> "".
Proof. unfold bearer. simpl. discriminate. Qed.

Section Properties.
Context `{!JwtLib}.
Variable is_url : string -> bool.

Lemma AuthMiddleware_GenerateJWT k uid t0 now :
  (now < t0 + 24 * 3600)%Z -> AuthMiddleware k (bearer +:+ GenerateJWT uid k t0) now = Next uid.
Proof.
  intros Hn. unfold AuthMiddleware. rewrite bool_decide_eq_false_2 by apply bearer_nonempty.
  cbv zeta. by rewrite trim_prefix_app, VerifyJWT_GenerateJWT.
Qed.

Lemma serve_protected_run cfg hdr r w :
  serve_protected is_url cfg hdr r w =
    match AuthMiddleware (JWTSecret cfg) hdr (clock w) with
    | AbortMissing => (mkWebResp 401 (BError "Authorization header required"), w)
    | AbortInvalid _ => (mkWebResp 401 (BError "Invalid token"), w)
    | Next uid => website_handler is_url uid r w
    end.
Proof. unfold serve_protected, st_bind, now. simpl. by destruct (AuthMiddleware _ _ _). Qed.

(** C35. A session token Login issues authenticates its user: when
    Login answers 200 with a token, an id and an email, the id and email
    are those of a stored user, and the middleware accepts the header
    "Bearer <token>" as that id at every time before the token's expiry,
    24 hours after the login. *)
Theorem Login_token_authenticates is_email cfg req w t id em now' :
  (Login is_email cfg req w).1 = mkAuthResp 200 (ASession t id em) ->
  (now' < clock w + 24 * 3600)%Z ->
  AuthMiddleware (JWTSecret cfg) (bearer +:+ t) now' = Next id /\
  exists u, u ∈ (map_to_list (users (db w))).*2 /\ User.ID u = id /\ User.Email u = em.
Proof.
  intros Hl Hn. destruct (Login_session is_email cfg req w t id em Hl)
    as (email & pw & u & _ & Hfind & Hid & Hem & ->).
  split; [by apply AuthMiddleware_GenerateJWT|].
  exists u. split_and!; [|done|done]. by apply find_user_by_email_found in Hfind as [? _].
Qed.

(** C36. Every protected website handler runs as the subject of a token
    signed with the configured secret: serve_protected either answers
    401 and leaves the world as it was, or the header's token (with
    "Bearer " stripped) was signed by an HMAC method under JWTSecret,
    names a user id in a string sub claim, passes the expiry checks at
    the world's clock, and the route's handler runs as that user id. *)
Theorem serve_protected_authenticated cfg hdr r w :
  ((serve_protected is_url cfg hdr r w).1 = mkWebResp 401 (BError "Authorization header required") /\
   (serve_protected is_url cfg hdr r w).2 = w) \/
  ((serve_protected is_url cfg hdr r w).1 = mkWebResp 401 (BError "Invalid token") /\
   (serve_protected is_url cfg hdr r w).2 = w) \/
  exists uid m c,
    is_hmac m = true /\ trim_prefix bearer hdr = jwt_sign m (JWTSecret cfg) c /\
    c !! "sub" = Some (CStr uid) /\ claims_valid (clock w) c = true /\
    serve_protected is_url cfg hdr r w = website_handler is_url uid r w.
Proof.
  rewrite serve_protected_run. unfold AuthMiddleware.
  case_bool_decide; [by left|]. cbv zeta.
  destruct (VerifyJWT _ _ _) as [e|uid] eqn:Hv; [by right; left|].
  right; right. apply VerifyJWT_sound in Hv as (m & c & ? & ? & ? & ?). by exists uid, m, c.
Qed.

(** C38. With JWT_SECRET unset or empty the server signs and verifies
    tokens with the constant of config.go, so anyone can mint a token
    for any user id: for every victim id, route and world, the header
    "Bearer " followed by GenerateJWT(victim, the default secret, t0),
    computed without any server state, runs the route's handler as the
    victim while the clock is within 24 hours of t0. *)
Theorem default_secret_forgery env victim t0 r w :
  (env !! "JWT_SECRET" = None \/ env !! "JWT_SECRET" = Some "") ->
  (clock w < t0 + 24 * 3600)%Z ->
  serve_protected is_url (Load env) (bearer +:+ GenerateJWT victim default_jwt_secret t0) r w =
    website_handler is_url victim r w.
Proof.
  intros He Hc. rewrite serve_protected_run. simpl. rewrite getEnv_unset by done.
  by rewrite AuthMiddleware_GenerateJWT.
Qed.

End Properties.

(** ** Witnesses, with the symbolic JWT library. *)

Lemma Login_token_authenticates_witness :
  AuthMiddleware (JWTSecret ex_cfg) (bearer +:+ GenerateJWT "uuid-1" (JWTSecret ex_cfg) 100) 200 = Next "uuid-1".
Proof.
  apply (Login_token_authenticates ex_is_email ex_cfg (ex_creds "a@x.io" "password1")
           (Signup ex_is_email ex_cfg 7 (ex_creds "a@x.io" "password1") ex_acc_world).2
           (GenerateJWT "uuid-1" (JWTSecret ex_cfg) 100) "uuid-1" "a@x.io" 200);
    [vm_compute; reflexivity|vm_compute; reflexivity].
Defined.

Lemma default_secret_forgery_witness :
  websites (db (serve_protected (fun _ => true) (Load ∅) (bearer +:+ GenerateJWT "u2" default_jwt_secret 0)
                  (WDelete (ex_delete "W2")) ex_web_world).2) !! "W2" =
  Some (disabled (ex_site "W2" "https://b.example" "u2" 2)).
Proof.
  rewrite (default_secret_forgery (fun _ => true) ∅ "u2" 0 (WDelete (ex_delete "W2")) ex_web_world);
    [vm_compute; reflexivity|left; reflexivity|vm_compute; reflexivity].
Defined.
