(* ===== verification/System.v ===== *)
(** * The whole system: hub, API and worker over one database and queue

    The processes of the program run concurrently and share the
    Postgres database and the RabbitMQ queue; their operations are
    atomic only at the granularity the code gives them.  A system state
    [Sys] holds the hub's maps, the shared [World], the Solana node and
    the platform wallet; [step] is one operation of one process:

    - the hub handles one frame on some connection (any frame: a
      validator agent, well-behaved or not, can send anything), closes a
      connection, or runs one tick of its monitoring loop;
    - the API runs RequestPayout or GetValidatorBalance, a protected
      website route behind the JWT middleware, Signup or Login (with any
      JWT and bcrypt library satisfying their laws, any validators for
      urls and emails, any configuration and any bcrypt salt);
    - the worker takes the head of the queue ([deliver]).

    The ledger of a validator is its pending credit, plus the amounts
    queued for it, plus the amounts of its payouts whose transaction was
    submitted (they carry a signature), minus COST_PER_VALIDATION per
    recorded tick.  With a reliable database and queue, no step ever
    raises it: the system never owes or pays a validator more than its
    recorded work earned. *)

From S2P Require Import Prelude Float64 Json Store Frame Hub Payout Worker WebsiteApi Jwt Config Account Auth.

Record Sys := mkSys { shub : Hub; sworld : World; schain : Chain; swallet : string }.

Definition hub_run (m : ST HubProc unit) (s : Sys) : Sys :=
  let p := exec m (mkHubProc (shub s) (sworld s)) in mkSys (hub p) (world p) (schain s) (swallet s).
Definition api_run {A} (m : ST World A) (s : Sys) : Sys :=
  mkSys (shub s) (exec m (sworld s)) (schain s) (swallet s).
Definition worker_run (m : ST WorkerProc unit) (s : Sys) : Sys :=
  let p := exec m (mkWorkerProc (swallet s) (sworld s) (schain s)) in
  mkSys (shub s) (wworld p) (chain p) (swallet s).

Inductive step : Sys -> Sys -> Prop :=
| step_frame c f s : step s (hub_run (handle_frame c f) s)
| step_close c s : step s (hub_run (removeValidator c) s)
| step_tick s : step s (hub_run monitor_tick s)
| step_payout id s : step s (api_run (RequestPayout id) s)
| step_balance id s : step s (api_run (GetValidatorBalance id) s)
| step_deliver s : step s (worker_run deliver s)
| step_website `{!JwtLib} (is_url : string -> bool) cfg hdr r s :
    step s (api_run (serve_protected is_url cfg hdr r) s)
| step_signup `{!JwtLib} `{!Bcrypt} (is_email : string -> bool) cfg salt req s :
    step s (api_run (Signup is_email cfg salt req) s)
| step_login `{!JwtLib} `{!Bcrypt} (is_email : string -> bool) cfg req s :
    step s (api_run (Login is_email cfg req) s).

(** The same steps as a function of a label: the system is
    deterministic once the operation and its input are chosen. *)
Inductive Label :=
| LFrame (c : nat) (f : raw)
| LClose (c : nat)
| LTick
| LPayout (id : string)
| LBalance (id : string)
| LDeliver
| LWebsite (J : JwtLib) (is_url : string -> bool) (cfg : Config) (hdr : string) (r : WebsiteRoute)
| LSignup (J : JwtLib) (B : Bcrypt) (is_email : string -> bool) (cfg : Config) (salt : nat) (req : raw)
| LLogin (J : JwtLib) (B : Bcrypt) (is_email : string -> bool) (cfg : Config) (req : raw).

Definition sys_step (l : Label) (s : Sys) : Sys :=
  match l with
  | LFrame c f => hub_run (handle_frame c f) s
  | LClose c => hub_run (removeValidator c) s
  | LTick => hub_run monitor_tick s
  | LPayout id => api_run (RequestPayout id) s
  | LBalance id => api_run (GetValidatorBalance id) s
  | LDeliver => worker_run deliver s
  | LWebsite J is_url cfg hdr r => api_run (serve_protected is_url cfg hdr r) s
  | LSignup J B is_email cfg salt req => api_run (Signup is_email cfg salt req) s
  | LLogin J B is_email cfg req => api_run (Login is_email cfg req) s
  end.

Definition run (ls : list Label) (s : Sys) : Sys := fold_left (fun s l => sys_step l s) ls s.

(** The callback id a frame replies to, if it is a decodable reply. *)
Definition reply_id (f : raw) : option string :=
  match unmarshal_ok (decode_IncomingMessage f) with
  | Some msg =>
      if bool_decide (IncomingMessage.Type' msg = "validate")
      then ValidateIncoming.CallbackID <$> unmarshal_ok (decode_ValidateIncoming (IncomingMessage.Data msg))
      else None
  | None => None
  end.

Definition answers (cid : string) (l : Label) : bool :=
  match l with LFrame _ f => bool_decide (reply_id f = Some cid) | _ => false end.

(** ** The ledger. *)
Definition settled_amount (id : string) (p : PayoutTransaction) : Z :=
  if bool_decide (PayoutTransaction.ValidatorID p = id /\ PayoutTransaction.TxSignature p <> "")
  then PayoutTransaction.Amount p else 0%Z.

Definition settled (d : DB) (id : string) : Z :=
  sumZ (settled_amount id) (map_to_list (payouts d)).*2.

Definition ledger (w : World) (id : string) : Z :=
  (owed w id + settled (db w) id - COST_PER_VALIDATION * Z.of_nat (ticks_of (db w) id))%Z.

Definition queue_nonneg (q : list json) : Prop :=
  Forall (fun m => forall id, (0 <= queued_amount id m)%Z) q.

(** A reliable world: no fault will occur, the validators table is keyed
    by id, and no queued request has a negative amount. *)
Definition reliable (w : World) : Prop :=
  faults w = [] /\ validators_keyed (db w) /\ queue_nonneg (queue w).

(** What reading the credit of [id] into a float64 adds to it, when
    the credit is positive (RequestPayout queues the value read). *)
Definition read_error (d : DB) (id : string) : Z :=
  if (0 <? pending_of d id)%Z then (round_f64 (pending_of d id) - pending_of d id)%Z else 0%Z.

(** Every credit reads exactly as a float64 (at most 2^53 lamports). *)
Definition credits_exact (w : World) : Prop :=
  map_Forall (fun _ v => pending_f64 v = Validator.PendingPayouts v) (validators (db w)).
#[export] Instance credits_exact_dec w : Decision (credits_exact w).
Proof. unfold credits_exact. apply _. Defined.

(** What a step may do to the world: keep it reliable, and not raise
    any validator's ledger. *)
Definition improves (w w' : World) : Prop :=
  reliable w -> reliable w' /\ forall id, (ledger w' id <= ledger w id)%Z.

(** Whether executeSolanaTransfer sends the transfer of a request: the
    recipient key parses and neither RPC call fails. *)
Definition transfer_sent (req : PayoutRequest) (s : WorkerProc) : bool :=
  PublicKeyFromBase58_ok (PayoutRequest.PublicKey req) && negb (hd false (rpc_faults (chain s))) &&
  negb (hd false (tail (rpc_faults (chain s)))).

(** What the delivery of an accepted request loses for a validator: the
    amount of a transfer that was not sent, when the refund would take
    the credit [vd] of the validator out of the decimal(20,2) range. *)
Definition refund_lost (req : PayoutRequest) (vd : Validator) (s : WorkerProc) (id : string) : Z :=
  if bool_decide (PayoutRequest.ValidatorID req = id) && negb (transfer_sent req s) &&
     negb (decimal_20_2_ok (Validator.PendingPayouts vd + PayoutRequest.Amount req))
  then PayoutRequest.Amount req else 0%Z.

(** [d'] is [d] with one new validator row, with no credit. *)
Definition new_validator_row (d d' : DB) : Prop :=
  exists v, validators d !! Validator.ID v = None /\ Validator.PendingPayouts v = 0%Z /\
    d' = set_validators (<[Validator.ID v := v]> (validators d)) d.

(** What the worker may do to the database: never touch the ticks, and
    keep the validators table keyed by id. *)
Definition worker_db : relation DB := fun d d' =>
  ticks d' = ticks d /\ (validators_keyed d -> validators_keyed d').

(** What the website and account handlers may do to the database:
    leave the tables the ledger reads (validators, ticks, payouts)
    alone. *)
Definition ledger_db : relation DB := fun d d' =>
  validators d' = validators d /\ ticks d' = ticks d /\ payouts d' = payouts d.

(** The example system: the hub's example configuration, an idle
    Solana node and the platform wallet. *)
Definition ex_sys : Sys := mkSys (hub ex_hubproc) (world ex_hubproc) (mkChain [] 0 [] []) "wallet".

(** Validator V1 disconnects; the hub keeps ticking; the API and the
    worker run. *)
Definition ex_after_disconnect : list Label := [LClose 7; LTick; LPayout "V1"; LDeliver].

(** A validator reply for the outstanding probe, then a payout request. *)
Definition ex_trace_end : Sys :=
  api_run (RequestPayout "V1") (hub_run (handle_frame 7 (ex_frame "validate" (ex_reply "Good"))) ex_sys).

(** The relation between queues that relates any two. *)
Definition any_queue : relation (list json) := fun _ _ => True.

(** ** Frames of the hub's and the worker's own state changes. *)

Lemma keeps_modify_hub (R : wrel) `{!PreOrder R} f : keeps (S:=HubProc) R (modify_hub f).
Proof. intros s. reflexivity. Qed.

Lemma keeps_db_exec_any Rq `{!PreOrder Rq} {A} (stmt : DB -> result (A * DB)) :
  keeps (S:=World) (frame Rq any_db) (db_exec stmt).
Proof. apply keeps_db_exec; [apply _..|done]. Qed.

#[export] Hint Resolve keeps_modify_hub keeps_db_exec_any : keeps.

Lemma handle_frame_frame c f : keeps (S:=HubProc) (frame eq any_db) (handle_frame c f).
Proof.
  unfold handle_frame, handleSignup, handleValidate, find_or_create, run_callback. keeps_solve.
Qed.

Lemma removeValidator_world c s : world (exec (removeValidator c) s) = world s.
Proof. done. Qed.

Lemma monitor_tick_frame : keeps (S:=HubProc) (frame eq eq) monitor_tick.
Proof.
  unfold monitor_tick, dispatch_one. keeps_solve.
  apply keeps_db_exec; [apply _..|]. by intros ? ? ? [= _ <-].
Qed.

Lemma find_or_create_db su w :
  db (exec (find_or_create su) w) = db w \/ new_validator_row (db w) (db (exec (find_or_create su) w)).
Proof.
  unfold find_or_create, exec, st_bind. rewrite db_exec_eq.
  destruct (hd false (faults w)); [by left|].
  destruct (find_validator_by_pubkey _ _); simpl; [by left|].
  rewrite db_exec_eq. destruct (hd false _); simpl; [by left|].
  unfold create_validator; simpl.
  destruct (validators (db w) !! _) eqn:Hid; [by left|].
  destruct (find_validator_by_pubkey _ _); simpl; [by left|].
  right. exists (Validator.mkValidator (uuid_string (next_uuid w)) (SignupIncoming.PublicKey su)
                  "unknown" (SignupIncoming.IP su) 0 (clock w)).
  split_and!; [exact Hid|done|done].
Qed.

Lemma handleSignup_db c data s :
  db (world (exec (handleSignup c data) s)) = db (world s) \/
  new_validator_row (db (world s)) (db (world (exec (handleSignup c data) s))).
Proof.
  unfold handleSignup. destruct (unmarshal_ok _) as [su|]; [|by left].
  rewrite exec_bind. set (s1 := exec (lift (find_or_create su)) s).
  assert (Hd : db (world s1) = db (world s) \/ new_validator_row (db (world s)) (db (world s1))).
  { pose proof (exec_lift (S:=HubProc) (find_or_create su) s) as Hl. simpl in Hl.
    unfold s1. rewrite Hl. apply find_or_create_db. }
  destruct (eval _ s) as [v|]; [|exact Hd].
  match goal with |- context [exec ?m s1] =>
    assert (Hk : keeps (S:=HubProc) (frame eq eq) m) by keeps_solve;
    destruct (Hk s1) as (_ & _ & Hd') end.
  simpl in Hd'. by rewrite <- Hd'.
Qed.

Lemma handle_frame_db c f s :
  let d := db (world s) in let d' := db (world (exec (handle_frame c f) s)) in
  d' = d \/ (exists vid, credited d d' vid) \/ new_validator_row d d'.
Proof.
  unfold handle_frame. destruct (unmarshal_ok _) as [msg|]; [|by left].
  case_bool_decide; [destruct (handleSignup_db c (IncomingMessage.Data msg) s); tauto|].
  case_bool_decide; [|by left].
  destruct (handleValidate_db (IncomingMessage.Data msg) s); tauto.
Qed.

(** ** The ledger under each kind of database change. *)

Lemma ledger_split w id :
  ledger w id = (ledger_gap (db w) id + queued_for (queue w) id + settled (db w) id)%Z.
Proof. unfold ledger, owed, ledger_gap. lia. Qed.

Lemma credited_ledger w w' vid id :
  queue w' = queue w -> credited (db w) (db w') vid -> ledger w' id = ledger w id.
Proof.
  intros Hq Hc. rewrite !ledger_split, Hq, (credited_gap _ _ _ id Hc).
  destruct Hc as (_ & _ & _ & _ & _ & _ & _ & _ & Hp). unfold settled. by rewrite Hp.
Qed.

Lemma new_validator_row_ledger w w' id :
  queue w' = queue w -> new_validator_row (db w) (db w') -> ledger w' id = ledger w id.
Proof.
  intros Hq (v & Hnone & Hp & Hd). unfold ledger, owed, settled, ticks_of. rewrite Hq, Hd. simpl.
  f_equal. f_equal. f_equal. unfold pending_of. simpl.
  destruct (decide (Validator.ID v = id)) as [<-|Hne].
  - by rewrite lookup_insert_eq, Hnone.
  - by rewrite lookup_insert_ne.
Qed.

Lemma credited_keyed d d' vid : validators_keyed d -> credited d d' vid -> validators_keyed d'.
Proof.
  intros Hk (t & v & _ & _ & Hv & Hvs & _). unfold validators_keyed. rewrite Hvs.
  apply map_Forall_insert_2; [|done]. simpl. exact (Hk _ _ Hv).
Qed.

Lemma new_validator_row_keyed d d' : validators_keyed d -> new_validator_row d d' -> validators_keyed d'.
Proof.
  intros Hk (v & _ & _ & ->). unfold validators_keyed. simpl. by apply map_Forall_insert_2.
Qed.

(** ** Each process's steps improve the world. *)

#[export] Instance ledger_db_preorder : PreOrder ledger_db.
Proof. split; [done|]. intros d1 d2 d3 (? & ? & ?) (? & ? & ?). split_and!; congruence. Qed.

Lemma improves_ledger_frame w w' :
  frame eq ledger_db w w' -> improves w w'.
Proof.
  intros (Hq & Hf & Hv & Ht & Hp) (Hf0 & Hk & Hn).
  unfold reliable, ledger, owed, settled, ticks_of, pending_of, validators_keyed in *.
  rewrite <- Hq, Hv, Ht, Hp. split_and!; auto. intros. lia.
Qed.

Lemma improves_frame w w' :
  frame eq eq w w' -> improves w w'.
Proof.
  intros (Hq & Hf & Hd). apply improves_ledger_frame. split_and!; [done|done|]. unfold ledger_db. by rewrite Hd.
Qed.

Lemma handle_frame_improves c f s :
  improves (world s) (world (exec (handle_frame c f) s)).
Proof.
  destruct (handle_frame_frame c f s) as (Hq & Hf & _). simpl in Hq, Hf.
  intros (Hf0 & Hk & Hn). unfold reliable. rewrite <- Hq.
  destruct (handle_frame_db c f s) as [Hd|[[vid Hc]|Hr]]; simpl in *.
  - split_and!; auto; [by rewrite Hd|]. intros id. unfold ledger, owed, settled, ticks_of, pending_of.
    rewrite <- Hq, Hd. lia.
  - split_and!; eauto using credited_keyed. intros id. by rewrite (credited_ledger (world s) _ vid id (eq_sym Hq) Hc).
  - split_and!; eauto using new_validator_row_keyed. intros id. by rewrite (new_validator_row_ledger (world s) _ id (eq_sym Hq) Hr).
Qed.

Lemma monitor_tick_improves s : improves (world s) (world (exec monitor_tick s)).
Proof. apply improves_frame, monitor_tick_frame. Qed.

#[export] Instance any_queue_preorder : PreOrder any_queue.
Proof. split; by repeat intro. Qed.

Lemma keeps_publish Rd `{!PreOrder Rd} m : keeps (S:=World) (frame any_queue Rd) (publish m).
Proof.
  intros w. unfold exec. rewrite publish_eq. destruct (hd false _); [by apply drop_fault_frame|].
  pose proof (drop_fault_frame any_queue Rd w) as (_ & Hf & Hd). by split_and!.
Qed.

#[export] Hint Resolve keeps_publish : keeps.

Lemma RequestPayout_frame id : keeps (S:=World) (frame any_queue any_db) (RequestPayout id).
Proof. unfold RequestPayout. keeps_solve. Qed.

Lemma GetValidatorBalance_frame id : keeps (S:=World) (frame eq eq) (GetValidatorBalance id).
Proof.
  unfold GetValidatorBalance. keeps_solve. apply keeps_db_exec; [apply _..|].
  unfold find_validator. intros d a d'. destruct (validators d !! id); congruence.
Qed.

Lemma queue_nonneg_snoc q m : queue_nonneg q -> (forall id, (0 <= queued_amount id m)%Z) -> queue_nonneg (q ++ [m]).
Proof. intros Hq Hm. apply Forall_app. by split; [|constructor]. Qed.

Lemma read_error_nonpos d id : (pending_of d id <= 0)%Z -> read_error d id = 0%Z.
Proof. unfold read_error. intros H. by rewrite (proj2 (Z.ltb_ge _ _) H). Qed.

(** In a reliable world a payout request keeps the world reliable and
    the payouts table, and moves the ledger of the requesting validator
    by the rounding of its credit to a float64. *)
Lemma RequestPayout_reliable id w :
  reliable w ->
  reliable (exec (RequestPayout id) w) /\ payouts (db (exec (RequestPayout id) w)) = payouts (db w) /\
  forall id', ledger (exec (RequestPayout id) w) id' =
              (ledger w id' + if bool_decide (id = id') then read_error (db w) id else 0)%Z.
Proof.
  intros (Hf & Hk & Hn).
  destruct (validators (db w) !! id) as [v|] eqn:Hv;
    [destruct (decide (0 < Validator.PendingPayouts v)%Z) as [Hp|Hp]|].
  2,3: assert (Hle : (pending_of (db w) id <= 0)%Z) by (unfold pending_of; rewrite Hv; lia);
    pose proof (RequestPayout_spec id w Hk) as Hs; destruct (RequestPayout_frame id w) as (_ & Hf' & _);
    unfold exec in *; destruct (RequestPayout id w) as [r w'] eqn:He; simpl in *;
    destruct Hs as [(Hq & Hd & _)|(v' & Hv' & Hp' & _)]; [|congruence];
    unfold reliable, ledger, owed, settled, ticks_of; rewrite Hq, Hd;
    split_and!; auto; intros id'; rewrite read_error_nonpos by exact Hle; case_bool_decide; lia.
  unfold exec. rewrite (RequestPayout_no_fault id w v Hk Hf Hv Hp). unfold reliable. simpl. split_and!.
  - done.
  - unfold validators_keyed. simpl. apply map_Forall_insert_2; [|done]. exact (Hk _ _ Hv).
  - apply queue_nonneg_snoc; [done|]. intros id'. rewrite queued_amount_encode.
    pose proof (proj2 (round_f64_pos (Validator.PendingPayouts v)) Hp). unfold pending_f64.
    case_bool_decide; simpl; lia.
  - done.
  - intros id'. unfold ledger, owed, settled, ticks_of, read_error. simpl.
    rewrite pending_of_insert, queued_for_encode, (pending_of_lookup _ _ _ Hv).
    rewrite (proj2 (Z.ltb_lt _ _) Hp). unfold pending_f64.
    case_bool_decide; subst; [rewrite (pending_of_lookup _ _ _ Hv)|]; lia.
Qed.

Lemma RequestPayout_improves id w : pending_exact (db w) id -> improves w (exec (RequestPayout id) w).
Proof.
  intros Hx Hr. destruct (RequestPayout_reliable id w Hr) as (? & _ & Hl). split; [done|].
  intros id'. rewrite Hl. unfold read_error, pending_exact in *. rewrite Hx, Z.sub_diag.
  case_bool_decide; [destruct (0 <? _)%Z|]; lia.
Qed.

Lemma credits_exact_pending w id : credits_exact w -> pending_exact (db w) id.
Proof.
  intros Hx. unfold pending_exact, pending_of.
  destruct (validators (db w) !! id) as [v|] eqn:Hv; [exact (Hx _ _ Hv)|apply round_f64_0].
Qed.

(** ** The worker. *)

#[export] Instance worker_db_preorder : PreOrder worker_db.
Proof. split; [by intros d|]. intros d1 d2 d3 [H1 K1] [H2 K2]. split; [congruence|auto]. Qed.

Lemma keeps_on_chain (R : wrel) `{!PreOrder R} {A} (m : ST Chain A) : keeps (S:=WorkerProc) R (on_chain m).
Proof. intros s. unfold on_chain, exec. destruct (m (chain s)). reflexivity. Qed.

Lemma worker_db_update_pending id f d a d' : update_pending id f d = Ok (a, d') -> worker_db d d'.
Proof.
  intros Hu. apply update_pending_Ok in Hu as [[_ [= _ ->]]|(v & Hv & _ & [= _ ->])]; [done|].
  split; [done|]. intros Hk. unfold validators_keyed. simpl. apply map_Forall_insert_2; [|done].
  exact (Hk _ _ Hv).
Qed.

Lemma worker_db_create_payout p d a d' : create_payout p d = Ok (a, d') -> worker_db d d'.
Proof. unfold create_payout. case_match; [|done]. by intros [= _ <-]. Qed.

Lemma worker_db_update_payout id f d a d' : update_payout id f d = Ok (a, d') -> worker_db d d'.
Proof. unfold update_payout. case_match; by intros [= _ <-]. Qed.

#[export] Hint Resolve keeps_on_chain : keeps.

Lemma processPayoutRequest_frame body : keeps (S:=WorkerProc) (frame eq worker_db) (processPayoutRequest body).
Proof.
  unfold processPayoutRequest, executeSolanaTransfer, waitForConfirmation. keeps_solve;
    apply keeps_db_exec; eauto using worker_db_update_pending, worker_db_create_payout,
      worker_db_update_payout with typeclass_instances.
Qed.

Lemma settled_insert_fresh d d' k p id :
  payouts d' = <[k := p]> (payouts d) -> payouts d !! k = None ->
  settled d' id = (settled d id + settled_amount id p)%Z.
Proof.
  intros Hd Hk. unfold settled. rewrite Hd.
  rewrite (sumZ_Permutation _ _ (p :: (map_to_list (payouts d)).*2)) by (by rewrite map_to_list_insert).
  rewrite sumZ_cons. lia.
Qed.

Lemma settled_amount_unsigned id p : PayoutTransaction.TxSignature p = "" -> settled_amount id p = 0%Z.
Proof. intros Hs. unfold settled_amount. case_bool_decide as H; [by destruct H|done]. Qed.

Lemma settled_amount_signed id p :
  PayoutTransaction.TxSignature p <> "" ->
  settled_amount id p = if bool_decide (PayoutTransaction.ValidatorID p = id) then PayoutTransaction.Amount p else 0%Z.
Proof. intros Hs. unfold settled_amount. case_bool_decide; case_bool_decide; tauto. Qed.

Lemma sig_string_nonempty n : sig_string n <> "".
Proof. discriminate. Qed.

Lemma queued_amount_decoded id body req :
  unmarshal_ok (decode_PayoutRequest (Some body)) = Some req ->
  queued_amount id body = if bool_decide (PayoutRequest.ValidatorID req = id) then PayoutRequest.Amount req else 0%Z.
Proof. unfold queued_amount. by intros ->. Qed.

Lemma transfer_sent_true req s :
  transfer_sent req s = true ->
  PublicKeyFromBase58_ok (PayoutRequest.PublicKey req) = true /\
  hd false (rpc_faults (chain s)) = false /\ hd false (tail (rpc_faults (chain s))) = false.
Proof. unfold transfer_sent. destruct (PublicKeyFromBase58_ok _), (hd false _), (hd false (tail _)); naive_solver. Qed.

Lemma transfer_sent_false req s :
  transfer_sent req s = false ->
  PublicKeyFromBase58_ok (PayoutRequest.PublicKey req) = false \/
  hd false (rpc_faults (chain s)) = true \/ hd false (tail (rpc_faults (chain s))) = true.
Proof. unfold transfer_sent. destruct (PublicKeyFromBase58_ok _), (hd false _), (hd false (tail _)); naive_solver. Qed.

Section Accepted.
Context (body : json) (s : WorkerProc) (req : PayoutRequest) (vd : Validator).
Hypothesis Hdec : unmarshal_ok (decode_PayoutRequest (Some body)) = Some req.
Hypothesis Hfaults : faults (wworld s) = [].
Hypothesis Hval : validators (db (wworld s)) !! PayoutRequest.ValidatorID req = Some vd.
Hypothesis Hamt : decimal_20_2_ok (PayoutRequest.Amount req) = true.
Hypothesis Hfresh : payouts (db (wworld s)) !! uuid_string (next_uuid (wworld s)) = None.

(** A transfer that cannot be sent: the record is marked failed
    (without signature) and the refund is attempted; it fails, and the
    credit stays as it was, exactly when the refunded credit would
    leave the decimal(20,2) range. *)
Lemma processPayoutRequest_failed_ledger id :
  PublicKeyFromBase58_ok (PayoutRequest.PublicKey req) = false \/
    hd false (rpc_faults (chain s)) = true \/ hd false (tail (rpc_faults (chain s))) = true ->
  let '(ack, s') := processPayoutRequest body s in
  ack = NackDrop /\ settled (db (wworld s')) id = settled (db (wworld s)) id /\
  pending_of (db (wworld s')) id = (pending_of (db (wworld s)) id +
     if bool_decide (PayoutRequest.ValidatorID req = id) &&
        decimal_20_2_ok (Validator.PendingPayouts vd + PayoutRequest.Amount req)
     then PayoutRequest.Amount req else 0)%Z.
Proof.
  intros Hfail. destruct s as [wal [d q o n t fs] c].
  cbn [wworld chain faults db next_uuid clock] in *; subst fs.
  unfold processPayoutRequest. rewrite Hdec.
  unfold st_bind, lift, new_uuid, now, st_ret; simpl. rewrite db_exec_eq; simpl.
  rewrite create_payout_eq by (simpl; rewrite ?Hval; done). simpl.
  match goal with |- context [executeSolanaTransfer ?pk ?a ?st] =>
    destruct (executeSolanaTransfer_failed pk a st Hfail) as (err & c' & Hex & _ & _) end.
  rewrite Hex; simpl. rewrite db_exec_eq; simpl.
  rewrite (update_payout_eq _ _ (initial_record req (mkWorld d q o n t []))) by
    (simpl; apply lookup_insert_eq).
  simpl. rewrite db_exec_eq; simpl.
  set (d1 := set_payouts _ _).
  assert (Hs : settled d1 id = settled d id).
  { rewrite (settled_insert_fresh d d1 (uuid_string n) (mark_failed err t (initial_record req
      (mkWorld d q o n t []))) id); [|unfold d1; simpl; by rewrite insert_insert_eq|done].
    rewrite settled_amount_unsigned by done. lia. }
  assert (Hp : pending_of d1 id = pending_of d id) by done.
  unfold update_pending. change (validators d1) with (validators d). rewrite Hval.
  destruct (decimal_20_2_ok (Validator.PendingPayouts vd + PayoutRequest.Amount req)) eqn:Hok; simpl.
  - split_and!; [done|done|]. unfold pending_of. simpl. rewrite andb_true_r.
    case_bool_decide as Heq; [subst; rewrite lookup_insert_eq, Hval; simpl; lia|].
    rewrite lookup_insert_ne by done. lia.
  - split_and!; [done|done|]. rewrite Hp, andb_false_r. lia.
Qed.

(** A sent transfer: the record carries the signature and is marked
    completed or failed; the credit is not touched. *)
Lemma processPayoutRequest_sent_ledger id :
  PublicKeyFromBase58_ok (PayoutRequest.PublicKey req) = true ->
  hd false (rpc_faults (chain s)) = false -> hd false (tail (rpc_faults (chain s))) = false ->
  let '(ack, s') := processPayoutRequest body s in
  ack <> NackRequeue /\ pending_of (db (wworld s')) id = pending_of (db (wworld s)) id /\
  settled (db (wworld s')) id = (settled (db (wworld s)) id +
     if bool_decide (PayoutRequest.ValidatorID req = id) then PayoutRequest.Amount req else 0)%Z.
Proof.
  intros Hpk H1 H2.
  pose proof (processPayoutRequest_sent body s req vd Hdec Hfaults Hval Hamt Hfresh Hpk H1 H2) as Hs.
  destruct (processPayoutRequest body s) as [ack s']. cbv zeta in Hs.
  destruct Hs as (_ & Hv & _ & Hs). unfold pending_of. rewrite Hv.
  destruct (poll_confirmation _ _).1.1; destruct Hs as [-> Hp]; (split; [done|split; [done|]]);
    (erewrite settled_insert_fresh; [|exact Hp|exact Hfresh]);
    rewrite settled_amount_signed by apply sig_string_nonempty; done.
Qed.

(** An accepted request keeps credit plus settled amounts plus the
    queued amount, up to the refund the column bound rejects. *)
Lemma processPayoutRequest_exact id :
  let '(ack, s') := processPayoutRequest body s in
  ack <> NackRequeue /\
  (pending_of (db (wworld s')) id + settled (db (wworld s')) id =
   pending_of (db (wworld s)) id + settled (db (wworld s)) id + queued_amount id body - refund_lost req vd s id)%Z.
Proof.
  rewrite (queued_amount_decoded _ _ req Hdec). unfold refund_lost.
  destruct (transfer_sent req s) eqn:Ht; simpl.
  - destruct (transfer_sent_true req s Ht) as (Hpk & H1 & H2).
    pose proof (processPayoutRequest_sent_ledger id Hpk H1 H2) as H.
    destruct (processPayoutRequest body s) as [ack s']. destruct H as (Ha & Hp & Hs).
    split; [done|]. rewrite Hp, Hs, andb_false_r. simpl. lia.
  - pose proof (processPayoutRequest_failed_ledger id (transfer_sent_false req s Ht)) as H.
    destruct (processPayoutRequest body s) as [ack s']. destruct H as (-> & Hs & Hp).
    split; [done|]. rewrite Hs, Hp, andb_true_r.
    case_bool_decide; destruct (decimal_20_2_ok (Validator.PendingPayouts vd + PayoutRequest.Amount req)); simpl; lia.
Qed.

End Accepted.

(** A record the database refuses (no validator row, amount out of
    range, id taken): the message is requeued and nothing is written. *)
Lemma processPayoutRequest_rejected body s req :
  unmarshal_ok (decode_PayoutRequest (Some body)) = Some req ->
  faults (wworld s) = [] ->
  ~ (is_Some (validators (db (wworld s)) !! PayoutRequest.ValidatorID req) /\
     decimal_20_2_ok (PayoutRequest.Amount req) = true /\
     payouts (db (wworld s)) !! uuid_string (next_uuid (wworld s)) = None) ->
  (processPayoutRequest body s).1 = NackRequeue /\
  db (wworld (processPayoutRequest body s).2) = db (wworld s).
Proof.
  intros Hdec Hf Hno. destruct s as [wal [d q o n t fs] c].
  cbn [wworld chain faults db next_uuid clock] in *; subst fs.
  unfold processPayoutRequest. rewrite Hdec.
  unfold st_bind, lift, new_uuid, now, st_ret; simpl. rewrite db_exec_eq; simpl.
  unfold create_payout. simpl.
  destruct (bool_decide _ && _ && bool_decide _) eqn:Hc; [|done].
  exfalso. apply Hno. apply andb_prop in Hc as [Hc H3]. apply andb_prop in Hc as [H1 H2].
  apply bool_decide_eq_true in H1, H3. done.
Qed.

Lemma processPayoutRequest_ledger body s :
  faults (wworld s) = [] -> (forall id, (0 <= queued_amount id body)%Z) ->
  let '(ack, s') := processPayoutRequest body s in
  (ack = NackRequeue /\ db (wworld s') = db (wworld s)) \/
  (ack <> NackRequeue /\ forall id,
     (pending_of (db (wworld s')) id + settled (db (wworld s')) id <=
      pending_of (db (wworld s)) id + settled (db (wworld s)) id + queued_amount id body)%Z).
Proof.
  intros Hf Hnn. destruct (unmarshal_ok (decode_PayoutRequest (Some body))) as [req|] eqn:Hdec.
  2: { unfold processPayoutRequest. rewrite Hdec. simpl. right. split; [done|]. intros id.
       unfold queued_amount. rewrite Hdec. lia. }
  destruct (decide (is_Some (validators (db (wworld s)) !! PayoutRequest.ValidatorID req) /\
     decimal_20_2_ok (PayoutRequest.Amount req) = true /\
     payouts (db (wworld s)) !! uuid_string (next_uuid (wworld s)) = None)) as [([vd Hval] & Hamt & Hfresh)|Hno].
  2: { destruct (processPayoutRequest_rejected body s req Hdec Hf Hno) as [Ha Hd].
       destruct (processPayoutRequest body s). by left. }
  assert (Hpos : forall id, PayoutRequest.ValidatorID req = id -> (0 <= PayoutRequest.Amount req)%Z).
  { intros id <-. specialize (Hnn (PayoutRequest.ValidatorID req)).
    rewrite (queued_amount_decoded _ _ req Hdec), bool_decide_eq_true_2 in Hnn by done. done. }
  pose proof (fun id => processPayoutRequest_exact body s req vd Hdec Hf Hval Hamt Hfresh id) as H.
  destruct (processPayoutRequest body s) as [ack s']. right. split; [apply (H "")|].
  intros id. destruct (H id) as [_ ->]. unfold refund_lost.
  case_bool_decide; simpl; [specialize (Hpos id ltac:(done)); destruct (_ && _)|]; lia.
Qed.

Lemma deliver_improves s : improves (wworld s) (wworld (exec deliver s)).
Proof.
  intros (Hf & Hk & Hn). destruct (queue (wworld s)) as [|m rest] eqn:Hq.
  { unfold deliver, exec, st_bind, st_get. simpl. rewrite Hq. simpl. split; [|lia].
    split_and!; [done|done|by rewrite Hq]. }
  apply Forall_cons in Hn as [Hm Hrest].
  destruct (processPayoutRequest_frame m s) as (Hq' & Hf' & Ht & Hk'). unfold exec in Hq', Hf', Ht, Hk'. simpl in *.
  pose proof (processPayoutRequest_ledger m s Hf Hm) as Hl.
  destruct (processPayoutRequest m s) as [ack s'] eqn:Hp. simpl in *.
  destruct Hl as [[-> Hd]|[Ha Hle]].
  - unfold deliver, exec, st_bind, st_get. simpl. rewrite Hq, Hp. simpl.
    unfold reliable, ledger, owed, settled, ticks_of, pending_of. rewrite <- Hq', Hd, Hq.
    split_and!; auto; [by constructor|lia].
  - rewrite (deliver_head s m rest Hq); [|by rewrite Hp|by rewrite Hp; simpl; rewrite <- Hq']. rewrite Hp. simpl.
    unfold reliable, ledger, owed, ticks_of. simpl. rewrite Hq, Ht.
    split_and!; auto. intros id. specialize (Hle id). unfold queued_for in *. rewrite sumZ_cons. lia.
Qed.

(** Settlement loses money in exactly one way: with a reliable
    world, when the worker takes from the head of the queue a request
    for an existing validator with an amount in range, and the payout
    id it draws is fresh, every validator's ledger after the delivery
    equals its ledger before, except that a transfer that was not sent
    and whose refund the decimal(20,2) column rejects (an error the
    worker ignores) takes its amount out of the requesting validator's
    ledger. *)
Theorem deliver_ledger_exact s m rest req vd id :
  reliable (wworld s) -> queue (wworld s) = m :: rest ->
  unmarshal_ok (decode_PayoutRequest (Some m)) = Some req ->
  validators (db (wworld s)) !! PayoutRequest.ValidatorID req = Some vd ->
  decimal_20_2_ok (PayoutRequest.Amount req) = true ->
  payouts (db (wworld s)) !! uuid_string (next_uuid (wworld s)) = None ->
  ledger (wworld (exec deliver s)) id = (ledger (wworld s) id - refund_lost req vd s id)%Z.
Proof.
  intros (Hf & _ & _) Hq Hdec Hval Hamt Hfresh.
  destruct (processPayoutRequest_frame m s) as (Hq' & _ & Ht & _). unfold exec in Hq', Ht. simpl in *.
  pose proof (processPayoutRequest_exact m s req vd Hdec Hf Hval Hamt Hfresh id) as He.
  destruct (processPayoutRequest m s) as [ack s'] eqn:Hp. simpl in *. destruct He as [Ha He].
  rewrite (deliver_head s m rest Hq); [|by rewrite Hp|by rewrite Hp; simpl; rewrite <- Hq']. rewrite Hp. simpl.
  unfold ledger, owed, ticks_of. simpl. rewrite Hq, Ht. unfold queued_for. rewrite sumZ_cons. lia.
Qed.

(** ** The website and account requests. *)

Ltac ledger_db_stmt :=
  intros ?d ?x ?d' ?Hs;
  unfold create_website, website_status, disable_website, find_user_by_email, create_user in Hs;
  repeat case_match; simplify_eq; unfold ledger_db; simpl; done.

Section ApiSteps.
Context `{!JwtLib} `{!Bcrypt}.

Lemma serve_protected_frame is_url cfg hdr r :
  keeps (S:=World) (frame eq ledger_db) (serve_protected is_url cfg hdr r).
Proof.
  unfold serve_protected, website_handler, CreateWebsite, GetWebsites, GetWebsiteStatus, DeleteWebsite.
  keeps_solve; apply keeps_db_exec; try apply _; ledger_db_stmt. Qed.

Lemma Signup_frame is_email cfg salt req : keeps (S:=World) (frame eq ledger_db) (Signup is_email cfg salt req).
Proof. unfold Signup. keeps_solve; apply keeps_db_exec; try apply _; ledger_db_stmt. Qed.

Lemma Login_frame is_email cfg req : keeps (S:=World) (frame eq ledger_db) (Login is_email cfg req).
Proof. unfold Login. keeps_solve; apply keeps_db_exec; try apply _; ledger_db_stmt. Qed.

End ApiSteps.

(** ** The system invariant. *)

Lemma improves_refl w : improves w w.
Proof. intros H. split; [done|lia]. Qed.

Lemma improves_trans w1 w2 w3 : improves w1 w2 -> improves w2 w3 -> improves w1 w3.
Proof.
  intros H12 H23 H1. destruct (H12 H1) as [H2 L12]. destruct (H23 H2) as [H3 L23].
  split; [done|]. intros id. specialize (L12 id). specialize (L23 id). lia.
Qed.

(** One step keeps a reliable world reliable, and raises no ledger
    when the credits read exactly as float64 values. *)
Lemma step_improves_gen s s' :
  step s s' -> reliable (sworld s) ->
  reliable (sworld s') /\ (credits_exact (sworld s) -> forall id, (ledger (sworld s') id <= ledger (sworld s) id)%Z).
Proof.
  intros Hs Hr.
  assert (Himp : forall w', improves (sworld s) w' -> reliable w' /\
            (credits_exact (sworld s) -> forall id, (ledger w' id <= ledger (sworld s) id)%Z))
    by (intros w' Hi; destruct (Hi Hr); auto).
  destruct Hs as [c f s|c s|s|id s|id s|s| | | ]; simpl in *.
  - apply Himp, (handle_frame_improves c f (mkHubProc _ _)).
  - apply Himp, improves_refl.
  - apply Himp, (monitor_tick_improves (mkHubProc _ _)).
  - split; [apply (RequestPayout_reliable id _ Hr)|].
    intros Hx. apply (RequestPayout_improves id _ (credits_exact_pending _ id Hx) Hr).
  - apply Himp, improves_frame, GetValidatorBalance_frame.
  - apply Himp, (deliver_improves (mkWorkerProc _ _ _)).
  - apply Himp, improves_ledger_frame, serve_protected_frame.
  - apply Himp, improves_ledger_frame, Signup_frame.
  - apply Himp, improves_ledger_frame, Login_frame.
Qed.

Lemma step_reliable s s' : step s s' -> reliable (sworld s) -> reliable (sworld s').
Proof. intros Hs Hr. exact (proj1 (step_improves_gen s s' Hs Hr)). Qed.

(** A step taken while every credit reads exactly as a float64. *)
Definition exact_step (s s' : Sys) : Prop := step s s' /\ credits_exact (sworld s).

Lemma steps_improve s s' : rtc exact_step s s' -> improves (sworld s) (sworld s').
Proof.
  induction 1 as [s|s1 s2 s3 [H Hx] _ IH]; [apply improves_refl|].
  eapply improves_trans; [|exact IH]. intros Hr. destruct (step_improves_gen s1 s2 H Hr) as [? Hl]. auto.
Qed.

(** C1. With a reliable database and queue, in every execution of the
    system (any interleaving of hub frames from any sender, hub ticks
    and disconnections, payout requests and balance queries, website
    requests behind the JWT middleware, signups and logins, and worker
    deliveries against any behaviour of the Solana node) in which every
    credit stays at most 2^53 lamports, so that the handlers read it as
    a float64 without rounding, no validator's ledger ever grows: its
    pending credit plus the amounts queued for it plus its submitted
    payouts never exceed what it held at the start plus 100 lamports
    per tick recorded since. *)
Theorem ledger_never_grows s0 s id :
  reliable (sworld s0) -> rtc exact_step s0 s -> (ledger (sworld s) id <= ledger (sworld s0) id)%Z.
Proof. intros H0 Hr. exact (proj2 (steps_improve s0 s Hr H0) id). Qed.

Lemma ledger_never_grows_witness : (ledger (sworld ex_trace_end) "V1" <= ledger (sworld ex_sys) "V1")%Z.
Proof.
  apply (ledger_never_grows ex_sys ex_trace_end "V1").
  - split_and!; [reflexivity| |constructor]. eapply bool_decide_unpack. vm_compute. exact I.
  - apply (rtc_l _ _ (hub_run (handle_frame 7 (ex_frame "validate" (ex_reply "Good"))) ex_sys));
      [split; [apply step_frame|eapply bool_decide_unpack; vm_compute; exact I]|].
    apply (rtc_l _ _ ex_trace_end); [|apply rtc_refl].
    split; [apply (step_payout "V1")|eapply bool_decide_unpack; vm_compute; exact I].
Defined.

(** ** The callback table across executions. *)

Lemma sys_step_step l s : step s (sys_step l s).
Proof. destruct l; constructor. Qed.

Lemma run_rtc ls s : rtc step s (run ls s).
Proof.
  revert s. induction ls as [|l ls IH]; intros s; simpl; [apply rtc_refl|].
  eapply rtc_l; [apply sys_step_step|apply IH].
Qed.

Lemma handleSignup_callbacks c data s :
  Hub.callbacks (hub (exec (handleSignup c data) s)) = Hub.callbacks (hub s).
Proof.
  unfold handleSignup. destruct (unmarshal_ok _); [|done].
  unfold exec, st_bind, lift. destruct (find_or_create _ _) as [[v|] w']; simpl; [|done].
  unfold modify_hub, st_modify. simpl. by destruct (write_json _ _ _).
Qed.

Lemma monitor_tick_keeps_callback cid s :
  is_Some (Hub.callbacks (hub s) !! cid) -> is_Some (Hub.callbacks (hub (exec monitor_tick s)) !! cid).
Proof.
  intros Hc. unfold monitor_tick, exec, st_bind, lift. simpl.
  destruct (db_exec _ _) as [[ws|e] w']; simpl; [|done].
  case_bool_decide; [done|]. unfold st_get. simpl. case_bool_decide; [done|].
  apply (st_iter_preserves (fun s => is_Some (Hub.callbacks (hub s) !! cid))); [|done].
  intros wb s1 H1. apply (st_iter_preserves (fun s => is_Some (Hub.callbacks (hub s) !! cid))); [|done].
  intros v s2 H2. destruct (dispatch_one_exec wb v s2) as (Hcb & _). unfold exec in Hcb. rewrite Hcb.
  apply lookup_insert_is_Some'. by right.
Qed.

Lemma handle_frame_keeps_callback cid c f s :
  reply_id f <> Some cid ->
  is_Some (Hub.callbacks (hub s) !! cid) -> is_Some (Hub.callbacks (hub (exec (handle_frame c f) s)) !! cid).
Proof.
  unfold handle_frame. intros Hr Hc. destruct (unmarshal_ok (decode_IncomingMessage f)) as [msg|] eqn:Hm; [|done].
  destruct (decide (IncomingMessage.Type' msg = "signup")).
  { rewrite bool_decide_eq_true_2 by done. by rewrite handleSignup_callbacks. }
  rewrite (bool_decide_eq_false_2 (IncomingMessage.Type' msg = "signup")) by done.
  case_bool_decide as Hv; cbv beta iota; [|done].
  destruct (unmarshal_ok (decode_ValidateIncoming (IncomingMessage.Data msg))) as [v|] eqn:Hd;
    [|by rewrite handleValidate_undecodable].
  destruct (Hub.callbacks (hub s) !! ValidateIncoming.CallbackID v) as [cb|] eqn:Hcb;
    [|by rewrite (handleValidate_missing _ _ v Hd Hcb)].
  rewrite (handleValidate_found _ _ v cb Hd Hcb). simpl.
  rewrite lookup_delete_ne; [done|]. intros Heq. apply Hr. unfold reply_id.
  rewrite Hm, bool_decide_eq_true_2 by done. rewrite Hd. simpl. by rewrite Heq.
Qed.

Lemma sys_step_keeps_callback cid l s :
  answers cid l = false ->
  is_Some (Hub.callbacks (shub s) !! cid) -> is_Some (Hub.callbacks (shub (sys_step l s)) !! cid).
Proof.
  destruct l as [c f|c| |id|id| |J u cfg h r|J B e cfg salt req|J B e cfg req]; simpl; intros Ha Hc; try done.
  - apply (handle_frame_keeps_callback cid c f (mkHubProc _ _)); [|done].
    intros Hr. rewrite Hr in Ha. by rewrite bool_decide_eq_true_2 in Ha.
  - apply (monitor_tick_keeps_callback cid (mkHubProc _ _)), Hc.
Qed.

(** C28. Registered callbacks leak: a callback stays in the hub's table,
    through disconnections of its validator, ticks, payouts,
    deliveries and website deletions (the soft delete leaves the probes
    already sent registered), in every execution in which no frame
    replies to its
    id; nothing ever expires it. *)
Theorem callback_persists s ls cid :
  is_Some (Hub.callbacks (shub s) !! cid) -> Forall (fun l => answers cid l = false) ls ->
  is_Some (Hub.callbacks (shub (run ls s)) !! cid).
Proof.
  intros Hc Hls. revert s Hc. induction Hls as [|l ls Hl _ IH]; intros s Hc; simpl; [done|].
  apply IH, sys_step_keeps_callback; done.
Qed.

Lemma callback_persists_witness : is_Some (Hub.callbacks (shub (run ex_after_disconnect ex_sys)) !! "cb1").
Proof. apply callback_persists; [vm_compute; eauto|repeat constructor]. Defined.

