(* ===== verification/Race.v ===== *)
(** * Concurrent replies: the three critical sections of handleValidate

    The hub reads each connection in its own goroutine, so replies
    arriving on different connections are handled concurrently.
    handleValidate (src/cmd/hub/main.go, lines 166-189) is not one
    atomic step: it looks the callback up under the read lock
    (lines 174-176), runs it without any lock (lines 178-182), and
    deletes it under the write lock (lines 185-187).  [hv_step] is one
    of these sections; a thread is its program counter [HVPc]; a
    schedule is the list of the threads that run, one section each, in
    order.  The callback's own database transaction is one atomic step
    (Postgres runs it as one transaction).

    Run alone, the three sections are handleValidate; interleaved, two
    replies with the same callback id can both find the callback before
    either deletes it, and the tick and the credit are recorded twice. *)

From S2P Require Import Prelude Json Store Hub.

Inductive HVPc :=
| HV_Start (data : raw)
| HV_Found (cb : Callback) (data : raw) (cid : string)
| HV_Ran (cid : string)
| HV_Done.

(** One critical section of one thread. *)
Definition hv_step (t : HVPc) : ST HubProc HVPc :=
  match t with
  | HV_Start data =>
      match unmarshal_ok (decode_ValidateIncoming data) with
      | None => st_ret HV_Done
      | Some v =>
          let* s := st_get in
          match Hub.callbacks (hub s) !! ValidateIncoming.CallbackID v with
          | None => st_ret HV_Done
          | Some cb => st_ret (HV_Found cb data (ValidateIncoming.CallbackID v))
          end
      end
  | HV_Found cb data cid =>
      lift (run_callback cb (IncomingMessage.mkIncomingMessage "validate" data)) ;;;
      st_ret (HV_Ran cid)
  | HV_Ran cid => modify_hub (set_callbacks (delete cid)) ;;; st_ret HV_Done
  | HV_Done => st_ret HV_Done
  end.

(** Run a schedule: each entry names the thread that takes its next
    section; a name without a thread does nothing. *)
Fixpoint run_sched (sched : list nat) (ts : list HVPc) (s : HubProc) : list HVPc * HubProc :=
  match sched with
  | [] => (ts, s)
  | i :: rest =>
      match ts !! i with
      | None => run_sched rest ts s
      | Some t => let '(t', s') := hv_step t s in run_sched rest (<[i := t']> ts) s'
      end
  end.

(** Two replies with the same callback id, the lookups first. *)
Definition race_schedule : list nat := [0; 1; 0; 1; 0; 1]%nat.

(** Counting the threads of a schedule in a given state. *)
Fixpoint countb {A} (f : A -> bool) (l : list A) : nat :=
  match l with [] => O | x :: l' => ((if f x then 1 else 0) + countb f l')%nat end.

Definition past_run (t : HVPc) : bool := match t with HV_Ran _ | HV_Done => true | _ => false end.
Definition is_ran (t : HVPc) : bool := match t with HV_Ran _ => true | _ => false end.
Definition is_done (t : HVPc) : bool := match t with HV_Done => true | _ => false end.

(** What holds along every schedule of replies carrying the callback
    id [cid] of [cb], started from [s0]: the callback has run [k]
    times, at most once per thread past its run section (or finished
    without running); before the first
    delete the table is untouched, no thread has finished and [k]
    counts the threads between the run and the delete; after it the
    callback is gone from the table and has run at least once. *)
Definition race_inv (data : raw) (cid : string) (cb : Callback) (s0 : HubProc)
    (ts : list HVPc) (s : HubProc) : Prop :=
  exists k,
    world s = Nat.iter k (exec (run_callback cb (IncomingMessage.mkIncomingMessage "validate" data))) (world s0) /\
    (k <= countb past_run ts)%nat /\
    Forall (fun t => t = HV_Start data \/ t = HV_Found cb data cid \/ t = HV_Ran cid \/ t = HV_Done) ts /\
    ((hub s = hub s0 /\ countb is_done ts = O /\ k = countb is_ran ts) \/
     (hub s = set_callbacks (delete cid) (hub s0) /\ (1 <= k)%nat)).

(** ** Properties. *)

Lemma hv_step_start data s v cb :
  unmarshal_ok (decode_ValidateIncoming data) = Some v ->
  Hub.callbacks (hub s) !! ValidateIncoming.CallbackID v = Some cb ->
  hv_step (HV_Start data) s = (HV_Found cb data (ValidateIncoming.CallbackID v), s).
Proof. intros Hd Hcb. simpl. rewrite Hd. unfold st_bind, st_get. simpl. by rewrite Hcb. Qed.

Lemma hv_step_found cb data cid s :
  hv_step (HV_Found cb data cid) s =
  (HV_Ran cid, mkHubProc (hub s)
                 (exec (run_callback cb (IncomingMessage.mkIncomingMessage "validate" data)) (world s))).
Proof. simpl. unfold st_bind, lift, exec. simpl. by destruct (run_callback _ _ _). Qed.

Lemma hv_step_ran cid s :
  hv_step (HV_Ran cid) s = (HV_Done, mkHubProc (set_callbacks (delete cid) (hub s)) (world s)).
Proof. done. Qed.

Lemma hv_step_missing data s v :
  unmarshal_ok (decode_ValidateIncoming data) = Some v ->
  Hub.callbacks (hub s) !! ValidateIncoming.CallbackID v = None ->
  hv_step (HV_Start data) s = (HV_Done, s).
Proof. intros Hd Hcb. simpl. rewrite Hd. unfold st_bind, st_get. simpl. by rewrite Hcb. Qed.

Lemma countb_insert {A} (f : A -> bool) l i x y :
  l !! i = Some y -> (countb f (<[i := x]> l) + (if f y then 1 else 0) = countb f l + (if f x then 1 else 0))%nat.
Proof.
  revert i. induction l as [|z l IH]; intros [|i] H; simpl in *; try done.
  - injection H as ->. lia.
  - specialize (IH i H). lia.
Qed.

Lemma countb_replicate {A} (f : A -> bool) n x : countb f (replicate n x) = if f x then n else O.
Proof. induction n as [|n IH]; simpl; [by destruct (f x)|rewrite IH; by destruct (f x)]. Qed.

Lemma set_callbacks_delete_idem cid h :
  set_callbacks (delete cid) (set_callbacks (delete cid) h) = set_callbacks (delete cid) h.
Proof. unfold set_callbacks. simpl. by rewrite delete_delete_eq. Qed.

#[local] Arguments hv_step : simpl never.

(** Run alone, the three critical sections of a thread are exactly
    handleValidate: the lookup, the callback and the delete in
    sequence give the same hub and world, and the thread ends. *)
Lemma hv_sections_sequential data s :
  run_sched [0; 0; 0]%nat [HV_Start data] s = ([HV_Done], exec (handleValidate data) s).
Proof.
  destruct (unmarshal_ok (decode_ValidateIncoming data)) as [v|] eqn:Hd.
  2: { rewrite handleValidate_undecodable by done. simpl. unfold hv_step. rewrite Hd. done. }
  destruct (Hub.callbacks (hub s) !! ValidateIncoming.CallbackID v) as [cb|] eqn:Hcb.
  2: { rewrite (handleValidate_missing _ _ v Hd Hcb). simpl. unfold hv_step. rewrite Hd.
       unfold st_bind, st_get. simpl. by rewrite Hcb. }
  rewrite (handleValidate_found _ _ v cb Hd Hcb). simpl.
  rewrite (hv_step_start _ _ v cb Hd Hcb). simpl. rewrite hv_step_found. simpl.
  by rewrite ?hv_step_ran.
Qed.

(** One section of one thread keeps [race_inv]. *)
Lemma race_inv_step data v cb s0 ts s i t :
  unmarshal_ok (decode_ValidateIncoming data) = Some v ->
  Hub.callbacks (hub s0) !! ValidateIncoming.CallbackID v = Some cb ->
  ts !! i = Some t ->
  race_inv data (ValidateIncoming.CallbackID v) cb s0 ts s ->
  race_inv data (ValidateIncoming.CallbackID v) cb s0 (<[i := (hv_step t s).1]> ts) (hv_step t s).2.
Proof.
  intros Hd Hcb Hi (k & Hw & Hk & Hall & Hst).
  pose proof (Forall_lookup_1 _ _ _ _ Hall Hi) as Ht.
  pose proof (fun x f => countb_insert f ts i x t Hi) as C.
  destruct Ht as [ -> | [ -> | [ -> | -> ]]].
  - destruct Hst as [(Hh & Hdn & Hr)|(Hh & H1)].
    + rewrite (hv_step_start data s v cb Hd) by (rewrite Hh; exact Hcb). simpl.
      pose proof (C (HV_Found cb data (ValidateIncoming.CallbackID v)) past_run). pose proof (C (HV_Found cb data (ValidateIncoming.CallbackID v)) is_done).
      pose proof (C (HV_Found cb data (ValidateIncoming.CallbackID v)) is_ran). simpl in *.
      exists k. split_and!; [done|lia|apply Forall_insert; auto|left; split_and!; [done|lia|lia]].
    + rewrite (hv_step_missing data s v Hd) by (rewrite Hh; simpl; apply lookup_delete_eq). simpl.
      pose proof (C HV_Done past_run). simpl in *.
      exists k. split_and!; [done|lia|apply Forall_insert; auto|by right].
  - rewrite hv_step_found. simpl. pose proof (C (HV_Ran (ValidateIncoming.CallbackID v)) past_run). pose proof (C (HV_Ran (ValidateIncoming.CallbackID v)) is_done).
    pose proof (C (HV_Ran (ValidateIncoming.CallbackID v)) is_ran). simpl in *.
    exists (S k). split_and!; [by rewrite Hw|lia|apply Forall_insert; auto|].
    destruct Hst as [(? & ? & ?)|(? & ?)]; [left; split_and!; [done|lia|lia]|right; split; [done|lia]].
  - rewrite hv_step_ran. simpl. pose proof (C HV_Done past_run). pose proof (C HV_Done is_ran). simpl in *.
    exists k. split_and!; [done|lia|apply Forall_insert; auto|right].
    destruct Hst as [(Hh & _ & ->)|(Hh & H1)]; rewrite Hh; [split; [done|lia]|by rewrite set_callbacks_delete_idem].
  - change (hv_step HV_Done s) with (HV_Done, s). simpl. rewrite list_insert_id by done.
    exists k. by split_and!.
Qed.

Lemma run_sched_inv sched data v cb s0 ts s :
  unmarshal_ok (decode_ValidateIncoming data) = Some v ->
  Hub.callbacks (hub s0) !! ValidateIncoming.CallbackID v = Some cb ->
  race_inv data (ValidateIncoming.CallbackID v) cb s0 ts s ->
  race_inv data (ValidateIncoming.CallbackID v) cb s0 (run_sched sched ts s).1 (run_sched sched ts s).2.
Proof.
  intros Hd Hcb. revert ts s. induction sched as [|i sched IH]; intros ts s Hinv; simpl; [done|].
  destruct (ts !! i) as [t|] eqn:Hi; [|by apply IH].
  pose proof (race_inv_step data v cb s0 ts s i t Hd Hcb Hi Hinv) as H.
  destruct (hv_step t s) as [t' s']. by apply IH.
Qed.

(** C6. handleValidate is not atomic: when two replies carrying the
    same registered callback id are handled by two connections and both
    lookups happen before the first delete, the callback runs twice on
    the database (two ticks, two credits for one probe) before it is
    deleted. *)
Theorem handleValidate_race_runs_twice data s v cb :
  unmarshal_ok (decode_ValidateIncoming data) = Some v ->
  Hub.callbacks (hub s) !! ValidateIncoming.CallbackID v = Some cb ->
  let msg := IncomingMessage.mkIncomingMessage "validate" data in
  run_sched race_schedule [HV_Start data; HV_Start data] s =
    ([HV_Done; HV_Done],
     mkHubProc (set_callbacks (delete (ValidateIncoming.CallbackID v)) (hub s))
       (exec (run_callback cb msg) (exec (run_callback cb msg) (world s)))).
Proof.
  intros Hd Hcb. cbv zeta. unfold race_schedule. simpl.
  rewrite (hv_step_start _ _ v cb Hd Hcb). simpl. rewrite (hv_step_start _ _ v cb Hd Hcb). simpl.
  rewrite !hv_step_found. simpl. rewrite ?hv_step_ran. simpl.
  unfold set_callbacks. simpl. by rewrite delete_delete_eq.
Qed.

(** C27. Whatever the interleaving of the critical sections of any
    number n > 0 of replies carrying the same registered callback id,
    once every reply has been handled the callback is gone from the
    table, nothing else of the hub has changed, and the callback's
    transaction has run at least once and at most once per reply: the
    write lock around the delete bounds the duplicates by the replies
    whose lookup came before it. *)
Theorem handleValidate_replies_race sched n data s v cb :
  unmarshal_ok (decode_ValidateIncoming data) = Some v ->
  Hub.callbacks (hub s) !! ValidateIncoming.CallbackID v = Some cb ->
  (0 < n)%nat ->
  (run_sched sched (replicate n (HV_Start data)) s).1 = replicate n HV_Done ->
  let s' := (run_sched sched (replicate n (HV_Start data)) s).2 in
  hub s' = set_callbacks (delete (ValidateIncoming.CallbackID v)) (hub s) /\
  exists k, (1 <= k <= n)%nat /\
    world s' = Nat.iter k (exec (run_callback cb (IncomingMessage.mkIncomingMessage "validate" data))) (world s).
Proof.
  intros Hd Hcb Hn Hend. cbv zeta.
  assert (H0 : race_inv data (ValidateIncoming.CallbackID v) cb s (replicate n (HV_Start data)) s).
  { exists O. rewrite !countb_replicate. split_and!; [done|lia|apply Forall_replicate; auto|by left]. }
  destruct (run_sched_inv sched data v cb s _ s Hd Hcb H0) as (k & Hw & Hk & _ & Hst).
  rewrite Hend, countb_replicate in Hk. rewrite Hend, !countb_replicate in Hst. simpl in *.
  destruct Hst as [(_ & Hdn & _)|(Hh & H1)]; [lia|]. split; [done|]. exists k. split; [lia|done].
Qed.

Lemma handleValidate_race_runs_twice_witness :
  let s' := (run_sched race_schedule [HV_Start (ex_reply "Good"); HV_Start (ex_reply "Good")] ex_hubproc).2 in
  length (ticks (db (world s'))) = 2%nat /\ pending_of (db (world s')) "V1" = 200%Z.
Proof.
  cbv zeta.
  rewrite (handleValidate_race_runs_twice _ _ (ex_reply_fields "Good") (ValidateCallback "T1" "pk1"));
    [|vm_compute; reflexivity..].
  vm_compute. split; reflexivity.
Defined.

Lemma handleValidate_replies_race_witness :
  let s' := (run_sched [0; 0; 0; 1]%nat (replicate 2 (HV_Start (ex_reply "Good"))) ex_hubproc).2 in
  hub s' = set_callbacks (delete "cb1") (hub ex_hubproc) /\
  exists k, (1 <= k <= 2)%nat /\
    world s' = Nat.iter k (exec (run_callback (ValidateCallback "T1" "pk1")
                 (IncomingMessage.mkIncomingMessage "validate" (ex_reply "Good")))) (world ex_hubproc).
Proof.
  apply (handleValidate_replies_race [0; 0; 0; 1]%nat 2 (ex_reply "Good") ex_hubproc (ex_reply_fields "Good")
           (ValidateCallback "T1" "pk1")); [vm_compute; reflexivity|vm_compute; reflexivity|lia|vm_compute; reflexivity].
Defined.
