(* ===== verification/Progress.v ===== *)
(** * Progress of the payout worker

    The worker consumes its queue one message at a time (Start,
    src/internal/models/models.go lines 171-175: QoS 1 and
    [for d := range msgs]); [consume n] is [n] turns of that loop.  A
    message leaves the queue unless processPayoutRequest requeues it,
    which it does exactly when the "processing" record cannot be
    created (lines 204-207).

    With a reliable database the record can be created for every
    message that names an existing validator with an amount the
    decimal(20,2) column holds, provided the payout ids the worker
    draws are fresh; each turn keeps these conditions for the rest of
    the queue, so the queue drains in as many turns as it has
    messages, whatever the Solana node answers.  A message that fails
    the foreign key or the column bound is requeued at the head on
    every turn: the worker never reaches the messages behind it. *)

From S2P Require Import Prelude Json Store Frame Hub Payout Worker System.

(** The loop of Start (lines 171-175), [n] deliveries. *)
Fixpoint consume (n : nat) : ST WorkerProc unit :=
  match n with
  | O => st_ret tt
  | S n' => deliver ;;; consume n'
  end.

(** A queued message the worker can record: undecodable (dropped), or a
    request for an existing validator with an amount in range. *)
Definition settleable (d : DB) (m : json) : Prop :=
  match unmarshal_ok (decode_PayoutRequest (Some m)) with
  | None => True
  | Some req =>
      is_Some (validators d !! PayoutRequest.ValidatorID req) /\
      decimal_20_2_ok (PayoutRequest.Amount req) = true
  end.

(** The payout ids the world's uuid supply will draw are unused. *)
Definition payouts_fresh (d : DB) (n : nat) : Prop :=
  forall k, (n <= k)%nat -> payouts d !! uuid_string k = None.

(** Validator rows are never lost. *)
Definition rows_kept (d d' : DB) : Prop :=
  forall k, is_Some (validators d !! k) -> is_Some (validators d' !! k).

Definition drainable (s : WorkerProc) : Prop :=
  faults (wworld s) = [] /\ payouts_fresh (db (wworld s)) (next_uuid (wworld s)) /\
  Forall (settleable (db (wworld s))) (queue (wworld s)).

(** A message whose processing record can never be created. *)
Definition poison (d : DB) (m : json) : Prop :=
  match unmarshal_ok (decode_PayoutRequest (Some m)) with
  | None => False
  | Some req =>
      validators d !! PayoutRequest.ValidatorID req = None \/
      decimal_20_2_ok (PayoutRequest.Amount req) = false
  end.

(** Examples: validator V1 of the worker's example, and a request for a
    validator that has no row, queued before a request for V1. *)
Definition ex_ghost_req : PayoutRequest := PayoutRequest.mkPayoutRequest "V9" 500 ex_pk.
Definition ex_blocked : WorkerProc :=
  mkWorkerProc "wallet" (ex_wworld 500 [encode_PayoutRequest ex_ghost_req; encode_PayoutRequest ex_req])
    (mkChain [] 0 [] []).

(** ** One turn of the loop. *)

Lemma executeSolanaTransfer_world pk a s :
  exists res c', executeSolanaTransfer pk a s = (res, mkWorkerProc (platformWallet s) (wworld s) c').
Proof.
  destruct (PublicKeyFromBase58_ok pk) eqn:Hpk;
    [destruct (hd false (rpc_faults (chain s))) eqn:H1; [|destruct (hd false (tail (rpc_faults (chain s)))) eqn:H2]|].
  3: exists (inr (sig_string (next_sig (chain s)))); eexists; by apply executeSolanaTransfer_sent.
  all: edestruct executeSolanaTransfer_failed as (err & c' & -> & _); [by auto|]; by exists (inl err), c'.
Qed.

Lemma update_pending_rows id f d a d' :
  update_pending id f d = Ok (a, d') -> payouts d' = payouts d /\ rows_kept d d'.
Proof.
  unfold update_pending. destruct (validators d !! id) as [v|] eqn:Hv; [|intros [= _ <-]; split; [done|by intros k]].
  destruct (decimal_20_2_ok _); [|done]. intros [= _ <-]. split; [done|]. intros k Hk. simpl.
  destruct (decide (id = k)) as [<-|]; [by rewrite lookup_insert_eq|by rewrite lookup_insert_ne].
Qed.

Lemma payouts_fresh_insert (m : gmap string PayoutTransaction) n x :
  (forall k, (n <= k)%nat -> m !! uuid_string k = None) ->
  forall k, (S n <= k)%nat -> <[uuid_string n := x]> m !! uuid_string k = None.
Proof.
  intros Hf k Hk. rewrite lookup_insert_ne; [apply Hf; lia|].
  intros Heq. apply uuid_string_inj in Heq. lia.
Qed.

#[local] Arguments poll_confirmation : simpl never.

(** With a reliable database, a message the worker can record is never
    requeued, and the turn keeps the world reliable, the queue as it
    was, every validator row, and the freshness of payout ids. *)
Lemma processPayoutRequest_consumes m s :
  faults (wworld s) = [] -> settleable (db (wworld s)) m ->
  payouts_fresh (db (wworld s)) (next_uuid (wworld s)) ->
  (processPayoutRequest m s).1 <> NackRequeue /\
  faults (wworld (processPayoutRequest m s).2) = [] /\
  queue (wworld (processPayoutRequest m s).2) = queue (wworld s) /\
  rows_kept (db (wworld s)) (db (wworld (processPayoutRequest m s).2)) /\
  payouts_fresh (db (wworld (processPayoutRequest m s).2)) (next_uuid (wworld (processPayoutRequest m s).2)).
Proof.
  destruct s as [wal [d q o n t fs] c]. cbn [wworld faults db next_uuid queue]. intros -> Hset Hfr.
  unfold processPayoutRequest, settleable in *. destruct (unmarshal_ok _) as [req|]; [|simpl; split_and!; [done|done|done|by intros k|exact Hfr]].
  destruct Hset as [Hv Ha].
  unfold st_bind, lift, new_uuid, now, st_ret; simpl. rewrite db_exec_eq; simpl.
  rewrite create_payout_eq by (simpl; auto). simpl.
  match goal with |- context [executeSolanaTransfer ?pk ?a ?st] =>
    destruct (executeSolanaTransfer_world pk a st) as ([err|sig] & c' & ->) end; simpl.
  - rewrite db_exec_eq; simpl. erewrite update_payout_eq by (simpl; apply lookup_insert_eq). simpl.
    rewrite db_exec_eq; simpl. rewrite insert_insert_eq.
    destruct (update_pending _ _ _) as [[[] d2]|e] eqn:Hu; simpl.
    + apply update_pending_rows in Hu as [Hp Hr].
      split_and!; [done|done|done|intros k Hk; by apply Hr|].
      intros k Hk. rewrite Hp. simpl. by apply payouts_fresh_insert.
    + split_and!; [done|done|done|by intros k|intros k Hk; simpl; by apply payouts_fresh_insert].
  - rewrite waitForConfirmation_polls. unfold on_chain. simpl.
    destruct (poll_confirmation _ _) as [[[] e] c3]; simpl; rewrite db_exec_eq; simpl;
      erewrite update_payout_eq by (simpl; apply lookup_insert_eq); simpl; rewrite insert_insert_eq;
      (split_and!; [done|done|done|by intros k|intros k Hk; simpl; by apply payouts_fresh_insert]).
Qed.

Lemma settleable_rows d d' m : rows_kept d d' -> settleable d m -> settleable d' m.
Proof.
  unfold settleable. intros Hr. destruct (unmarshal_ok _); [|done].
  intros [Hv Ha]. split; [by apply Hr|done].
Qed.

(** A turn on a drainable state removes the head and leaves the rest
    drainable. *)
Lemma deliver_drainable s m rest :
  drainable s -> queue (wworld s) = m :: rest ->
  drainable (exec deliver s) /\ queue (wworld (exec deliver s)) = rest.
Proof.
  intros (Hf & Hfr & Hall) Hq. rewrite Hq in Hall. apply Forall_cons in Hall as [Hm Hrest].
  destruct (processPayoutRequest_consumes m s Hf Hm Hfr) as (Hack & Hf' & Hq' & Hr & Hfr').
  rewrite (deliver_head s m rest Hq Hack) by congruence.
  unfold drainable. cbn [wworld set_queue faults db next_uuid queue].
  split_and!; [done|done| |done]. eapply Forall_impl; [exact Hrest|]. intros x. by apply settleable_rows.
Qed.

(** A turn with a poison message at the head requeues it and changes
    nothing but the uuid supply. *)
Lemma deliver_poison s m rest :
  faults (wworld s) = [] -> queue (wworld s) = m :: rest -> poison (db (wworld s)) m ->
  exec deliver s =
    mkWorkerProc (platformWallet s)
      (mkWorld (db (wworld s)) (m :: rest) (outbox (wworld s)) (S (next_uuid (wworld s))) (clock (wworld s)) [])
      (chain s).
Proof.
  destruct s as [wal [d q o n t fs] c]. cbn. intros -> -> Hp.
  unfold deliver, exec, st_bind, st_get. simpl. unfold processPayoutRequest, poison in *.
  destruct (unmarshal_ok _) as [req|]; [|done].
  unfold st_bind, lift, new_uuid, now, st_ret; simpl. rewrite db_exec_eq; simpl.
  unfold create_payout. simpl. destruct Hp as [Hv|Ha].
  - rewrite Hv, bool_decide_eq_false_2 by (intros [? ?]; discriminate). done.
  - by rewrite Ha, andb_false_r.
Qed.

(** ** Claims. *)

(** C17. The worker makes progress (liveness): with a reliable database
    and fresh payout ids, when every queued message is undecodable or
    names an existing validator with an amount the decimal(20,2) column
    holds, the loop empties the queue in as many turns as it has
    messages, whatever the Solana node does: no message is requeued, and
    each one is settled, refunded, recorded failed or dropped. *)
Theorem worker_drains_queue s :
  drainable s -> queue (wworld (exec (consume (length (queue (wworld s)))) s)) = [].
Proof.
  remember (queue (wworld s)) as l eqn:Hl. revert s Hl.
  induction l as [|m rest IH]; intros s Hl Hd; [done|]. simpl length. unfold consume; fold consume.
  rewrite exec_seq. destruct (deliver_drainable s m rest Hd (eq_sym Hl)) as [Hd' Hq'].
  apply IH; [done|exact Hd'].
Qed.

(** C21. The worker does not make progress past a poison message: when
    the message at the head of the queue is a request whose processing
    record can never be created (its validator has no row, or its
    amount overflows decimal(20,2)), every turn of the loop requeues it
    at the head, whatever the number of turns; the queue, the database
    and the Solana node are left as they were, so the requests behind
    it are never paid. *)
Theorem poison_blocks_queue s m rest n :
  faults (wworld s) = [] -> queue (wworld s) = m :: rest -> poison (db (wworld s)) m ->
  queue (wworld (exec (consume n) s)) = m :: rest /\ db (wworld (exec (consume n) s)) = db (wworld s) /\
  chain (exec (consume n) s) = chain s.
Proof.
  revert s. induction n as [|n IH]; intros s Hf Hq Hp; [done|].
  unfold consume; fold consume. rewrite exec_seq, (deliver_poison s m rest Hf Hq Hp).
  match goal with |- context [exec (consume n) ?s1] => destruct (IH s1) as (Hq' & Hd' & Hc') end;
    [done|done|exact Hp|]. split_and!; [exact Hq'|exact Hd'|exact Hc'].
Qed.

(** ** Witnesses. *)

Lemma worker_drains_queue_witness :
  queue (wworld (exec (consume (length (queue (wworld (ex_worker [] []))))) (ex_worker [] []))) = [].
Proof.
  apply worker_drains_queue. split_and!; [done|by intros k|].
  constructor; [|constructor]. unfold settleable. vm_compute. split; [eexists; reflexivity|reflexivity].
Defined.

Lemma poison_blocks_queue_witness :
  queue (wworld (exec (consume 3) ex_blocked)) = [encode_PayoutRequest ex_ghost_req; encode_PayoutRequest ex_req].
Proof.
  apply (poison_blocks_queue ex_blocked _ _ 3); [done|done|].
  unfold poison. vm_compute. by left.
Defined.
