(* ===== verification/Deploy.v ===== *)
(** * Deployment: the three programs' main functions and the broker

    src/cmd/api/main.go (lines 16-115) starts the API server: it loads
    the configuration, connects to Postgres and migrates, dials
    RabbitMQ and opens a channel, starts the payout worker when
    PLATFORM_PRIVATE_KEY is set, and serves the route table.  The hub's
    main (src/cmd/hub/main.go lines 323-350) and the validator agent's
    (src/cmd/api/main.go lines 323-352) do the same for their parts;
    the hub's main starts the ticker loop startMonitoring, here [n]
    iterations of Hub.v's [monitor_tick].  Each main either ends the
    process with log.Fatal or runs.

    The broker is modelled as the set of queues declared on it.  The
    API publishes payout requests on the default exchange with routing
    key "payout_queue" and mandatory=false (handler.go lines 94-104):
    the default exchange routes a message to the queue of that name,
    and when no such queue exists the broker discards the message and
    Publish still succeeds.  The only QueueDeclare of the program is in
    the worker's Start (models.go lines 137-144), which runs only when
    PLATFORM_PRIVATE_KEY is set.  The contents of the declared payout
    queue are the [queue] of the World.

    The external services are a record [Infra] of what each library
    call answers: whether the database at a URL accepts connections,
    whether migration succeeds, whether a broker URL can be dialled and
    a channel opened, whether a websocket URL can be dialled, and the
    private keys solana.PrivateKeyFromBase58 accepts with the public
    key of each. *)

From S2P Require Import Prelude Float64 Json Store Frame Hub Payout Worker Agent WebsiteApi Jwt Config Account Auth System.

(** The outcome of a main function up to the point where it serves. *)
Inductive Startup (A : Type) := Fatal (msg : string) | Running (a : A).
Arguments Fatal {A} msg.
Arguments Running {A} a.

(** ** The broker. *)

Abbreviation Broker := (gset string).

Definition payout_queue : string := "payout_queue".

(** ch.QueueDeclare(name, durable=true, ...) (models.go lines 137-144):
    the queue exists afterwards, whether or not it existed before. *)
Definition queue_declare (name : string) (b : Broker) : Broker := {[ name ]} ∪ b.

(** ** The services the mains call. *)

Record Infra := mkInfra {
  db_accepts : string -> bool;         (* gorm.Open(url) and db.DB() *)
  migrate_ok : bool;                   (* database.AutoMigrate(db) *)
  mq_accepts : string -> bool;         (* amqp.Dial(url) and conn.Channel() *)
  ws_accepts : string -> bool;         (* websocket.DefaultDialer.Dial(url) *)
  private_key_ok : string -> bool;     (* solana.PrivateKeyFromBase58(key) *)
  public_key_of : string -> string }.  (* keypair.PublicKey().String() *)

(** ** The API server. *)

(** The payout worker of the API process: not started, created and its
    goroutine not yet past Start's setup, or consuming. *)
Inductive WorkerState := WDisabled | WStarting (wallet : string) | WConsuming (wallet : string).

Record ApiServer := mkApiServer { api_cfg : Config; api_worker : WorkerState; api_broker : Broker }.

(** NewPayoutWorker (models.go lines 114-132): the worker's wallet is
    the platform key, when it parses. *)
Definition NewPayoutWorker (inf : Infra) (platformPrivateKey : string) : option string :=
  if private_key_ok inf platformPrivateKey then Some platformPrivateKey else None.

(** The connection pool settings of database.Connect (config.go lines
    77-79). *)
Record Pool := mkPool { MaxIdleConns : nat; MaxOpenConns : nat; ConnMaxLifetime_s : Z }.

(** database.Connect (config.go lines 55-83): gorm.Open and db.DB()
    succeed when the database at the URL accepts connections (gorm pings
    it on open), and the pool is configured. *)
Definition database_Connect (inf : Infra) (databaseURL : string) : option Pool :=
  if db_accepts inf databaseURL then Some (mkPool 10 100 3600) else None.

(** database.Connect and database.AutoMigrate as main calls them
    (lines 22-32; the hub's main, lines 327-336): the message of the
    log.Fatal that ends the process, if any. *)
Definition connect_and_migrate (inf : Infra) (cfg : Config) : option string :=
  match database_Connect inf (DatabaseURL cfg) with
  | None => Some "Database connection failed"
  | Some _ => if negb (migrate_ok inf) then Some "Migration failed" else None
  end.

(** main (lines 16-63), up to the router. *)
Definition api_main (inf : Infra) (env : Env) (b : Broker) : Startup ApiServer :=
  let cfg := Load env in
  match connect_and_migrate inf cfg with
  | Some msg => Fatal msg
  | None =>
  if negb (mq_accepts inf (RabbitMQURL cfg)) then Fatal "RabbitMQ connection failed"
  else if bool_decide (PlatformPrivateKey cfg <> "") then
    match NewPayoutWorker inf (PlatformPrivateKey cfg) with
    | None => Fatal "Failed to initialize payout worker"
    | Some wallet => Running (mkApiServer cfg (WStarting wallet) b)
    end
  else Running (mkApiServer cfg WDisabled b)
  end.

(** The worker goroutine (lines 56-60) running the setup of Start
    (models.go lines 136-169) when it succeeds: it declares the payout
    queue, then consumes it.  An error of QueueDeclare, Qos or Consume
    ends the whole API process through log.Fatal; that path is not
    modelled. *)
Definition worker_Start (srv : ApiServer) : ApiServer :=
  match api_worker srv with
  | WStarting wallet => mkApiServer (api_cfg srv) (WConsuming wallet) (queue_declare payout_queue (api_broker srv))
  | _ => srv
  end.

(** A request as the router sees it: method, path split at '/', the
    Authorization header and the body. *)
Record Request := mkRequest { method : string; path : list string; authorization : string; rbody : raw; query : string }.

Inductive Endpoint :=
| EWebsite (r : WebsiteRoute)
| EPayout (validatorId : string)
| EBalance (validatorId : string)
| ESignup
| ELogin
| EHealth.

(** The route table (lines 75-108).  A path parameter matches one
    non-empty segment; GetWebsiteStatus reads websiteId from the query. *)
Definition route (r : Request) : option Endpoint :=
  match method r, path r with
  | "POST", ["api"; "v1"; "website"] => Some (EWebsite (WCreate (rbody r)))
  | "GET", ["api"; "v1"; "websites"] => Some (EWebsite WList)
  | "GET", ["api"; "v1"; "website"; "status"] => Some (EWebsite (WStatus (query r)))
  | "DELETE", ["api"; "v1"; "website"] => Some (EWebsite (WDelete (rbody r)))
  | "POST", ["api"; "v1"; "payout"; id] => if bool_decide (id = "") then None else Some (EPayout id)
  | "GET", ["api"; "v1"; "validator"; id; "balance"] => if bool_decide (id = "") then None else Some (EBalance id)
  | "POST", ["api"; "v1"; "auth"; "signup"] => Some ESignup
  | "POST", ["api"; "v1"; "auth"; "login"] => Some ELogin
  | "GET", ["health"] => Some EHealth
  | _, _ => None
  end%string.

Inductive ApiResp :=
| RWeb (r : WebResp)
| RAuth (r : AuthResp)
| RPayout (r : PayoutResponse)
| RBalance (r : BalanceResponse)
| RHealth
| RNotFound.

(** Publish as the broker carries it out: the message RequestPayout
    appends to the payout queue reaches it only when the queue is
    declared; otherwise the queue keeps its contents. *)
Definition broker_route (b : Broker) (w w' : World) : World :=
  if bool_decide (payout_queue ∈ b) then w' else set_queue (queue w) w'.

Section Serve.
Context `{!JwtLib} `{!Bcrypt}.
Variables (is_url is_email : string -> bool).

(** The router serving one request (lines 65-108). *)
Definition serve_api (srv : ApiServer) (salt : nat) (req : Request) : ST World ApiResp :=
  match route req with
  | None => st_ret RNotFound
  | Some (EWebsite r) => st_map RWeb (serve_protected is_url (api_cfg srv) (authorization req) r)
  | Some (EPayout id) => fun w =>
      let '(r, w') := RequestPayout id w in (RPayout r, broker_route (api_broker srv) w w')
  | Some (EBalance id) => st_map RBalance (GetValidatorBalance id)
  | Some ESignup => st_map RAuth (Signup is_email (api_cfg srv) salt (rbody req))
  | Some ELogin => st_map RAuth (Login is_email (api_cfg srv) (rbody req))
  | Some EHealth => st_ret RHealth
  end.

(** r.Run (lines 110-114): the server answering requests one after
    another, each with the bcrypt salt it draws. *)
Fixpoint serve_seq (srv : ApiServer) (reqs : list (nat * Request)) : ST World unit :=
  match reqs with
  | [] => st_ret tt
  | (salt, req) :: rest => serve_api srv salt req ;;; serve_seq srv rest
  end.

End Serve.

(** ** The hub. *)

(** NewHub (hub main.go lines 66-72). *)
Definition NewHub : Hub := Hub.mkHub ∅ ∅.

(** main (hub main.go lines 323-350): the hub process, serving "/" on
    port 8081 with the monitoring loop started. *)
Definition hub_main (inf : Infra) (env : Env) (w : World) : Startup HubProc :=
  match connect_and_migrate inf (Load env) with
  | Some msg => Fatal msg
  | None => Running (mkHubProc NewHub w)
  end.

(** startMonitoring (hub main.go lines 204-267): the ticker loop, [n]
    ticks of 60 seconds, each one iteration [monitor_tick]. *)
Fixpoint startMonitoring (n : nat) : ST HubProc unit :=
  match n with
  | O => st_ret tt
  | S n' => monitor_tick ;;; startMonitoring n'
  end.

(** ** The validator agent. *)

(** NewValidatorClient (lines 164-176): the client of a private key,
    with no validator id and no callbacks yet. *)
Definition NewValidatorClient (inf : Infra) (privateKey : string) (uuid0 : nat) (wf : list bool)
  : option ValidatorClient :=
  if private_key_ok inf privateKey
  then Some (mkValidatorClient (public_key_of inf privateKey) "" ∅ uuid0 [] wf [])
  else None.

Section AgentMain.
Variable sign : string -> string.

(** Connect (lines 178-194): dial the hub, start the listener, sign up. *)
Definition Connect (inf : Infra) (hubURL : string) : ST ValidatorClient bool := fun a =>
  if ws_accepts inf hubURL then signup sign a else (false, a).

(** main (lines 323-352), up to the wait for an interrupt. *)
Definition agent_main (inf : Infra) (env : Env) (uuid0 : nat) (wf : list bool) : Startup ValidatorClient :=
  let cfg := Load env in
  let privateKey := default "" (env !! "PRIVATE_KEY") in
  if bool_decide (privateKey = "") then Fatal "PRIVATE_KEY environment variable required"
  else match NewValidatorClient inf privateKey uuid0 wf with
  | None => Fatal "Failed to create validator"
  | Some a =>
      let '(ok, a') := Connect inf (HubURL cfg) a in
      if ok then Running a' else Fatal "Failed to connect to hub"
  end.

End AgentMain.

(** ** Examples: services that all answer, and a POST to the payout
    route for V1. *)
Definition ex_infra : Infra :=
  mkInfra (fun _ => true) true (fun _ => true) (fun _ => true) (fun _ => true) (fun k => k).
Definition ex_payout_post (id : string) : Request :=
  mkRequest "POST" ["api"; "v1"; "payout"; id] "" None "".
Definition ex_worker_env : Env := {[ "PLATFORM_PRIVATE_KEY" := "platform-key" ]}.

(** A world the API serves: reliable, and every credit reads exactly
    as a float64. *)
Definition api_ok (w : World) : Prop := reliable w /\ credits_exact w.

(** ** Startup. *)

(** The monitoring loop keeps the system invariant. *)
Lemma startMonitoring_improves n s : improves (world s) (world (exec (startMonitoring n) s)).
Proof.
  revert s. induction n as [|n IH]; intros s; [apply improves_refl|].
  simpl. rewrite exec_seq. eapply improves_trans; [apply monitor_tick_improves|apply IH].
Qed.

Lemma api_main_running inf env b srv :
  api_main inf env b = Running srv ->
  api_cfg srv = Load env /\ api_broker srv = b /\
  (PlatformPrivateKey (Load env) = "" -> api_worker srv = WDisabled) /\
  (PlatformPrivateKey (Load env) <> "" -> api_worker srv = WStarting (PlatformPrivateKey (Load env))).
Proof.
  unfold api_main. destruct (connect_and_migrate _ _); [done|]. destruct (mq_accepts _ _); [|done]. simpl.
  case_bool_decide as Hk; [unfold NewPayoutWorker; destruct (private_key_ok _ _)|]; intros; simplify_eq/=; naive_solver.
Qed.

Lemma worker_Start_disabled srv : api_worker srv = WDisabled -> worker_Start srv = srv.
Proof. unfold worker_Start. by intros ->. Qed.

Lemma worker_Start_declares srv wallet :
  api_worker srv = WStarting wallet -> payout_queue ∈ api_broker (worker_Start srv).
Proof. unfold worker_Start. intros ->. simpl. unfold queue_declare. set_solver. Qed.

Lemma route_payout req id :
  route req = Some (EPayout id) <-> method req = "POST" /\ path req = ["api"; "v1"; "payout"; id] /\ id <> "".
Proof.
  destruct req as [m p a b q]. unfold route; simpl. split.
  - repeat (case_match; simplify_eq/=; try done); naive_solver.
  - intros (-> & -> & Hid). by rewrite bool_decide_eq_false_2.
Qed.

Lemma frame_eq_ledger_db' w w' : frame eq eq w w' -> frame eq ledger_db w w'.
Proof. intros (Hq & Hf & Hd). split_and!; [done|done|]. unfold ledger_db. by rewrite Hd. Qed.

Lemma exec_st_map {S A B} (f : A -> B) (m : ST S A) s : exec (st_map f m) s = exec m s.
Proof. unfold exec, st_map. by destruct (m s). Qed.

Section Serving.
Context `{!JwtLib} `{!Bcrypt}.
Variables (is_url is_email : string -> bool).

Lemma serve_api_payout srv salt req id w :
  route req = Some (EPayout id) ->
  serve_api is_url is_email srv salt req w =
    (RPayout (RequestPayout id w).1, broker_route (api_broker srv) w (RequestPayout id w).2).
Proof. intros Hr. unfold serve_api. rewrite Hr. by destruct (RequestPayout id w). Qed.

Lemma credits_exact_ledger_db w w' : frame eq ledger_db w w' -> credits_exact w -> credits_exact w'.
Proof. intros (_ & _ & Hv & _) Hx. unfold credits_exact. by rewrite Hv. Qed.

Lemma RequestPayout_credits_exact id w :
  validators_keyed (db w) -> credits_exact w -> credits_exact (exec (RequestPayout id) w).
Proof.
  intros Hk Hx. pose proof (RequestPayout_spec id w Hk) as Hs. unfold exec.
  destruct (RequestPayout id w) as [r w']. simpl.
  destruct Hs as [(_ & Hd & _)|(v & Hv & _ & _ & [[_ Hd]|[_ Hd]])]; unfold credits_exact; rewrite Hd;
    [exact Hx| |exact Hx].
  simpl. apply map_Forall_insert_2; [|exact Hx]. apply round_f64_0.
Qed.

Lemma api_ok_step w w' :
  (reliable w -> credits_exact w -> reliable w' /\ credits_exact w' /\ forall id, (ledger w' id <= ledger w id)%Z) ->
  api_ok w -> api_ok w' /\ forall id, (ledger w' id <= ledger w id)%Z.
Proof. intros Hs [Hr Hx]. destruct (Hs Hr Hx) as (? & ? & ?). by split; [split|]. Qed.

Lemma api_ok_frame w w' : frame eq ledger_db w w' -> api_ok w -> api_ok w' /\ forall id, (ledger w' id <= ledger w id)%Z.
Proof.
  intros Hf. apply api_ok_step. intros Hr Hx.
  destruct (improves_ledger_frame w w' Hf Hr). split_and!; [done|by eapply credits_exact_ledger_db|done].
Qed.

(** With the payout queue declared, every request the router serves is
    one of the API steps of the system, or changes nothing; the API
    never raises a credit, so credits stay exact. *)
Lemma serve_api_improves srv salt req w :
  payout_queue ∈ api_broker srv -> api_ok w ->
  api_ok (exec (serve_api is_url is_email srv salt req) w) /\
  forall id, (ledger (exec (serve_api is_url is_email srv salt req) w) id <= ledger w id)%Z.
Proof.
  intros Hq. destruct (route req) as [[r|id|id| | | ]|] eqn:Hr.
  2: { unfold exec. rewrite (serve_api_payout _ _ _ _ _ Hr). unfold broker_route.
       rewrite bool_decide_eq_true_2 by done. apply api_ok_step. intros Hrel Hx.
       destruct (RequestPayout_improves id w (credits_exact_pending w id Hx) Hrel).
       split_and!; [done|apply RequestPayout_credits_exact; [apply Hrel|done]|done]. }
  all: unfold serve_api; rewrite Hr; rewrite ?exec_st_map.
  - apply api_ok_frame, serve_protected_frame.
  - apply api_ok_frame, frame_eq_ledger_db', GetValidatorBalance_frame.
  - apply api_ok_frame, Signup_frame.
  - apply api_ok_frame, Login_frame.
  - intros Hw; split; [done|intros; apply Z.le_refl].
  - intros Hw; split; [done|intros; apply Z.le_refl].
Qed.

Lemma serve_seq_improves srv reqs w :
  payout_queue ∈ api_broker srv -> api_ok w ->
  api_ok (exec (serve_seq is_url is_email srv reqs) w) /\
  forall id, (ledger (exec (serve_seq is_url is_email srv reqs) w) id <= ledger w id)%Z.
Proof.
  intros Hq. revert w. induction reqs as [|[salt req] rest IH]; intros w Hw; [split; [done|intros; apply Z.le_refl]|].
  simpl. rewrite exec_seq. destruct (serve_api_improves srv salt req w Hq Hw) as [Hw1 Hl1].
  destruct (IH _ Hw1) as [Hw2 Hl2]. split; [done|]. intros id. specialize (Hl1 id). specialize (Hl2 id). lia.
Qed.

End Serving.

(** ** Claims. *)

Section Claims.
Context `{!JwtLib} `{!Bcrypt}.
Variables (is_url is_email : string -> bool).

(** C16. A payout is lost when the API runs without the worker: when
    PLATFORM_PRIVATE_KEY is unset or empty and the broker has no
    payout_queue yet, the API still starts (its worker disabled, so no
    goroutine will ever declare the queue), and a POST to
    /api/v1/payout/:validatorId for a validator with a positive credit
    answers "queued" with the whole credit (as read into a float64)
    and resets it to zero, while
    the broker discards the message: the queue is unchanged and the
    validator's ledger drops by the amount it was promised. *)
Theorem payout_lost_without_worker inf env b srv salt req id w v :
  api_main inf env b = Running srv -> PlatformPrivateKey (Load env) = "" -> payout_queue ∉ b ->
  route req = Some (EPayout id) ->
  reliable w -> validators (db w) !! id = Some v -> (0 < Validator.PendingPayouts v)%Z ->
  worker_Start srv = srv /\
  (serve_api is_url is_email srv salt req w).1 = RPayout (RespQueued (pending_f64 v)) /\
  queue (serve_api is_url is_email srv salt req w).2 = queue w /\
  ledger (serve_api is_url is_email srv salt req w).2 id = (ledger w id - Validator.PendingPayouts v)%Z.
Proof.
  intros Hm Hk Hb Hr (Hf & Hkeyed & _) Hv Hp.
  destruct (api_main_running inf env b srv Hm) as (_ & Hbr & Hdis & _).
  rewrite (serve_api_payout is_url is_email srv salt req id w Hr), (RequestPayout_no_fault id w v Hkeyed Hf Hv Hp).
  unfold broker_route. rewrite Hbr, bool_decide_eq_false_2 by done.
  split_and!; [by apply worker_Start_disabled, Hdis|done|done|].
  unfold ledger, owed, pending_of, settled, ticks_of. simpl. rewrite lookup_insert_eq, Hv. simpl. lia.
Qed.

(** C20. With PLATFORM_PRIVATE_KEY set, a payout reaches the worker:
    when the API starts with the key set, its worker goroutine runs
    Start's setup, which declares payout_queue, and from then on a POST
    to /api/v1/payout/:validatorId for a validator with a positive
    credit, in a reliable world, answers "queued" with the credit as
    read into a float64, appends exactly that request to the payout
    queue, and leaves every validator's ledger as it was except for
    the requester's float64 read error (none up to 2^53 lamports).
    Together with C16: the message survives exactly when the worker was
    started. *)
Theorem deployed_payout_queued inf env b srv salt req id w v :
  api_main inf env b = Running srv -> PlatformPrivateKey (Load env) <> "" ->
  route req = Some (EPayout id) ->
  reliable w -> validators (db w) !! id = Some v -> (0 < Validator.PendingPayouts v)%Z ->
  let '(r, w') := serve_api is_url is_email (worker_Start srv) salt req w in
  r = RPayout (RespQueued (pending_f64 v)) /\
  queue w' = queue w ++ [encode_PayoutRequest (PayoutRequest.mkPayoutRequest id (pending_f64 v) (Validator.PublicKey v))] /\
  forall id', ledger w' id' = (ledger w id' + if bool_decide (id = id') then read_error (db w) id else 0)%Z.
Proof.
  intros Hm Hk Hr Hrel Hv Hp. pose proof Hrel as (Hf & Hkeyed & _).
  destruct (api_main_running inf env b srv Hm) as (_ & _ & _ & Hw).
  pose proof (worker_Start_declares srv _ (Hw Hk)) as Hq.
  destruct (RequestPayout_reliable id w Hrel) as (_ & _ & Hl).
  rewrite (serve_api_payout is_url is_email _ salt req id w Hr). unfold broker_route.
  rewrite bool_decide_eq_true_2 by exact Hq. unfold exec in Hl.
  rewrite (RequestPayout_no_fault id w v Hkeyed Hf Hv Hp) in Hl |- *. by split_and!.
Qed.

End Claims.

(** ** Witnesses, with the symbolic JWT and bcrypt libraries. *)

Lemma payout_lost_without_worker_witness :
  (serve_api (fun _ => true) ex_is_email (mkApiServer (Load ∅) WDisabled ∅) 0 (ex_payout_post "V1")
     (ex_payout_world 500 [])).1 = RPayout (RespQueued 500) /\
  queue (serve_api (fun _ => true) ex_is_email (mkApiServer (Load ∅) WDisabled ∅) 0 (ex_payout_post "V1")
     (ex_payout_world 500 [])).2 = [].
Proof.
  destruct (payout_lost_without_worker (fun _ => true) ex_is_email ex_infra ∅ ∅
              (mkApiServer (Load ∅) WDisabled ∅) 0 (ex_payout_post "V1") "V1"
              (ex_payout_world 500 []) (ex_payout_validator 500)) as (_ & H1 & H2 & _);
    [vm_compute; reflexivity|vm_compute; reflexivity|apply not_elem_of_empty|vm_compute; reflexivity| |vm_compute; reflexivity|reflexivity|].
  - split_and!; [reflexivity| |constructor]. eapply bool_decide_unpack. vm_compute. exact I.
  - split; [exact H1|exact H2].
Defined.

Lemma deployed_payout_queued_witness :
  let '(r, w') := serve_api (fun _ => true) ex_is_email
                    (worker_Start (mkApiServer (Load ex_worker_env) (WStarting "platform-key") ∅)) 0
                    (ex_payout_post "V1") (ex_payout_world 500 []) in
  r = RPayout (RespQueued (pending_f64 (ex_payout_validator 500))) /\
  queue w' = [encode_PayoutRequest (PayoutRequest.mkPayoutRequest "V1" (pending_f64 (ex_payout_validator 500))
                                     (Validator.PublicKey (ex_payout_validator 500)))] /\
  forall id', ledger w' id' = (ledger (ex_payout_world 500 []) id' +
                 if bool_decide ("V1" = id') then read_error (db (ex_payout_world 500 [])) "V1" else 0)%Z.
Proof.
  apply (deployed_payout_queued (fun _ => true) ex_is_email ex_infra ex_worker_env ∅
           (mkApiServer (Load ex_worker_env) (WStarting "platform-key") ∅) 0 (ex_payout_post "V1") "V1"
           (ex_payout_world 500 []) (ex_payout_validator 500));
    [vm_compute; reflexivity|vm_compute; discriminate|vm_compute; reflexivity| |vm_compute; reflexivity|reflexivity].
  split_and!; [reflexivity| |constructor]. eapply bool_decide_unpack. vm_compute. exact I.
Defined.
