(* ===== verification/Conservation.v ===== *)
(** * Conservation of the ledger across executions

    System.v bounds the ledger: no step raises it while credits read
    exactly as float64 values.  This file computes it.  In a reliable
    world whose payout ids are fresh, every step of every process keeps
    every validator's ledger exactly, except the delivery of a request
    whose transfer was not sent and whose refund the decimal(20,2)
    column rejects (that amount leaves the ledger), and a payout
    request for a credit above 2^53 lamports, which queues the float64
    nearest the credit and zeroes the credit.
    Freshness of payout ids is itself an invariant of the system,
    because every identifier is drawn from the world's uuid supply and
    no operation moves the supply back ([uuid_grows], Frame.v). *)

From S2P Require Import Prelude Json Store Frame Hub Payout Worker WebsiteApi Jwt Config Account Auth System Progress.

(** What one delivery loses for a validator (System.refund_lost, for the
    request at the head of the queue when the worker can record it). *)
Definition deliver_lost (s : Sys) (id : string) : Z :=
  match queue (sworld s) with
  | m :: _ =>
      match unmarshal_ok (decode_PayoutRequest (Some m)) with
      | Some req =>
          match validators (db (sworld s)) !! PayoutRequest.ValidatorID req with
          | Some vd =>
              if decimal_20_2_ok (PayoutRequest.Amount req)
              then refund_lost req vd (mkWorkerProc (swallet s) (sworld s) (schain s)) id else 0%Z
          | None => 0%Z
          end
      | None => 0%Z
      end
  | [] => 0%Z
  end.

(** What one step loses for a validator: a delivery loses a rejected
    refund; a payout request loses the credit minus its float64 read
    (negative when the read rounds up). *)
Definition step_lost (l : Label) (s : Sys) (id : string) : Z :=
  match l with
  | LDeliver => deliver_lost s id
  | LPayout pid => if bool_decide (pid = id) then (- read_error (db (sworld s)) pid)%Z else 0%Z
  | _ => 0%Z
  end.

(** What a run of labelled steps loses for a validator. *)
Fixpoint lost (ls : list Label) (s : Sys) (id : string) : Z :=
  match ls with
  | [] => 0%Z
  | l :: ls' => (step_lost l s id + lost ls' (sys_step l s) id)%Z
  end.

(** Payout ids not yet drawn are unused. *)
Definition fresh (w : World) : Prop := payouts_fresh (db w) (next_uuid w).

(** A system whose validator V1 holds a credit one lamport below the
    decimal(20,2) bound, with a queued request for 500 lamports whose
    first RPC call fails. *)
Definition ex_overflow_sys : Sys :=
  mkSys (Hub.mkHub ∅ ∅) (ex_wworld (10 ^ 18 - 1) [encode_PayoutRequest ex_req]) (mkChain [] 0 [true] []) "wallet".

(** A system whose worker takes V1's request for 500 lamports, sends
    it and sees it finalized, and whose acknowledgement is lost. *)
Definition ex_lost_ack_sys : Sys :=
  mkSys (Hub.mkHub ∅ ∅) (ex_wworld 0 [encode_PayoutRequest ex_req]) (mkChain [] 0 [] [StatusSeen true false]) "wallet".

(** ** The uuid supply of each handler. *)

#[export] Hint Extern 1 (keeps uuid_grows (st_modify _)) => apply keeps_uuid_modify; intros; reflexivity : keeps.

Lemma handle_frame_uuid c f : keeps (S:=HubProc) uuid_grows (handle_frame c f).
Proof. unfold handle_frame, handleSignup, handleValidate, find_or_create, run_callback. keeps_solve. Qed.

Lemma monitor_tick_uuid : keeps (S:=HubProc) uuid_grows monitor_tick.
Proof. unfold monitor_tick, dispatch_one. keeps_solve. Qed.

Lemma RequestPayout_uuid id : keeps (S:=World) uuid_grows (RequestPayout id).
Proof. unfold RequestPayout, publish. keeps_solve. Qed.

Lemma GetValidatorBalance_uuid id : keeps (S:=World) uuid_grows (GetValidatorBalance id).
Proof. unfold GetValidatorBalance. keeps_solve. Qed.

Lemma deliver_uuid : keeps (S:=WorkerProc) uuid_grows deliver.
Proof.
  unfold deliver, processPayoutRequest, executeSolanaTransfer, waitForConfirmation. keeps_solve.
Qed.

Section ApiUuid.
Context `{!JwtLib} `{!Bcrypt}.

Lemma serve_protected_uuid is_url cfg hdr r : keeps (S:=World) uuid_grows (serve_protected is_url cfg hdr r).
Proof.
  unfold serve_protected, website_handler, CreateWebsite, GetWebsites, GetWebsiteStatus, DeleteWebsite.
  keeps_solve.
Qed.

Lemma Signup_uuid is_email cfg salt req : keeps (S:=World) uuid_grows (Signup is_email cfg salt req).
Proof. unfold Signup. keeps_solve. Qed.

Lemma Login_uuid is_email cfg req : keeps (S:=World) uuid_grows (Login is_email cfg req).
Proof. unfold Login. keeps_solve. Qed.

End ApiUuid.

(** ** Steps that leave the payouts table alone. *)

Lemma fresh_keep w w' : payouts (db w') = payouts (db w) -> uuid_grows w w' -> fresh w -> fresh w'.
Proof. unfold fresh, payouts_fresh, uuid_grows. intros Hp Hu Hf k Hk. rewrite Hp. apply Hf. lia. Qed.

(** A step that keeps the tables the ledger reads, or changes them as
    the hub credits a tick or registers a validator, keeps every
    ledger and the freshness of payout ids. *)
Lemma conserved_ledger_db w w' :
  frame eq ledger_db w w' -> uuid_grows w w' -> fresh w -> fresh w' /\ forall id, ledger w' id = ledger w id.
Proof.
  intros (Hq & _ & Hv & Ht & Hp) Hu Hf. split; [by eapply fresh_keep|].
  intros id. unfold ledger, owed, settled, ticks_of, pending_of. by rewrite <- Hq, Hv, Ht, Hp.
Qed.

Lemma handle_frame_conserves c f s :
  let s' := exec (handle_frame c f) s in
  fresh (world s) -> fresh (world s') /\ forall id, ledger (world s') id = ledger (world s) id.
Proof.
  cbv zeta. intros Hf. destruct (handle_frame_frame c f s) as (Hq & Hfl & _). simpl in Hq, Hfl.
  pose proof (handle_frame_uuid c f s) as Hu.
  destruct (handle_frame_db c f s) as [Hd|[[vid Hc]|Hr]]; cbv zeta in *.
  - apply conserved_ledger_db; [|exact Hu|exact Hf]. unfold frame, ledger_db. rewrite Hd. split_and!; [done|exact Hfl|done..].
  - split; [eapply fresh_keep; [|exact Hu|exact Hf]; by destruct Hc as (? & ? & _ & _ & _ & _ & _ & _ & ?)|].
    intros id. by rewrite (credited_ledger (world s) _ vid id (eq_sym Hq) Hc).
  - split; [eapply fresh_keep; [|exact Hu|exact Hf]; by destruct Hr as (? & _ & _ & ->)|].
    intros id. by rewrite (new_validator_row_ledger (world s) _ id (eq_sym Hq) Hr).
Qed.

Lemma frame_eq_ledger_db w w' : frame eq eq w w' -> frame eq ledger_db w w'.
Proof. intros (Hq & Hf & Hd). split_and!; [done|done|]. unfold ledger_db. by rewrite Hd. Qed.

Lemma monitor_tick_conserves s :
  let s' := exec monitor_tick s in
  fresh (world s) -> fresh (world s') /\ forall id, ledger (world s') id = ledger (world s) id.
Proof. apply conserved_ledger_db; [apply frame_eq_ledger_db, monitor_tick_frame|apply monitor_tick_uuid]. Qed.

Lemma GetValidatorBalance_conserves id w :
  let w' := exec (GetValidatorBalance id) w in
  fresh w -> fresh w' /\ forall id', ledger w' id' = ledger w id'.
Proof. apply conserved_ledger_db; [apply frame_eq_ledger_db, GetValidatorBalance_frame|apply GetValidatorBalance_uuid]. Qed.

(** In a reliable world a payout request moves the credit into the
    queue as read into a float64. *)
Lemma RequestPayout_conserves id w :
  let w' := exec (RequestPayout id) w in
  reliable w -> fresh w ->
  fresh w' /\ forall id', ledger w' id' = (ledger w id' + if bool_decide (id = id') then read_error (db w) id else 0)%Z.
Proof.
  cbv zeta. intros Hr Hfr. destruct (RequestPayout_reliable id w Hr) as (_ & Hp & Hl).
  split; [eapply fresh_keep; [exact Hp|apply RequestPayout_uuid|exact Hfr]|exact Hl].
Qed.

Section ApiConserves.
Context `{!JwtLib} `{!Bcrypt}.

Lemma serve_protected_conserves is_url cfg hdr r w :
  let w' := exec (serve_protected is_url cfg hdr r) w in
  fresh w -> fresh w' /\ forall id, ledger w' id = ledger w id.
Proof. apply conserved_ledger_db; [apply serve_protected_frame|apply serve_protected_uuid]. Qed.

Lemma Signup_conserves is_email cfg salt req w :
  let w' := exec (Signup is_email cfg salt req) w in
  fresh w -> fresh w' /\ forall id, ledger w' id = ledger w id.
Proof. apply conserved_ledger_db; [apply Signup_frame|apply Signup_uuid]. Qed.

Lemma Login_conserves is_email cfg req w :
  let w' := exec (Login is_email cfg req) w in
  fresh w -> fresh w' /\ forall id, ledger w' id = ledger w id.
Proof. apply conserved_ledger_db; [apply Login_frame|apply Login_uuid]. Qed.

End ApiConserves.

(** ** The delivery. *)

Lemma queued_amount_undecodable id m :
  unmarshal_ok (decode_PayoutRequest (Some m)) = None -> queued_amount id m = 0%Z.
Proof. unfold queued_amount. by intros ->. Qed.

Lemma deliver_conserves s id :
  let p := mkWorkerProc (swallet s) (sworld s) (schain s) in
  reliable (sworld s) -> fresh (sworld s) ->
  fresh (wworld (exec deliver p)) /\ ledger (wworld (exec deliver p)) id = (ledger (sworld s) id - deliver_lost s id)%Z.
Proof.
  cbv zeta. set (p := mkWorkerProc (swallet s) (sworld s) (schain s)). intros Hrel Hfr.
  pose proof Hrel as (Hf & _ & _). unfold deliver_lost.
  destruct (queue (sworld s)) as [|m rest] eqn:Hq.
  { unfold deliver, exec, st_bind, st_get. simpl. rewrite Hq. simpl. split; [done|lia]. }
  destruct (unmarshal_ok (decode_PayoutRequest (Some m))) as [req|] eqn:Hdec.
  2: { assert (Hp : processPayoutRequest m p = (NackDrop, p)) by (unfold processPayoutRequest; by rewrite Hdec).
       rewrite (deliver_head p m rest Hq) by (rewrite Hp; simpl; done). rewrite Hp. simpl.
       split; [done|]. unfold ledger, owed, queued_for. cbn [wworld set_queue queue db p]. rewrite Hq, sumZ_cons.
       rewrite queued_amount_undecodable by exact Hdec. lia. }
  destruct (validators (db (sworld s)) !! PayoutRequest.ValidatorID req) as [vd|] eqn:Hval;
    [destruct (decimal_20_2_ok (PayoutRequest.Amount req)) eqn:Hamt|].
  - split; [|apply (deliver_ledger_exact p m rest req vd id Hrel Hq Hdec Hval Hamt), (Hfr (next_uuid (sworld s))); lia].
    assert (Hset : settleable (db (sworld s)) m) by (unfold settleable; rewrite Hdec; by split; [eexists|]).
    destruct (processPayoutRequest_consumes m p Hf Hset Hfr) as (Hack & _ & Hq' & _ & Hfr').
    rewrite (deliver_head p m rest Hq Hack) by (rewrite Hq'; exact Hq). exact Hfr'.
  - rewrite (deliver_poison p m rest Hf Hq) by (unfold poison; rewrite Hdec; by right).
    split; [intros k Hk; apply Hfr; simpl in *; lia|]. unfold ledger, owed. simpl. rewrite Hq. unfold queued_for. rewrite sumZ_cons. lia.
  - rewrite (deliver_poison p m rest Hf Hq) by (unfold poison; rewrite Hdec; by left).
    split; [intros k Hk; apply Hfr; simpl in *; lia|]. unfold ledger, owed. simpl. rewrite Hq. unfold queued_for. rewrite sumZ_cons. lia.
Qed.

(** ** Every step. *)

Lemma run_cons l ls s : run (l :: ls) s = run ls (sys_step l s).
Proof. done. Qed.

Lemma step_conserves l s id :
  reliable (sworld s) -> fresh (sworld s) ->
  reliable (sworld (sys_step l s)) /\ fresh (sworld (sys_step l s)) /\
  ledger (sworld (sys_step l s)) id = (ledger (sworld s) id - step_lost l s id)%Z.
Proof.
  intros Hr Hf. split; [exact (step_reliable _ _ (sys_step_step l s) Hr)|].
  destruct l as [c f|c| |pid|pid| |J is_url cfg hdr r|J B is_email cfg salt req|J B is_email cfg req];
    unfold step_lost; simpl.
  - destruct (handle_frame_conserves c f (mkHubProc (shub s) (sworld s)) Hf) as [? Hl].
    split; [done|rewrite Hl; simpl; lia].
  - split; [done|lia].
  - destruct (monitor_tick_conserves (mkHubProc (shub s) (sworld s)) Hf) as [? Hl].
    split; [done|rewrite Hl; simpl; lia].
  - destruct (RequestPayout_conserves pid (sworld s) Hr Hf) as [? Hl]. split; [done|rewrite Hl].
    case_bool_decide; lia.
  - destruct (GetValidatorBalance_conserves pid (sworld s) Hf) as [? Hl]. split; [done|rewrite Hl; simpl; lia].
  - exact (deliver_conserves s id Hr Hf).
  - destruct (@serve_protected_conserves J is_url cfg hdr r (sworld s) Hf) as [? Hl]. split; [done|rewrite Hl; simpl; lia].
  - destruct (@Signup_conserves J B is_email cfg salt req (sworld s) Hf) as [? Hl]. split; [done|rewrite Hl; simpl; lia].
  - destruct (@Login_conserves J B is_email cfg req (sworld s) Hf) as [? Hl]. split; [done|rewrite Hl; simpl; lia].
Qed.

(** ** Lost acknowledgements. *)

Lemma ledger_pop w m rest id :
  queue w = m :: rest -> ledger (set_queue rest w) id = (ledger w id - queued_amount id m)%Z.
Proof. intros Hq. unfold ledger, owed, queued_for. simpl. rewrite Hq, sumZ_cons. lia. Qed.

Lemma take4_false l :
  Forall (fun b => b = false) (take 4 l) ->
  hd false l = false /\ hd false (tail l) = false /\ hd false (drop 2 l) = false /\ hd false (tail (drop 2 l)) = false.
Proof. destruct l as [|a [|b [|c [|d l]]]]; simpl; intros H; decompose_Forall_hyps; done. Qed.

Lemma deliver_unacked_head p m rest :
  queue (wworld p) = m :: rest -> exec deliver_unacked p = (processPayoutRequest m p).2.
Proof. intros Hq. unfold deliver_unacked, exec, st_bind, st_get. simpl. rewrite Hq. by destruct (processPayoutRequest m p). Qed.

Lemma refund_lost_sent req vd p id : transfer_sent req p = true -> refund_lost req vd p id = 0%Z.
Proof. intros Ht. unfold refund_lost. by rewrite Ht, andb_false_r. Qed.

Section LostAck.
Context (p : WorkerProc) (m : json) (rest : list json) (req : PayoutRequest) (vd : Validator).
Hypothesis Hrel : reliable (wworld p).
Hypothesis Hfr : fresh (wworld p).
Hypothesis Hq : queue (wworld p) = m :: rest.
Hypothesis Hdec : unmarshal_ok (decode_PayoutRequest (Some m)) = Some req.
Hypothesis Hval : validators (db (wworld p)) !! PayoutRequest.ValidatorID req = Some vd.
Hypothesis Hamt : decimal_20_2_ok (PayoutRequest.Amount req) = true.
Hypothesis Hsent : transfer_sent req p = true.

(** A head request whose transfer is sent: the worker's turn keeps the
    world reliable, its payout ids fresh and the queue as it was, hands
    the transfer to the node, and keeps every ledger but the
    requester's, which grows by the amount: the request is now both
    paid (its record carries the signature) and queued. *)
Lemma processPayoutRequest_paid_queued :
  let p' := (processPayoutRequest m p).2 in
  (processPayoutRequest m p).1 <> NackRequeue /\
  reliable (wworld p') /\ fresh (wworld p') /\ queue (wworld p') = m :: rest /\
  chain p' = with_statuses (statuses (chain p')) (sent_chain (platformWallet p) (PayoutRequest.PublicKey req)
               (uint64_of_amount (PayoutRequest.Amount req)) (chain p)) /\
  forall id, ledger (wworld p') id = (ledger (wworld p) id + queued_amount id m)%Z.
Proof.
  pose proof Hrel as (Hf & Hk & Hn). destruct (transfer_sent_true req p Hsent) as (Hpk & H1 & H2).
  assert (Hset : settleable (db (wworld p)) m) by (unfold settleable; rewrite Hdec; by split; [eexists|]).
  destruct (processPayoutRequest_consumes m p Hf Hset Hfr) as (Hack & Hf' & Hq' & _ & Hfr').
  destruct (processPayoutRequest_frame m p) as (_ & _ & Ht & Hk'). unfold exec in Ht, Hk'. simpl in Ht, Hk'.
  pose proof (processPayoutRequest_sent m p req vd Hdec Hf Hval Hamt (Hfr _ (le_n _)) Hpk H1 H2) as Hs.
  pose proof (fun id => processPayoutRequest_exact m p req vd Hdec Hf Hval Hamt (Hfr _ (le_n _)) id) as He.
  destruct (processPayoutRequest m p) as [ack p']. cbn [fst snd] in *. destruct Hs as (Hc & _).
  split_and!; [done|split_and!; [done|auto|by rewrite Hq']|done|by rewrite Hq'|exact Hc|].
  intros id. destruct (He id) as [_ He']. rewrite refund_lost_sent in He' by exact Hsent.
  unfold ledger, owed, ticks_of. rewrite Hq', Ht, Hq. lia.
Qed.

End LostAck.

(** ** Claims. *)

(** C24. The ledger is conserved exactly: in every run of the system
    (any sequence of hub frames from any sender, ticks, disconnections,
    payout and balance requests, website requests, signups, logins and
    worker deliveries, against any behaviour of the Solana node) from a
    reliable world whose undrawn payout ids are unused, every
    validator's ledger at the end equals its ledger at the start minus
    the amounts of the transfers that were not sent and whose refund
    the decimal(20,2) column rejected, and minus what each payout
    request lost by reading the credit into a float64 (nothing up to
    2^53 lamports); nothing else creates or destroys money. *)
Theorem ledger_conserved ls s id :
  reliable (sworld s) -> fresh (sworld s) ->
  ledger (sworld (run ls s)) id = (ledger (sworld s) id - lost ls s id)%Z.
Proof.
  revert s. induction ls as [|l ls IH]; intros s Hr Hf; [simpl; lia|].
  rewrite run_cons. destruct (step_conserves l s id Hr Hf) as (Hr' & Hf' & Hl).
  rewrite (IH _ Hr' Hf'), Hl. simpl. lia.
Qed.

(** C29. Delivery is at least once and the worker does not deduplicate.
    When the worker takes a request it can record (its validator has a
    row, its amount fits decimal(20,2)) and whose transfer the node
    accepts, and its acknowledgement is lost (the worker stops, or the
    connection drops, before the Ack reaches RabbitMQ, which then
    requeues the message), the redelivery is processed like a new
    request: the node receives the same transfer twice, the message
    then leaves the queue, and the requester's ledger ends higher by
    the amount of the request, every other ledger unchanged. *)
Theorem redelivered_request_paid_twice s m rest req vd :
  reliable (sworld s) -> fresh (sworld s) -> queue (sworld s) = m :: rest ->
  unmarshal_ok (decode_PayoutRequest (Some m)) = Some req ->
  validators (db (sworld s)) !! PayoutRequest.ValidatorID req = Some vd ->
  decimal_20_2_ok (PayoutRequest.Amount req) = true ->
  PublicKeyFromBase58_ok (PayoutRequest.PublicKey req) = true ->
  Forall (fun b => b = false) (take 4 (rpc_faults (schain s))) ->
  let s2 := sys_step LDeliver (worker_run deliver_unacked s) in
  let t k := mkTransfer (swallet s) (PayoutRequest.PublicKey req)
               (uint64_of_amount (PayoutRequest.Amount req)) (sig_string k) in
  queue (sworld s2) = rest /\
  transfers (schain s2) = transfers (schain s) ++ [t (next_sig (schain s)); t (S (next_sig (schain s)))] /\
  forall id, ledger (sworld s2) id = (ledger (sworld s) id + queued_amount id m)%Z.
Proof.
  intros Hrel Hfr Hq Hdec Hval Hamt Hpk Hrf. cbv zeta.
  destruct (take4_false _ Hrf) as (H1 & H2 & H3 & H4).
  change (sys_step LDeliver ?x) with (worker_run deliver x). unfold worker_run.
  set (p := mkWorkerProc (swallet s) (sworld s) (schain s)).
  assert (Hs0 : transfer_sent req p = true) by (unfold transfer_sent; simpl; by rewrite Hpk, H1, H2).
  destruct (processPayoutRequest_paid_queued p m rest req vd Hrel Hfr Hq Hdec Hval Hamt Hs0)
    as (_ & Hrel1 & Hfr1 & Hq1 & Hc1 & Hl1).
  rewrite (deliver_unacked_head p m rest Hq). cbn [sworld schain swallet shub].
  assert (Hrow : is_Some (validators (db (wworld (processPayoutRequest m p).2)) !! PayoutRequest.ValidatorID req)).
  { destruct (processPayoutRequest_consumes m p (proj1 Hrel)
      ltac:(unfold settleable; rewrite Hdec; by split; [eexists|]) Hfr) as (_ & _ & _ & Hrows & _).
    apply Hrows. by eexists. }
  destruct Hrow as [vd1 Hval1].
  set (p1 := mkWorkerProc (swallet s) (wworld (processPayoutRequest m p).2) (chain (processPayoutRequest m p).2)).
  assert (Hs1 : transfer_sent req p1 = true) by (unfold transfer_sent; simpl; rewrite Hc1; simpl; by rewrite Hpk, H3, H4).
  destruct (processPayoutRequest_paid_queued p1 m rest req vd1 Hrel1 Hfr1 Hq1 Hdec Hval1 Hamt Hs1)
    as (Hack2 & _ & _ & Hq2 & Hc2 & Hl2).
  rewrite (deliver_head p1 m rest Hq1 Hack2 Hq2). cbn [wworld chain set_queue queue].
  split_and!; [done|rewrite Hc2; simpl; rewrite Hc1; simpl; by rewrite <- app_assoc|].
  intros id. rewrite (ledger_pop _ m rest id Hq2), Hl2. simpl. rewrite Hl1. subst p. simpl. lia.
Qed.

(** ** Witness: the refund of 500 lamports is rejected, and the payout
    request then reads the credit 10^18 - 1 as the float64 10^18. *)

Lemma ledger_conserved_witness :
  ledger (sworld (run [LTick; LDeliver; LPayout "V1"] ex_overflow_sys)) "V1" =
  (ledger (sworld ex_overflow_sys) "V1" - 499)%Z.
Proof.
  rewrite (ledger_conserved [LTick; LDeliver; LPayout "V1"] ex_overflow_sys "V1").
  - f_equal.
  - split_and!; [reflexivity|eapply bool_decide_unpack; vm_compute; exact I|].
    constructor; [|constructor]. intros id. rewrite (queued_amount_decoded _ _ ex_req) by reflexivity.
    case_bool_decide; simpl; lia.
  - intros k _. apply lookup_empty.
Defined.

Lemma redelivered_request_paid_twice_witness :
  let s2 := sys_step LDeliver (worker_run deliver_unacked ex_lost_ack_sys) in
  lamports <$> transfers (schain s2) = [500; 500]%Z /\ queue (sworld s2) = [] /\
  ledger (sworld s2) "V1" = (ledger (sworld ex_lost_ack_sys) "V1" + 500)%Z.
Proof.
  cbv zeta. destruct (redelivered_request_paid_twice ex_lost_ack_sys (encode_PayoutRequest ex_req) [] ex_req
    (ex_wvalidator 0)) as (Hq & Ht & Hl); try reflexivity.
  - split_and!; [reflexivity|eapply bool_decide_unpack; vm_compute; exact I|].
    constructor; [|constructor]. intros id. rewrite (queued_amount_decoded _ _ ex_req) by reflexivity.
    case_bool_decide; simpl; lia.
  - intros k _. apply lookup_empty.
  - repeat constructor.
  - split_and!; [rewrite Ht; reflexivity|exact Hq|rewrite Hl; f_equal].
Defined.
